(** * STEF Global: the thermal-metabolic risk engine of [stefpro.py] and
    [stefpro69.py]

    Numbers.  The arithmetic of the files is read twice.

    In [Stefpro] and [Stefpro69] every finite Python float is a rational:
    the inputs of the engine (temperatures, the nutritional index, the
    Kelvin value of the remote payload) are values of [Q], and [+], [-],
    [*], [/] on them are the exact operations of [Q].  [int(x)] is
    truncation toward zero and [round(x, 1)] is rounding to the nearest
    tenth with ties to even.  [np.cos], [np.sin] and [np.exp] are the
    functions of the real numbers, so the values computed through them
    ([base_temp], [SMR], [population]) live in [R]; [round(_, 1)] brings
    the fallback temperature back to a decimal of [Q].  This reading
    abstracts the rounding of the float unit away; it carries the
    properties of order and range: bounds, monotonicity, the forecast.

    In [Stefpro_binary64] and [Stefpro69_binary64] a float is a binary64
    float, as in Python: the operations round to nearest with ties to even,
    [int] truncates the float it is given, [round(x, 1)] is the float
    nearest to the nearest tenth of the exact value of [x], and a JSON
    number is an [int] or a [float].  This reading carries what depends on
    the very value an expression takes: the score that [int] cuts out of a
    branch's formula (28 at [T = 14.5], where the exact quotient is 29) and
    the live temperature ([round(300.2 - 273.15, 1)] is 27.1).

    Effects.  The clock ([datetime.now()]) and the outcome of the HTTP query
    are explicit arguments.  A Python exception is [None] in [option].  A
    message the page shows is a value of [St.message], the Streamlit call
    with its text. *)

From Stdlib Require Import ZArith QArith Qround Qabs Qreals.
From Stdlib Require Import Reals Psatz.
From Stdlib Require Import Bool Ascii String List DecimalString.
From Stdlib Require PrimFloat SpecFloat FloatOps FloatAxioms.
Import ListNotations.

Local Open Scope Z_scope.
Local Open Scope Q_scope.

(** ** Python primitives *)

Module Py.

(** [int(x)] on a float: truncation toward zero. *)
Definition int (x : Q) : Z := Z.quot (Qnum x) (Zpos (Qden x)).

(** Nearest integer, ties to even, from the floor [fl] of a number and the
    comparison of its fractional part with one half. *)
Definition half_even (fl : Z) (c : comparison) : Z :=
  match c with
  | Lt => fl
  | Gt => fl + 1
  | Eq => if Z.even fl then fl else fl + 1
  end%Z.

Definition round_half_even (x : Q) : Z :=
  half_even (Qfloor x) ((x - inject_Z (Qfloor x)) ?= (1 # 2)).

(** [round(x, 1)] on a float. *)
Definition round1 (x : Q) : Q := round_half_even (x * 10) # 10.

(** [x / y] on floats: a zero divisor raises. *)
Definition div (x y : Q) : option Q :=
  if Qeq_bool y 0 then None else Some (x / y).

(** [max(a, b)] and [min(a, b)]: Python keeps the first argument unless the
    second is strictly greater (smaller). *)
Definition max (a b : R) : R := if Rlt_dec a b then b else a.
Definition min (a b : R) : R := if Rlt_dec b a then b else a.

(** Comparison of two reals, from the total order. *)
Definition Rcmp (a b : R) : comparison :=
  match total_order_T a b with
  | inleft (left _) => Lt
  | inleft (right _) => Eq
  | inright _ => Gt
  end.

(** [round(x, 1)] where [x] was computed through [np.cos] and [np.sin]. *)
Definition round_half_even_R (x : R) : Z :=
  half_even (Int_part x) (Rcmp (x - IZR (Int_part x)) (1 / 2)).

Definition round1_R (x : R) : Q := round_half_even_R (x * 10) # 10.

(** [x < y] on floats. *)
Definition lt (x y : Q) : bool := negb (Qle_bool y x).

(** [str(n)] of an integer, as an f-string writes it. *)
Definition str (n : Z) : string := NilZero.string_of_int (Z.to_int n).

(** [s1 in s2] on strings. *)
Definition contains (s1 s2 : string) : bool :=
  match index 0 s1 s2 with Some _ => true | None => false end.

(** [any(mask)] and [np.where(mask)[0][0]], the index of the first [True]
    (the length of the mask when there is none). *)
Definition any (mask : list bool) : bool := existsb (fun b => b) mask.

Fixpoint where0 (mask : list bool) : nat :=
  match mask with
  | [] => O
  | true :: _ => O
  | false :: rest => S (where0 rest)
  end.

(** Values decoded by [response.json()]. *)
#[warnings="-register-all"] Inductive value : Type :=
  | VNone
  | VBool (b : bool)
  | VNum (q : Q)
  | VStr (s : string)
  | VList (l : list value)
  | VDict (d : list (string * value)).

Fixpoint assoc (k : string) (d : list (string * value)) : option value :=
  match d with
  | [] => None
  | (k', v) :: rest => if String.eqb k k' then Some v else assoc k rest
  end.

(** [v[k]] for a string key: only a dict has one, anything else raises. *)
Definition getitem_key (v : value) (k : string) : option value :=
  match v with
  | VDict d => assoc k d
  | _ => None
  end.

(** [v[i]] for an integer index: a list element, a one-character string of
    a str; a decoded dict has string keys only, so it raises [KeyError]. *)
Definition getitem_idx (v : value) (i : nat) : option value :=
  match v with
  | VList l => nth_error l i
  | VStr s =>
      match String.get i s with
      | Some c => Some (VStr (String c EmptyString))
      | None => None
      end
  | _ => None
  end.

(** [v - c] for a float [c]: numbers, and [bool] as the integers 0 and 1. *)
Definition sub_float (v : value) (c : Q) : option Q :=
  match v with
  | VNum q => Some (q - c)
  | VBool b => Some ((if b then 1 else 0) - c)
  | _ => None
  end.

(** The clock and [strftime('%Y-%m-%d %H:%M')]. *)
Record datetime : Type := mk_datetime
  { year : Z; month : Z; day : Z; hour : Z; minute : Z }.

Definition digit (n : Z) : ascii := ascii_of_nat (48 + Z.to_nat (n mod 10)).

Definition pad2 (n : Z) : string :=
  String (digit (n / 10)) (String (digit n) EmptyString).

Definition strftime (now : datetime) : string :=
  (pad2 (year now / 100) ++ pad2 (year now) ++ "-" ++ pad2 (month now) ++ "-"
   ++ pad2 (day now) ++ " " ++ pad2 (hour now) ++ ":" ++ pad2 (minute now))%string.

(** What [requests.get(url, params=params, timeout=10)] did: it raised
    (timeout, connection error, ...) or it gave a response with a status
    code, whose [json()] either decodes a value or raises. *)
Inductive http_result : Type :=
  | Raised
  | Response (status_code : Z) (json : option value).

End Py.

(** The Streamlit call that shows a message: [st.error], [st.warning],
    [st.info] or [st.success], with its text. *)
Module St.
Inductive message : Type :=
  | error (text : string)
  | warning (text : string)
  | info (text : string)
  | success (text : string).

Inductive level : Type := Error | Warning | Info | Success.

Definition level_of (m : message) : level :=
  match m with
  | error _ => Error
  | warning _ => Warning
  | info _ => Info
  | success _ => Success
  end.

Definition text_of (m : message) : string :=
  match m with
  | error t | warning t | info t | success t => t
  end.
End St.

(** The dict both temperature functions return. *)
Record reading : Type := mk_reading
  { success : bool; temperature : Q; source : string; timestamp : string }.

(** What the analysis block computes for one click on the map; these are the
    values shown on the dashboard and written to the CSV report. *)
Module Report.
Record t : Type := mk
  { T : Q; T_critical : Q; risk : Z; status : string; SMR : R; Q10 : Q;
    margin : Q; decay_rate : R; population : list R;
    collapse_year : option Z }.
End Report.

Notation "x <- c ;; k" := (match c with Some x => k | None => None end)
  (at level 61, c at next level, right associativity).

(** ** stefpro.py *)

Module Stefpro.

(** [get_temperature_fallback(lat, lon)], read at the clock [now]. *)
Definition get_temperature_fallback (now : Py.datetime) (lat lon : Q) : reading :=
  let base_temp := (28 * cos (Q2R (Qabs lat) * (PI / 180)) + 5)%R in
  let seasonal_variation := (3 * sin (IZR (Py.month now - 3) * PI / 6))%R in
  let temp := (base_temp + seasonal_variation)%R in
  {| success := false;
     temperature := Py.round1_R (Py.max 10 (Py.min 36 temp));
     source := "Geographic Model (Estimated)";
     timestamp := Py.strftime now |}.

(** The body of the [try] of [get_sea_temperature_live]: [Some] is the dict
    it returns, [None] is leaving the [try] without a return, by a status
    other than 200 or by an exception (which [except Exception] swallows
    after a warning on the page). *)
Definition live_try (now : Py.datetime) (response : Py.http_result)
  : option reading :=
  match response with
  | Py.Raised => None
  | Py.Response status_code json =>
      if (status_code =? 200)%Z then
        data <- json ;;
        table <- Py.getitem_key data "table" ;;
        rows <- Py.getitem_key table "rows" ;;
        row <- Py.getitem_idx rows 0 ;;
        temp_kelvin <- Py.getitem_idx row 3 ;;
        temp_celsius <- Py.sub_float temp_kelvin 273.15 ;;
        Some {| success := true;
                temperature := Py.round1 temp_celsius;
                source := "NOAA Satellite (Live)";
                timestamp := (Py.strftime now ++ " UTC")%string |}
      else None
  end.

(** [get_sea_temperature_live(lat, lon)] for a given outcome of the query
    (the one-hour [st.cache_data] memoisation is not modelled). *)
Definition get_sea_temperature_live (now : Py.datetime) (lat lon : Q)
    (response : Py.http_result) : reading :=
  match live_try now response with
  | Some r => r
  | None => get_temperature_fallback now lat lon
  end.

(** The scenario offset, by the substring tests of the script. *)
Definition temp_shift (scenario : string) : Q :=
  if Py.contains "1.5" scenario then 1.5
  else if Py.contains "3.2" scenario then 3.2
  else 0.0.

(** [T = temp_data['temperature'] + temp_shift]. *)
Definition effective_T (temperature shift : Q) : Q := temperature + shift.

Definition base_limit : Q := 31.5.
Definition starvation_penalty (ni : Q) : Q := 1.07 * (1 - ni).
Definition T_critical (ni : Q) : Q := base_limit - starvation_penalty ni.

(** The [if]/[elif] chain that sets [risk] and [status]; [None] is the
    exception of a zero divisor in the third branch. *)
Definition risk_block (T ni : Q) : option (Z * string) :=
  if Qle_bool (T_critical ni) T then
    Some (100%Z, "LETHAL"%string)
  else if Qle_bool (T_critical ni - 2) T then
    Some (Py.int (75 + (T - (T_critical ni - 2)) / 2 * 25), "CRITICAL"%string)
  else if Qle_bool 25 T then
    match Py.div (T - 25) (T_critical ni - 2 - 25) with
    | Some q => Some (Py.int (50 + q * 25), "HIGH RISK"%string)
    | None => None
    end
  else
    Some (Py.int ((T / 25) * 50), "STABLE"%string).

Definition risk (T ni : Q) : option Z := option_map fst (risk_block T ni).
Definition status (T ni : Q) : option string := option_map snd (risk_block T ni).

Definition SMR (T : Q) : R := (72.4 * exp (0.0567 * Q2R T))%R.

Definition Q10 (T : Q) : Q := if Qle_bool 25 T then 2.45 else 2.07.

(** [margin = T_critical - T], the safety margin shown and exported. *)
Definition margin (T ni : Q) : Q := T_critical ni - T.

(** Population forecast tab. [years = np.arange(2026, 2051)]. *)
Definition years : list Z := map (fun k => (2026 + Z.of_nat k)%Z) (seq 0 25).

Definition decay_rate (risk : Z) : R := (0.05 + IZR risk / 500)%R.

Definition population (risk : Z) : list R :=
  map (fun y => (100 * exp (- decay_rate risk * IZR (y - 2026)))%R) years.

(** [collapse_year]: [None] is Python's [None]. *)
Definition collapse_year (risk : Z) : option Z :=
  let below := map (fun p => if Rlt_dec p 50 then true else false)
                   (population risk) in
  if Py.any below then Some (nth (Py.where0 below) years 0%Z) else None.

(** The analysis block of the script, from the temperature dict, the chosen
    scenario and the slider's [ni]; [None] is an exception. *)
Definition analyse (temp_data : reading) (scenario : string) (ni : Q)
  : option Report.t :=
  let T := effective_T (temperature temp_data) (temp_shift scenario) in
  match risk_block T ni with
  | Some (risk, status) =>
      Some {| Report.T := T;
              Report.T_critical := T_critical ni;
              Report.risk := risk;
              Report.status := status;
              Report.SMR := SMR T;
              Report.Q10 := Q10 T;
              Report.margin := margin T ni;
              Report.decay_rate := decay_rate risk;
              Report.population := population risk;
              Report.collapse_year := collapse_year risk |}
  | None => None
  end.

(** One click: the temperature is live or modelled by [data_mode]. *)
Definition on_click (now : Py.datetime) (lat lon : Q) (data_mode : bool)
    (response : Py.http_result) (scenario : string) (ni : Q)
  : option Report.t :=
  let temp_data :=
    if data_mode then get_sea_temperature_live now lat lon response
    else get_temperature_fallback now lat lon in
  analyse temp_data scenario ni.

(** The banner under the controls, by the slider's [ni]. *)
Definition ni_banner (ni : Q) : option St.message :=
  if Py.lt ni 0.4 then Some (St.error "⚠️ **STARVATION PENALTY ACTIVE:** Thermal tolerance reduced by 1.07°C")
  else if Py.lt ni 0.7 then Some (St.warning "⚙️ Moderate nutritional stress detected")
  else None.

(** The badge that names the data source of [temp_data]. *)
Definition source_badge (temp_data : reading) : St.message :=
  if success temp_data then
    St.success ("✅ **Data Source:** " ++ source temp_data
                ++ " | Updated: " ++ timestamp temp_data)
  else
    St.info ("ℹ️ **Data Source:** " ++ source temp_data
             ++ " | Timestamp: " ++ timestamp temp_data).

(** Tab 2, the oxygen budget over [x = np.linspace(10, 36, 200)], with the
    two [where] masks of [fill_between]. *)
Definition linspace : list R :=
  map (fun i => (10 + INR i * ((36 - 10) / 199))%R) (seq 0 200).

Definition supply (x : R) : R := (14 * exp (- 0.02 * x))%R.
Definition demand (x : R) : R := (2 * exp (0.09 * x))%R.

Definition surplus (x : R) : bool :=
  if Rlt_dec (demand x) (supply x) then true else false.
Definition deficit (x : R) : bool :=
  if Rle_dec (supply x) (demand x) then true else false.

(** Tab 4, the annual cycle over [months = np.arange(1, 13)]. *)
Definition months : list Z := map (fun k => (1 + Z.of_nat k)%Z) (seq 0 12).

Definition seasonal (T : Q) : list R :=
  map (fun m => (Q2R T + 5 * sin (IZR (m - 5) * PI / 6))%R) months.

(** Tab 5, the colour of the safety-margin bar and the alert under it. *)
Definition margin_color (margin : Q) : string :=
  if Py.lt 3 margin then "#22c55e"
  else if Py.lt 1 margin then "#fbbf24"
  else "#ef4444".

Definition margin_alert (margin : Q) : option St.message :=
  if Py.lt margin 0 then Some (St.error "🚨 **LETHAL ZONE:** Immediate intervention required!")
  else if Py.lt margin 1 then Some (St.warning "⚠️ **CRITICAL:** Population at imminent risk")
  else if Py.lt margin 3 then Some (St.info "ℹ️ **CAUTION:** Entering high-risk zone")
  else None.

(** Tab 6, the warning under the forecast: [if collapse_year:] holds for a
    year other than 0. *)
Definition collapse_warning (collapse_year : option Z) : option St.message :=
  match collapse_year with
  | Some y =>
      if (y =? 0)%Z then None
      else Some (St.warning ("⚠️ **Projected 50% population decline by " ++ Py.str y
                             ++ "**"))
  | None => None
  end.

(** The management recommendation, by the score. *)
Definition recommendation (risk : Z) : St.message :=
  if (85 <=? risk)%Z then St.error "
        🚨 **EMERGENCY PROTOCOLS REQUIRED:**
        - Immediate harvest or stock relocation
        - Cease feeding (minimize metabolic load)
        - Maximize aeration systems
        - Monitor mortality hourly
        "
  else if (70 <=? risk)%Z then St.warning "
        ⚠️ **HIGH ALERT:**
        - Reduce feeding by 50%
        - Increase water exchange rate
        - Deploy emergency aeration
        - Prepare for early harvest
        "
  else if (50 <=? risk)%Z then St.info "
        ℹ️ **ELEVATED RISK:**
        - Reduce feeding by 30%
        - Increase monitoring frequency
        - Ensure optimal aeration
        - Review stocking density
        "
  else St.success "
        ✅ **NORMAL OPERATIONS:**
        - Standard feeding protocols
        - Routine monitoring
        - Continue growth optimization
        ".

End Stefpro.

(** ** stefpro69.py *)

Module Stefpro69.

(** [get_temperature_fallback(lat, lon)] of this file. *)
Definition get_temperature_fallback (now : Py.datetime) (lat lon : Q) : reading :=
  let base_temp := (28 * cos (Q2R (Qabs lat) * (PI / 180)) + 5)%R in
  let seasonal := (3 * sin (IZR (Py.month now - 3) * PI / 6))%R in
  let temp := (base_temp + seasonal)%R in
  {| success := false;
     temperature := Py.round1_R (Py.max 10 (Py.min 36 temp));
     source := "Geographic Model (Estimated)";
     timestamp := Py.strftime now |}.

(** The body of the [try] of [get_sea_temperature_live]: [Some] is the dict
    it returns, [None] is leaving the [try] without a return, by a status
    other than 200 or by an exception (which the bare [except: pass]
    swallows). *)
Definition live_try (now : Py.datetime) (response : Py.http_result)
  : option reading :=
  match response with
  | Py.Raised => None
  | Py.Response status_code json =>
      if (status_code =? 200)%Z then
        data <- json ;;
        table <- Py.getitem_key data "table" ;;
        rows <- Py.getitem_key table "rows" ;;
        row <- Py.getitem_idx rows 0 ;;
        cell <- Py.getitem_idx row 3 ;;
        temp_celsius <- Py.sub_float cell 273.15 ;;
        Some {| success := true;
                temperature := Py.round1 temp_celsius;
                source := "NOAA Satellite (Live)";
                timestamp := (Py.strftime now ++ " UTC")%string |}
      else None
  end.

(** [get_sea_temperature_live(lat, lon)] of this file; it queries another
    endpoint, of which only the outcome matters here. *)
Definition get_sea_temperature_live (now : Py.datetime) (lat lon : Q)
    (response : Py.http_result) : reading :=
  match live_try now response with
  | Some r => r
  | None => get_temperature_fallback now lat lon
  end.

Definition temp_shift (scenario : string) : Q :=
  if Py.contains "1.5" scenario then 1.5
  else if Py.contains "3.2" scenario then 3.2
  else 0.0.

Definition effective_T (temperature shift : Q) : Q := temperature + shift.

Definition base_limit : Q := 31.5.
Definition starvation_penalty (ni : Q) : Q := 1.07 * (1 - ni).
Definition T_critical (ni : Q) : Q := base_limit - starvation_penalty ni.

Definition risk_block (T ni : Q) : option (Z * string) :=
  if Qle_bool (T_critical ni) T then
    Some (100%Z, "LETHAL"%string)
  else if Qle_bool (T_critical ni - 2) T then
    Some (Py.int (75 + (T - (T_critical ni - 2)) / 2 * 25), "CRITICAL"%string)
  else if Qle_bool 25 T then
    match Py.div (T - 25) (T_critical ni - 2 - 25) with
    | Some q => Some (Py.int (50 + q * 25), "HIGH RISK"%string)
    | None => None
    end
  else
    Some (Py.int ((T / 25) * 50), "STABLE"%string).

Definition risk (T ni : Q) : option Z := option_map fst (risk_block T ni).
Definition status (T ni : Q) : option string := option_map snd (risk_block T ni).

Definition SMR (T : Q) : R := (72.4 * exp (0.0567 * Q2R T))%R.

Definition Q10 (T : Q) : Q := if Qle_bool 25 T then 2.45 else 2.07.

Definition margin (T ni : Q) : Q := T_critical ni - T.

Definition years : list Z := map (fun k => (2026 + Z.of_nat k)%Z) (seq 0 25).

Definition decay_rate (risk : Z) : R := (0.05 + IZR risk / 500)%R.

Definition population (risk : Z) : list R :=
  map (fun y => (100 * exp (- decay_rate risk * IZR (y - 2026)))%R) years.

Definition collapse_year (risk : Z) : option Z :=
  let below := map (fun p => if Rlt_dec p 50 then true else false)
                   (population risk) in
  if Py.any below then Some (nth (Py.where0 below) years 0%Z) else None.

(** The analysis block of the script, from the temperature dict, the chosen
    scenario and the slider's [ni]; [None] is an exception. *)
Definition analyse (temp_data : reading) (scenario : string) (ni : Q)
  : option Report.t :=
  let T := effective_T (temperature temp_data) (temp_shift scenario) in
  match risk_block T ni with
  | Some (risk, status) =>
      Some {| Report.T := T;
              Report.T_critical := T_critical ni;
              Report.risk := risk;
              Report.status := status;
              Report.SMR := SMR T;
              Report.Q10 := Q10 T;
              Report.margin := margin T ni;
              Report.decay_rate := decay_rate risk;
              Report.population := population risk;
              Report.collapse_year := collapse_year risk |}
  | None => None
  end.

(** One click: the temperature is live or modelled by [data_mode]. *)
Definition on_click (now : Py.datetime) (lat lon : Q) (data_mode : bool)
    (response : Py.http_result) (scenario : string) (ni : Q)
  : option Report.t :=
  let temp_data :=
    if data_mode then get_sea_temperature_live now lat lon response
    else get_temperature_fallback now lat lon in
  analyse temp_data scenario ni.

(** The banner under the controls, by the slider's [ni]. *)
Definition ni_banner (ni : Q) : option St.message :=
  if Py.lt ni 0.4 then Some (St.error "⚠️ **STARVATION PENALTY ACTIVE:** Thermal tolerance reduced by 1.07°C")
  else if Py.lt ni 0.7 then Some (St.warning "⚙️ Moderate nutritional stress detected")
  else None.

(** The badge that names the data source of [temp_data]. *)
Definition source_badge (temp_data : reading) : St.message :=
  if success temp_data then
    St.success ("✅ **Data Source:** " ++ source temp_data
                ++ " | Updated: " ++ timestamp temp_data)
  else
    St.info ("ℹ️ **Data Source:** " ++ source temp_data
             ++ " | Timestamp: " ++ timestamp temp_data).

(** Tab 2, the oxygen budget over [x = np.linspace(10, 36, 200)], with the
    two [where] masks of [fill_between]. *)
Definition linspace : list R :=
  map (fun i => (10 + INR i * ((36 - 10) / 199))%R) (seq 0 200).

Definition supply (x : R) : R := (14 * exp (- 0.02 * x))%R.
Definition demand (x : R) : R := (2 * exp (0.09 * x))%R.

Definition surplus (x : R) : bool :=
  if Rlt_dec (demand x) (supply x) then true else false.
Definition deficit (x : R) : bool :=
  if Rle_dec (supply x) (demand x) then true else false.

(** Tab 4, the annual cycle over [months = np.arange(1, 13)]. *)
Definition months : list Z := map (fun k => (1 + Z.of_nat k)%Z) (seq 0 12).

Definition seasonal (T : Q) : list R :=
  map (fun m => (Q2R T + 5 * sin (IZR (m - 5) * PI / 6))%R) months.

(** Tab 5, the colour of the safety-margin bar and the alert under it. *)
Definition margin_color (margin : Q) : string :=
  if Py.lt 3 margin then "#22c55e"
  else if Py.lt 1 margin then "#fbbf24"
  else "#ef4444".

Definition margin_alert (margin : Q) : option St.message :=
  if Py.lt margin 0 then Some (St.error "🚨 **LETHAL ZONE:** Immediate intervention required!")
  else if Py.lt margin 1 then Some (St.warning "⚠️ **CRITICAL:** Population at imminent risk")
  else if Py.lt margin 3 then Some (St.info "ℹ️ **CAUTION:** Entering high-risk zone")
  else None.

(** Tab 6, the warning under the forecast: [if collapse_year:] holds for a
    year other than 0. *)
Definition collapse_warning (collapse_year : option Z) : option St.message :=
  match collapse_year with
  | Some y =>
      if (y =? 0)%Z then None
      else Some (St.warning ("⚠️ **Projected 50% decline by " ++ Py.str y
                             ++ "**"))
  | None => None
  end.

(** The management recommendation, by the score. *)
Definition recommendation (risk : Z) : St.message :=
  if (85 <=? risk)%Z then St.error "🚨 EMERGENCY: Immediate harvest or stock relocation required"
  else if (70 <=? risk)%Z then St.warning "⚠️ HIGH ALERT: Reduce feeding 50%, increase aeration"
  else if (50 <=? risk)%Z then St.info "ℹ️ ELEVATED RISK: Reduce feeding 30%, monitor closely"
  else St.success "✅ NORMAL: Standard feeding protocols".

End Stefpro69.

(** ** The same code in binary64 arithmetic

    The modules above read the arithmetic of the files in exact numbers,
    which is what the order and range properties need.  The exact value a
    float expression takes is another matter: [(14.5 / 25) * 50] is
    28.999999999999996 in the files, and [int] makes 28 of it.  The modules
    below read the same lines in the binary64 floats of Python, so that they
    compute the very scores and readings the files compute. *)

Set Warnings "-inexact-float".

Module B64.

Import PrimFloat SpecFloat FloatOps.

(** The exact value of a finite float. *)
Definition to_Q (x : float) : option Q :=
  match Prim2SF x with
  | S754_zero _ => Some 0
  | S754_finite s m e =>
      Some (if (0 <=? e)%Z then inject_Z (cond_Zopp s (Z.shiftl (Zpos m) e))
            else cond_Zopp s (Zpos m) # 2 ^ Z.to_pos (- e))
  | _ => None
  end.

(** [int(x)]: truncation toward zero; an infinity ([OverflowError]) or a
    nan ([ValueError]) raises. *)
Definition int (x : float) : option Z :=
  match Prim2SF x with
  | S754_zero _ => Some 0%Z
  | S754_finite s m e =>
      Some (cond_Zopp s (if (0 <=? e)%Z then Z.shiftl (Zpos m) e
                         else Z.shiftr (Zpos m) (- e)))
  | _ => None
  end.

Definition Z2SF (z : Z) : spec_float :=
  match z with
  | Z0 => S754_zero false
  | Zpos p => S754_finite false p 0
  | Zneg p => S754_finite true p 0
  end.

(** [float(n)] of an integer: the nearest float, ties to even; an integer
    too large for a float raises [OverflowError]. *)
Definition of_Z (n : Z) : option float :=
  match binary_normalize prec emax n 0 false with
  | S754_infinity _ => None
  | sf => Some (SF2Prim sf)
  end.

(** The float nearest to a rational, ties to even. *)
Definition of_Q (q : Q) : float :=
  SF2Prim (SFdiv prec emax (Z2SF (Qnum q)) (Z2SF (Zpos (Qden q)))).

(** [round(x, 1)]: the float nearest to the decimal with one digit nearest
    to the exact value of [x], ties to even; zeros, infinities and nans
    round to themselves. *)
Definition round1 (x : float) : float :=
  match Prim2SF x, to_Q x with
  | S754_finite s _ _, Some q =>
      let z := Py.round_half_even (q * 10) in
      if (z =? 0)%Z then SF2Prim (S754_zero s) else of_Q (z # 10)
  | _, _ => x
  end.

(** [x / y]: a zero divisor raises [ZeroDivisionError]. *)
Definition div (x y : float) : option float :=
  if is_zero y then None else Some (x / y)%float.

(** Values decoded by [response.json()]: a JSON number is an [int] or a
    [float]. *)
#[warnings="-register-all"] Inductive value : Type :=
  | VNone
  | VBool (b : bool)
  | VInt (n : Z)
  | VFloat (x : float)
  | VStr (s : string)
  | VList (l : list value)
  | VDict (d : list (string * value)).

Fixpoint assoc (k : string) (d : list (string * value)) : option value :=
  match d with
  | [] => None
  | (k', v) :: rest => if String.eqb k k' then Some v else assoc k rest
  end.

Definition getitem_key (v : value) (k : string) : option value :=
  match v with
  | VDict d => assoc k d
  | _ => None
  end.

Definition getitem_idx (v : value) (i : nat) : option value :=
  match v with
  | VList l => nth_error l i
  | VStr s =>
      match String.get i s with
      | Some c => Some (VStr (String c EmptyString))
      | None => None
      end
  | _ => None
  end.

(** The float a value becomes as the left operand of [- 273.15]: a float
    is itself, an [int] is converted, a [bool] is the integer 0 or 1;
    anything else raises [TypeError]. *)
Definition to_float (v : value) : option float :=
  match v with
  | VFloat x => Some x
  | VInt n => of_Z n
  | VBool b => Some (if b then 1 else 0)%float
  | _ => None
  end.

Definition sub_float (v : value) (c : float) : option float :=
  x <- to_float v ;; Some (x - c)%float.

Inductive http_result : Type :=
  | Raised
  | Response (status_code : Z) (json : option value).

(** The dict both temperature functions return, with a float temperature. *)
Record reading : Type := mk_reading
  { success : bool; temperature : float; source : string;
    timestamp : string }.

End B64.

Module Stefpro_binary64.

Import PrimFloat.
Local Open Scope float_scope.

(** [get_temperature_fallback(lat, lon)]: [np.cos] and [np.sin] stay those
    of the reals, as in [Stefpro.get_temperature_fallback]; the tenth that
    [round] yields is then the float nearest to it. *)
Definition get_temperature_fallback (now : Py.datetime) (lat lon : Q)
  : B64.reading :=
  let r := Stefpro.get_temperature_fallback now lat lon in
  {| B64.success := success r;
     B64.temperature := B64.of_Q (temperature r);
     B64.source := source r;
     B64.timestamp := timestamp r |}.

Definition live_try (now : Py.datetime) (response : B64.http_result)
  : option B64.reading :=
  match response with
  | B64.Raised => None
  | B64.Response status_code json =>
      if (status_code =? 200)%Z then
        data <- json ;;
        table <- B64.getitem_key data "table" ;;
        rows <- B64.getitem_key table "rows" ;;
        row <- B64.getitem_idx rows 0 ;;
        temp_kelvin <- B64.getitem_idx row 3 ;;
        temp_celsius <- B64.sub_float temp_kelvin 273.15 ;;
        Some {| B64.success := true;
                B64.temperature := B64.round1 temp_celsius;
                B64.source := "NOAA Satellite (Live)";
                B64.timestamp := (Py.strftime now ++ " UTC")%string |}
      else None
  end.

Definition get_sea_temperature_live (now : Py.datetime) (lat lon : Q)
    (response : B64.http_result) : B64.reading :=
  match live_try now response with
  | Some r => r
  | None => get_temperature_fallback now lat lon
  end.

Definition temp_shift (scenario : string) : float :=
  if Py.contains "1.5" scenario then 1.5
  else if Py.contains "3.2" scenario then 3.2
  else 0.0.

(** [T = temp_data['temperature'] + temp_shift]. *)
Definition effective_T (temperature shift : float) : float :=
  temperature + shift.

Definition base_limit : float := 31.5.
Definition starvation_penalty (ni : float) : float := 1.07 * (1 - ni).
Definition T_critical (ni : float) : float :=
  base_limit - starvation_penalty ni.

(** The [if]/[elif] chain; [None] is an exception: a zero divisor, or
    [int] of a value that is not finite. *)
Definition risk_block (T ni : float) : option (Z * string) :=
  if T_critical ni <=? T then
    Some (100%Z, "LETHAL"%string)
  else if T_critical ni - 2 <=? T then
    risk <- B64.int (75 + (T - (T_critical ni - 2)) / 2 * 25) ;;
    Some (risk, "CRITICAL"%string)
  else if 25 <=? T then
    q <- B64.div (T - 25) (T_critical ni - 2 - 25) ;;
    risk <- B64.int (50 + q * 25) ;;
    Some (risk, "HIGH RISK"%string)
  else
    risk <- B64.int ((T / 25) * 50) ;;
    Some (risk, "STABLE"%string).

Definition risk (T ni : float) : option Z := option_map fst (risk_block T ni).
Definition status (T ni : float) : option string :=
  option_map snd (risk_block T ni).

End Stefpro_binary64.

Module Stefpro69_binary64.

Import PrimFloat.
Local Open Scope float_scope.

Definition get_temperature_fallback (now : Py.datetime) (lat lon : Q)
  : B64.reading :=
  let r := Stefpro69.get_temperature_fallback now lat lon in
  {| B64.success := success r;
     B64.temperature := B64.of_Q (temperature r);
     B64.source := source r;
     B64.timestamp := timestamp r |}.

Definition live_try (now : Py.datetime) (response : B64.http_result)
  : option B64.reading :=
  match response with
  | B64.Raised => None
  | B64.Response status_code json =>
      if (status_code =? 200)%Z then
        data <- json ;;
        table <- B64.getitem_key data "table" ;;
        rows <- B64.getitem_key table "rows" ;;
        row <- B64.getitem_idx rows 0 ;;
        cell <- B64.getitem_idx row 3 ;;
        temp_celsius <- B64.sub_float cell 273.15 ;;
        Some {| B64.success := true;
                B64.temperature := B64.round1 temp_celsius;
                B64.source := "NOAA Satellite (Live)";
                B64.timestamp := (Py.strftime now ++ " UTC")%string |}
      else None
  end.

Definition get_sea_temperature_live (now : Py.datetime) (lat lon : Q)
    (response : B64.http_result) : B64.reading :=
  match live_try now response with
  | Some r => r
  | None => get_temperature_fallback now lat lon
  end.

Definition temp_shift (scenario : string) : float :=
  if Py.contains "1.5" scenario then 1.5
  else if Py.contains "3.2" scenario then 3.2
  else 0.0.

(** [T = temp_data['temperature'] + temp_shift]. *)
Definition effective_T (temperature shift : float) : float :=
  temperature + shift.

Definition base_limit : float := 31.5.
Definition starvation_penalty (ni : float) : float := 1.07 * (1 - ni).
Definition T_critical (ni : float) : float :=
  base_limit - starvation_penalty ni.

Definition risk_block (T ni : float) : option (Z * string) :=
  if T_critical ni <=? T then
    Some (100%Z, "LETHAL"%string)
  else if T_critical ni - 2 <=? T then
    risk <- B64.int (75 + (T - (T_critical ni - 2)) / 2 * 25) ;;
    Some (risk, "CRITICAL"%string)
  else if 25 <=? T then
    q <- B64.div (T - 25) (T_critical ni - 2 - 25) ;;
    risk <- B64.int (50 + q * 25) ;;
    Some (risk, "HIGH RISK"%string)
  else
    risk <- B64.int ((T / 25) * 50) ;;
    Some (risk, "STABLE"%string).

Definition risk (T ni : float) : option Z := option_map fst (risk_block T ni).
Definition status (T ni : float) : option string :=
  option_map snd (risk_block T ni).

End Stefpro69_binary64.

(** The cell the binary64 functions read, the ways the query fails, and the
    float a successful query delivers. *)
Module Query.

Import PrimFloat.

Definition cell (data : B64.value) : option B64.value :=
  table <- B64.getitem_key data "table" ;;
  rows <- B64.getitem_key table "rows" ;;
  row <- B64.getitem_idx rows 0 ;;
  B64.getitem_idx row 3.

Inductive failed : B64.http_result -> Prop :=
  | raised : failed B64.Raised
  | status (code : Z) (body : option B64.value) :
      code <> 200%Z -> failed (B64.Response code body)
  | undecoded : failed (B64.Response 200 None)
  | no_cell (data : B64.value) :
      cell data = None -> failed (B64.Response 200 (Some data))
  | no_float (data c : B64.value) :
      cell data = Some c -> B64.to_float c = None ->
      failed (B64.Response 200 (Some data)).

Inductive delivered : B64.http_result -> float -> Prop :=
  | kelvin (data c : B64.value) (x : float) :
      cell data = Some c -> B64.to_float c = Some x ->
      delivered (B64.Response 200 (Some data)) x.

(** A payload around a given cell. *)
Definition payload (c : B64.value) : B64.value :=
  B64.VDict [("table"%string,
              B64.VDict [("columnNames"%string, B64.VList []);
                         ("rows"%string,
                          B64.VList [B64.VList [B64.VStr "2026-07-15T12:00:00Z";
                                                B64.VFloat 36.875%float;
                                                B64.VFloat 34.625%float; c]])])].

End Query.

(** ** Specification-side definitions *)

(** The threshold as a formula of the nutritional index, the tiers, and the
    classification as the specification words it, with [round]. *)
Module Spec.

Definition lethal_threshold (ni : Q) : Q := 31.5 - 1.07 * (1 - ni).

Inductive tier : Type := LETHAL | CRITICAL | HIGH_RISK | STABLE.

Definition round (x : Q) : Z := Py.round_half_even x.

Definition evaluate (T ni : Q) : Z * tier :=
  let lt := lethal_threshold ni in
  if Qle_bool lt T then (100%Z, LETHAL)
  else if Qle_bool (lt - 2) T then
    (round (75 + (T - (lt - 2)) / 2 * 25), CRITICAL)
  else if Qle_bool 25 T then
    (round (50 + (T - 25) / (lt - 2 - 25) * 25), HIGH_RISK)
  else (round ((T / 25) * 50), STABLE).

(** The label each file gives a tier. *)
Definition label (t : tier) : string :=
  match t with
  | LETHAL => "LETHAL"
  | CRITICAL => "CRITICAL"
  | HIGH_RISK => "HIGH RISK"
  | STABLE => "STABLE"
  end.

End Spec.

(** The classification as the specification words it, on floats, with the
    truncation [int] of the code in the place of [round]: the score of a
    computed branch is the truncation toward zero of the exact value of the
    float the branch's formula evaluates to, and there is none when that
    float is an infinity or a nan, or when the divisor is zero. *)
Module Score.

Import PrimFloat.
Local Open Scope float_scope.

Definition lethal_threshold (ni : float) : float := 31.5 - 1.07 * (1 - ni).

Definition trunc (x : float) : option Z := option_map Py.int (B64.to_Q x).

Definition critical_value (T ni : float) : float :=
  75 + (T - (lethal_threshold ni - 2)) / 2 * 25.

Definition high_value (T ni : float) : option float :=
  if is_zero (lethal_threshold ni - 2 - 25) then None
  else Some (50 + (T - 25) / (lethal_threshold ni - 2 - 25) * 25).

Definition stable_value (T : float) : float := (T / 25) * 50.

Definition scored (t : Spec.tier) (r : option Z) : option (Z * string) :=
  option_map (fun n => (n, Spec.label t)) r.

(** Which branch runs: the first condition that holds decides. *)
Inductive branch (T ni : float) : option (Z * string) -> Prop :=
  | lethal :
      (lethal_threshold ni <=? T) = true ->
      branch T ni (Some (100%Z, Spec.label Spec.LETHAL))
  | critical :
      (lethal_threshold ni <=? T) = false ->
      (lethal_threshold ni - 2 <=? T) = true ->
      branch T ni (scored Spec.CRITICAL (trunc (critical_value T ni)))
  | high :
      (lethal_threshold ni <=? T) = false ->
      (lethal_threshold ni - 2 <=? T) = false ->
      (25 <=? T) = true ->
      branch T ni (scored Spec.HIGH_RISK (v <- high_value T ni ;; trunc v))
  | stable :
      (lethal_threshold ni <=? T) = false ->
      (lethal_threshold ni - 2 <=? T) = false ->
      (25 <=? T) = false ->
      branch T ni (scored Spec.STABLE (trunc (stable_value T))).

End Score.

(** The values the three computed branches truncate. *)
Definition critical_value (T ni : Q) : Q :=
  75 + (T - (Spec.lethal_threshold ni - 2)) / 2 * 25.
Definition high_value (T ni : Q) : Q :=
  50 + (T - 25) / (Spec.lethal_threshold ni - 2 - 25) * 25.
Definition stable_value (T : Q) : Q := (T / 25) * 50.

(** Which branch runs, as a relation between the inputs and the result of
    the block: the first condition that holds decides, and the score is the
    truncation of the branch's value. *)
Inductive branch (T ni : Q) : option (Z * string) -> Prop :=
  | b_lethal :
      Spec.lethal_threshold ni <= T ->
      branch T ni (Some (100%Z, "LETHAL"%string))
  | b_critical :
      T < Spec.lethal_threshold ni -> Spec.lethal_threshold ni - 2 <= T ->
      branch T ni (Some (Py.int (critical_value T ni), "CRITICAL"%string))
  | b_high :
      T < Spec.lethal_threshold ni - 2 -> 25 <= T ->
      branch T ni (Some (Py.int (high_value T ni), "HIGH RISK"%string))
  | b_stable :
      T < Spec.lethal_threshold ni - 2 -> T < 25 ->
      branch T ni (Some (Py.int (stable_value T), "STABLE"%string)).

(** The cell [data['table']['rows'][0][3]] both files read, the ways the
    query can fail, and the payloads that deliver a Kelvin number. *)
Definition cell (data : Py.value) : option Py.value :=
  table <- Py.getitem_key data "table" ;;
  rows <- Py.getitem_key table "rows" ;;
  row <- Py.getitem_idx rows 0 ;;
  Py.getitem_idx row 3.

Definition numeric (c : Py.value) : bool :=
  match c with
  | Py.VNum _ | Py.VBool _ => true
  | _ => false
  end.

Inductive failed : Py.http_result -> Prop :=
  | f_raised : failed Py.Raised
  | f_status (code : Z) (body : option Py.value) :
      code <> 200%Z -> failed (Py.Response code body)
  | f_undecoded : failed (Py.Response 200 None)
  | f_no_cell (data : Py.value) :
      cell data = None -> failed (Py.Response 200 (Some data))
  | f_not_numeric (data c : Py.value) :
      cell data = Some c -> numeric c = false ->
      failed (Py.Response 200 (Some data)).

Inductive delivered : Py.http_result -> Q -> Prop :=
  | d_kelvin (data : Py.value) (k : Q) :
      cell data = Some (Py.VNum k) ->
      delivered (Py.Response 200 (Some data)) k.

(** [clamp(x, lo, hi)]. *)
Definition clamp (x lo hi : R) : R :=
  if Rlt_dec x lo then lo else if Rlt_dec hi x then hi else x.

(** The temperature of the geographic model before it is clamped and
    rounded, by the month of the clock and the latitude. *)
Definition model_temp (month : Z) (lat : Q) : R :=
  (28 * cos (Q2R (Qabs lat) * (PI / 180)) + 5
   + 3 * sin (IZR (month - 3) * PI / 6))%R.

(** A clock, and a payload around a given cell, to run the functions on. *)
Definition noon : Py.datetime := Py.mk_datetime 2026 7 15 12 0.

Definition payload (c : Py.value) : Py.value :=
  Py.VDict [("table"%string,
             Py.VDict [("columnNames"%string, Py.VList []);
                       ("rows"%string,
                        Py.VList [Py.VList [Py.VStr "2026-07-15T12:00:00Z";
                                            Py.VNum 36.875; Py.VNum 34.625;
                                            c]])])].

(** The population percentage of a year, as a formula of the score. *)
Definition population_pct (risk : Z) (year : Z) : R :=
  (100 * exp (- (0.05 + IZR risk / 500) * IZR (year - 2026)))%R.

Definition lt50 (p : R) : bool := if Rlt_dec p 50 then true else false.

(** ** Runs of the code *)

Example risk_lethal : Stefpro.risk_block 31.5 1 = Some (100%Z, "LETHAL"%string).
Proof. reflexivity. Qed.

Example risk_stable : Stefpro.risk_block 12.4 1 = Some (24%Z, "STABLE"%string).
Proof. reflexivity. Qed.

Example str_year : Py.str 2040 = "2040"%string.
Proof. reflexivity. Qed.

Example recommend_lethal :
  St.level_of (Stefpro.recommendation 100) = St.Error
  /\ St.text_of (Stefpro69.recommendation 100)
     = "🚨 EMERGENCY: Immediate harvest or stock relocation required"%string.
Proof. split; reflexivity. Qed.

Example shift_baseline : Stefpro.temp_shift "Present Day (Baseline)" = 0.0.
Proof. reflexivity. Qed.

Example shift_ssp1 : Stefpro.temp_shift "SSP1-2.6 (+1.5°C by 2050)" = 1.5.
Proof. reflexivity. Qed.

Example shift_ssp5 : Stefpro.temp_shift "SSP5-8.5 (+3.2°C by 2050)" = 3.2.
Proof. reflexivity. Qed.

(** ** Truncation and rounding *)

Section IntLemmas.

Lemma int_nonneg (x : Q) : 0 <= x -> Py.int x = Qfloor x.
Proof.
  destruct x as [n d]. unfold Qle, Py.int, Qfloor. simpl. intro H.
  apply Z.quot_div_nonneg; lia.
Qed.

Lemma int_nonpos (x : Q) : x <= 0 -> Py.int x = Qceiling x.
Proof.
  destruct x as [n d]. unfold Qle, Py.int, Qceiling, Qfloor. simpl. intro H.
  rewrite <- (Z.opp_involutive n) at 1.
  rewrite Z.quot_opp_l by lia.
  f_equal. apply Z.quot_div_nonneg; lia.
Qed.

Lemma ceiling_nonpos (x : Q) : x <= 0 -> (Qceiling x <= 0)%Z.
Proof.
  intro H. change 0%Z with (Qceiling (inject_Z 0)).
  - apply Qceiling_resp_le. exact H.
Qed.

Lemma floor_nonneg (x : Q) : 0 <= x -> (0 <= Qfloor x)%Z.
Proof.
  intro H. rewrite <- (Qfloor_Z 0). apply Qfloor_resp_le. exact H.
Qed.

(** [int()] is monotone over the whole line. *)
Lemma int_mono (x y : Q) : x <= y -> (Py.int x <= Py.int y)%Z.
Proof.
  intro Hxy.
  destruct (Qlt_le_dec x 0) as [Hx | Hx].
  - rewrite (int_nonpos x) by (apply Qlt_le_weak; exact Hx).
    destruct (Qlt_le_dec y 0) as [Hy | Hy].
    + rewrite (int_nonpos y) by (apply Qlt_le_weak; exact Hy).
      apply Qceiling_resp_le. exact Hxy.
    + rewrite (int_nonneg y Hy).
      pose proof (ceiling_nonpos x (Qlt_le_weak _ _ Hx)).
      pose proof (floor_nonneg y Hy). lia.
  - rewrite (int_nonneg x Hx).
    rewrite (int_nonneg y) by (eapply Qle_trans; eassumption).
    apply Qfloor_resp_le. exact Hxy.
Qed.

Lemma int_comp (x y : Q) : x == y -> Py.int x = Py.int y.
Proof.
  intro H. apply Z.le_antisymm; apply int_mono; rewrite H; apply Qle_refl.
Qed.

Lemma int_inject (n : Z) : Py.int (inject_Z n) = n.
Proof. unfold Py.int. simpl. apply Z.quot_1_r. Qed.

Lemma int_ge (n : Z) (x : Q) : inject_Z n <= x -> (n <= Py.int x)%Z.
Proof. intro H. rewrite <- (int_inject n). apply int_mono. exact H. Qed.

Lemma int_le (n : Z) (x : Q) : x <= inject_Z n -> (Py.int x <= n)%Z.
Proof. intro H. rewrite <- (int_inject n). apply int_mono. exact H. Qed.

(** Below a positive integer bound the truncation stays strictly below. *)
Lemma int_lt (n : Z) (x : Q) :
  (0 < n)%Z -> x < inject_Z n -> (Py.int x < n)%Z.
Proof.
  intros Hn H.
  destruct (Qlt_le_dec x 0) as [Hx | Hx].
  - rewrite (int_nonpos x) by (apply Qlt_le_weak; exact Hx).
    pose proof (ceiling_nonpos x (Qlt_le_weak _ _ Hx)). lia.
  - rewrite (int_nonneg x Hx).
    pose proof (Qfloor_le x) as Hf.
    assert (Hlt : inject_Z (Qfloor x) < inject_Z n)
      by (eapply Qle_lt_trans; eassumption).
    rewrite <- Zlt_Qlt in Hlt. exact Hlt.
Qed.

(** [int(x)] is negative exactly when [x <= -1]. *)
Lemma int_neg_iff (x : Q) : (Py.int x < 0)%Z <-> x <= -1.
Proof.
  split.
  - intro H. destruct (Qlt_le_dec (-1) x) as [Hx | Hx]; [ | exact Hx ].
    exfalso.
    destruct (Qlt_le_dec x 0) as [H0 | H0].
    + rewrite (int_nonpos x) in H by (apply Qlt_le_weak; exact H0).
      unfold Qceiling in H.
      assert (Hm : - x < inject_Z 1) by (unfold inject_Z; lra).
      assert (H1 : (Qfloor (- x) < 1)%Z).
      { pose proof (Qfloor_le (- x)) as Hf.
        rewrite Zlt_Qlt. eapply Qle_lt_trans; eassumption. }
      lia.
    + pose proof (floor_nonneg x H0). rewrite (int_nonneg x H0) in H. lia.
  - intro H. pose proof (int_le (-1) x H). lia.
Qed.

End IntLemmas.

(** ** The lethal threshold *)

Section Threshold.

Import Spec.

Lemma T_critical_eq (ni : Q) : Stefpro.T_critical ni = lethal_threshold ni.
Proof. reflexivity. Qed.

Lemma T_critical69_eq (ni : Q) : Stefpro69.T_critical ni = lethal_threshold ni.
Proof. reflexivity. Qed.

Lemma threshold_range (ni : Q) :
  0 <= ni <= 1 -> 30.43 <= lethal_threshold ni <= 31.5.
Proof. intros [H0 H1]. unfold lethal_threshold. split; lra. Qed.

Lemma threshold_mono (ni1 ni2 : Q) :
  ni1 <= ni2 -> lethal_threshold ni1 <= lethal_threshold ni2.
Proof. intro H. unfold lethal_threshold. lra. Qed.

Lemma threshold_comp (ni1 ni2 : Q) :
  ni1 == ni2 -> lethal_threshold ni1 == lethal_threshold ni2.
Proof. intro H. unfold lethal_threshold. rewrite H. reflexivity. Qed.

(** The divisor of the third branch. *)
Lemma denominator_unfold (ni : Q) :
  lethal_threshold ni - 2 - 25 == 31.5 - 1.07 * (1 - ni) - 27.
Proof. unfold lethal_threshold. lra. Qed.

Lemma denominator_range (ni : Q) :
  0 <= ni <= 1 -> 3.43 <= lethal_threshold ni - 2 - 25.
Proof. intros [H0 H1]. unfold lethal_threshold. lra. Qed.

Lemma div_some (x y : Q) : ~ y == 0 -> Py.div x y = Some (x / y).
Proof.
  intro H. unfold Py.div.
  destruct (Qeq_bool y 0) eqn:E; [ | reflexivity ].
  apply Qeq_bool_iff in E. contradiction.
Qed.

Lemma div_none (x y : Q) : y == 0 -> Py.div x y = None.
Proof.
  intro H. unfold Py.div. apply Qeq_bool_iff in H. rewrite H. reflexivity.
Qed.

End Threshold.

(** ** The risk classification *)

Lemma Qle_bool_false (x y : Q) : Qle_bool x y = false -> y < x.
Proof.
  intro H. apply Qnot_le_lt. intro Hle.
  apply Qle_bool_iff in Hle. congruence.
Qed.

Lemma ratio_range (a d : Q) : 0 < d -> 0 <= a -> a < d -> 0 <= a / d < 1.
Proof.
  intros Hd Ha Had. split.
  - apply Qle_shift_div_l; [ exact Hd | lra ].
  - apply Qlt_shift_div_r; [ exact Hd | lra ].
Qed.

Lemma stable_value_eq (T : Q) : stable_value T == 2 * T.
Proof. unfold stable_value. field. Qed.

Lemma stable_value_range (T : Q) : T < 25 -> stable_value T < 50.
Proof. intro H. rewrite stable_value_eq. lra. Qed.

Lemma stable_value_mono (T1 T2 : Q) :
  T1 <= T2 -> stable_value T1 <= stable_value T2.
Proof. intro H. rewrite !stable_value_eq. lra. Qed.

Lemma stable_score (T : Q) : T < 25 -> (Py.int (stable_value T) <= 49)%Z.
Proof.
  intro H. assert (Py.int (stable_value T) < 50)%Z
    by (apply int_lt; [ lia | apply stable_value_range; exact H ]). lia.
Qed.

Lemma stable_score_sign (T : Q) :
  (0 <= Py.int (stable_value T))%Z <-> - (1 # 2) < T.
Proof.
  pose proof (int_neg_iff (stable_value T)) as Hn.
  pose proof (stable_value_eq T) as E. split.
  - intro H. apply Qnot_le_lt. intro Hle.
    assert (Py.int (stable_value T) < 0)%Z by (apply Hn; lra). lia.
  - intro H. apply Z.le_ngt. intro Hlt. apply Hn in Hlt. lra.
Qed.

Lemma analyse_T_critical (td : reading) (sc : string) (ni : Q) (r : Report.t) :
  Stefpro.analyse td sc ni = Some r ->
  Report.T_critical r = Spec.lethal_threshold ni.
Proof.
  unfold Stefpro.analyse.
  destruct (Stefpro.risk_block _ ni) as [[k s] | ]; [ | discriminate ].
  intro H. injection H as <-. reflexivity.
Qed.

(** The block at a nutritional index of the slider's range. *)
Section Classification.

Import Spec.

Variable ni : Q.
Hypothesis Hni : 0 <= ni <= 1.

Let lt : Q := lethal_threshold ni.

Lemma denominator_pos : 0 < lt - 2 - 25.
Proof. pose proof (denominator_range ni Hni). unfold lt. lra. Qed.

Lemma risk_block_branch (T : Q) : branch T ni (Stefpro.risk_block T ni).
Proof.
  pose proof denominator_pos as Hd. unfold lt in Hd.
  unfold Stefpro.risk_block. rewrite !T_critical_eq.
  destruct (Qle_bool (lethal_threshold ni) T) eqn:E1.
  { apply b_lethal. apply Qle_bool_iff. exact E1. }
  apply Qle_bool_false in E1.
  destruct (Qle_bool (lethal_threshold ni - 2) T) eqn:E2.
  { apply b_critical; [ exact E1 | apply Qle_bool_iff; exact E2 ]. }
  apply Qle_bool_false in E2.
  destruct (Qle_bool 25 T) eqn:E3.
  { rewrite div_some by (intro H0; lra).
    apply b_high; [ exact E2 | apply Qle_bool_iff; exact E3 ]. }
  apply Qle_bool_false in E3.
  apply b_stable; assumption.
Qed.

Lemma risk_block_some (T : Q) :
  exists r s, Stefpro.risk_block T ni = Some (r, s).
Proof. destruct (risk_block_branch T); eauto. Qed.

(** The tier of the block is the tier of the specification, under the
    label the files give it. *)
Lemma status_label (T : Q) :
  Stefpro.status T ni = Some (label (snd (evaluate T ni))).
Proof.
  pose proof denominator_pos as Hd. unfold lt in Hd.
  unfold Stefpro.status, Stefpro.risk_block, evaluate.
  change (Stefpro.T_critical ni) with (lethal_threshold ni).
  destruct (Qle_bool (lethal_threshold ni) T); [ reflexivity | ].
  destruct (Qle_bool (lethal_threshold ni - 2) T); [ reflexivity | ].
  destruct (Qle_bool 25 T); [ | reflexivity ].
  rewrite div_some by (intro H0; lra). reflexivity.
Qed.

(** The values of the computed branches, inside their tier. *)
Lemma critical_value_linear (T : Q) :
  critical_value T ni == 75 + (T - (lt - 2)) * (25 # 2).
Proof. unfold critical_value, lt. field. Qed.

Lemma critical_value_range (T : Q) :
  T < lt -> lt - 2 <= T -> 75 <= critical_value T ni < 100.
Proof. intros H1 H2. rewrite critical_value_linear. split; lra. Qed.

Lemma high_value_range (T : Q) :
  T < lt - 2 -> 25 <= T -> 50 <= high_value T ni < 75.
Proof.
  intros H1 H2. pose proof denominator_pos as Hd.
  unfold high_value. fold lt.
  destruct (ratio_range (T - 25) (lt - 2 - 25)) as [Ha Hb]; try lra.
Qed.

(** The scores of a tier, whatever the temperature inside it. *)
Lemma critical_score (T : Q) :
  T < lt -> lt - 2 <= T -> (75 <= Py.int (critical_value T ni) <= 99)%Z.
Proof.
  intros H1 H2. destruct (critical_value_range T H1 H2) as [Ha Hb]. split.
  - apply int_ge. exact Ha.
  - assert (Py.int (critical_value T ni) < 100)%Z
      by (apply int_lt; [ lia | exact Hb ]). lia.
Qed.

Lemma high_score (T : Q) :
  T < lt - 2 -> 25 <= T -> (50 <= Py.int (high_value T ni) <= 74)%Z.
Proof.
  intros H1 H2. destruct (high_value_range T H1 H2) as [Ha Hb]. split.
  - apply int_ge. exact Ha.
  - assert (Py.int (high_value T ni) < 75)%Z
      by (apply int_lt; [ lia | exact Hb ]). lia.
Qed.

(** The score of a classified result: at most 100, and negative only in
    the STABLE tier, from [T = -1/2] downwards. *)
Lemma branch_score (T : Q) (res : option (Z * string)) :
  branch T ni res ->
  exists r s, res = Some (r, s) /\ (r <= 100)%Z /\
              ((0 <= r)%Z <-> - (1 # 2) < T).
Proof.
  intro Hb. pose proof (threshold_range ni Hni) as [Hlo Hhi].
  destruct Hb as [H1 | H1 H2 | H1 H2 | H1 H2]; eexists; eexists;
    (split; [ reflexivity | ]).
  - split; [ lia | ]. split; [ intros _; lra | lia ].
  - pose proof (critical_score T H1 H2).
    split; [ lia | ]. split; [ intros _; lra | lia ].
  - pose proof (high_score T H1 H2).
    split; [ lia | ]. split; [ intros _; lra | lia ].
  - pose proof (stable_score T H2).
    split; [ lia | ]. apply stable_score_sign.
Qed.

(** Each branch's value does not decrease with the temperature. *)
Lemma critical_value_mono (T1 T2 : Q) :
  T1 <= T2 -> critical_value T1 ni <= critical_value T2 ni.
Proof. intro H. rewrite !critical_value_linear. lra. Qed.

Lemma high_value_mono (T1 T2 : Q) :
  T1 <= T2 -> high_value T1 ni <= high_value T2 ni.
Proof.
  intro H. pose proof denominator_pos as Hd.
  unfold high_value, Qdiv. fold lt. apply Qplus_le_r.
  apply Qmult_le_compat_r; [ | lra ].
  apply Qmult_le_compat_r; [ lra | ].
  apply Qinv_le_0_compat. lra.
Qed.

(** Monotonicity of the score between two classified results, over the
    whole line and across the tier boundaries. *)
Lemma branch_mono (T1 T2 : Q) (r1 r2 : Z) (s1 s2 : string) :
  T1 <= T2 ->
  branch T1 ni (Some (r1, s1)) -> branch T2 ni (Some (r2, s2)) ->
  (r1 <= r2)%Z.
Proof.
  intros H12 B1 B2.
  inversion B1 as [A1 | A1 A2 | A1 A2 | A1 A2]; subst;
  inversion B2 as [C1 | C1 C2 | C1 C2 | C1 C2]; subst;
    try lia; try (exfalso; lra).
  - pose proof (critical_score T1 A1 A2). lia.
  - apply int_mono. apply critical_value_mono. exact H12.
  - pose proof (high_score T1 A1 A2). lia.
  - pose proof (high_score T1 A1 A2).
    pose proof (critical_score T2 C1 C2). lia.
  - apply int_mono. apply high_value_mono. exact H12.
  - pose proof (stable_score T1 A2). lia.
  - pose proof (stable_score T1 A2).
    pose proof (critical_score T2 C1 C2). lia.
  - pose proof (stable_score T1 A2).
    pose proof (high_score T2 C1 C2). lia.
  - apply int_mono. apply stable_value_mono. exact H12.
Qed.

End Classification.

(** ** Rounding to the nearest tenth *)

Section Rounding.

Lemma half_even_cases (fl : Z) (c : comparison) :
  Py.half_even fl c = fl \/ Py.half_even fl c = (fl + 1)%Z.
Proof.
  unfold Py.half_even. destruct c; [ destruct (Z.even fl) | | ]; auto.
Qed.

(** On [Q]: the result is within one half of the argument. *)
Lemma round_half_even_near (x : Q) :
  - (1 # 2) <= inject_Z (Py.round_half_even x) - x <= 1 # 2.
Proof.
  unfold Py.round_half_even.
  pose proof (Qfloor_le x) as Hlo. pose proof (Qlt_floor x) as Hhi.
  rewrite inject_Z_plus in Hhi. change (inject_Z 1) with 1 in Hhi.
  set (f := Qfloor x) in *.
  destruct (Qcompare_spec (x - inject_Z f) (1 # 2)) as [E | E | E];
    unfold Py.half_even.
  - destruct (Z.even f).
    + split; lra.
    + rewrite inject_Z_plus. change (inject_Z 1) with 1. split; lra.
  - split; lra.
  - rewrite inject_Z_plus. change (inject_Z 1) with 1. split; lra.
Qed.

Lemma tenth_eq (z : Z) : z # 10 == inject_Z z / 10.
Proof. unfold Qeq, Qdiv, Qmult, Qinv, inject_Z. simpl. lia. Qed.

Lemma round1_near (x : Q) : - (1 # 20) <= Py.round1 x - x <= 1 # 20.
Proof.
  unfold Py.round1. rewrite tenth_eq.
  pose proof (round_half_even_near (x * 10)) as [Ha Hb].
  set (z := inject_Z (Py.round_half_even (x * 10))) in *.
  assert (E : z / 10 == z * (1 # 10)) by field.
  rewrite E. split; lra.
Qed.

(** On [R]. *)
Lemma Int_part_bounds (x : R) :
  (IZR (Int_part x) <= x < IZR (Int_part x) + 1)%R.
Proof. destruct (base_Int_part x) as [Ha Hb]. split; lra. Qed.




(** Rounding keeps a number between two integers between them. *)
Lemma round_half_even_R_between (a b : Z) (x : R) :
  (IZR a <= x <= IZR b)%R -> (a <= Py.round_half_even_R x <= b)%Z.
Proof.
  intros [Ha Hb].
  unfold Py.round_half_even_R, Py.Rcmp.
  pose proof (Int_part_bounds x) as [Hlo Hhi].
  set (f := Int_part x) in *.
  assert (Haf : (a <= f)%Z).
  { apply Z.lt_succ_r. apply lt_IZR. rewrite succ_IZR. lra. }
  assert (Hfb : (f <= b)%Z) by (apply le_IZR; lra).
  assert (Hup : (IZR f < x)%R -> (f + 1 <= b)%Z).
  { intro H. apply Zlt_le_succ. apply lt_IZR. lra. }
  destruct (total_order_T (x - IZR f) (1 / 2)) as [[E | E] | E];
    unfold Py.half_even.
  - lia.
  - destruct (Z.even f); [ lia | ].
    assert (f + 1 <= b)%Z by (apply Hup; lra). lia.
  - assert (f + 1 <= b)%Z by (apply Hup; lra). lia.
Qed.

Lemma round1_R_between (a b : Z) (x : R) :
  (IZR a <= x <= IZR b)%R ->
  inject_Z a <= Py.round1_R x <= inject_Z b.
Proof.
  intros [Ha Hb].
  destruct (round_half_even_R_between (10 * a) (10 * b) (x * 10)) as [Hl Hu].
  { rewrite !mult_IZR. split; lra. }
  unfold Py.round1_R, Qle, inject_Z. simpl. split; lia.
Qed.

End Rounding.

(** ** Resolving the temperature *)

Section Resolve.

Lemma live_try69_eq (now : Py.datetime) (response : Py.http_result) :
  Stefpro69.live_try now response = Stefpro.live_try now response.
Proof. reflexivity. Qed.

Lemma live_try_failed (now : Py.datetime) (response : Py.http_result) :
  failed response -> Stefpro.live_try now response = None.
Proof.
  intro F. destruct F as [ | code body Hc | | data Hd | data c Hd Hn ]; simpl.
  - reflexivity.
  - apply Z.eqb_neq in Hc. rewrite Hc. reflexivity.
  - reflexivity.
  - unfold cell in Hd.
    destruct (Py.getitem_key data "table") as [table | ]; [ | reflexivity ].
    destruct (Py.getitem_key table "rows") as [rows | ]; [ | reflexivity ].
    destruct (Py.getitem_idx rows 0) as [row | ]; [ | reflexivity ].
    rewrite Hd. reflexivity.
  - unfold cell in Hd.
    destruct (Py.getitem_key data "table") as [table | ]; [ | discriminate ].
    destruct (Py.getitem_key table "rows") as [rows | ]; [ | discriminate ].
    destruct (Py.getitem_idx rows 0) as [row | ]; [ | discriminate ].
    rewrite Hd. destruct c; try discriminate; reflexivity.
Qed.

Lemma live_try_delivered (now : Py.datetime) (response : Py.http_result)
    (k : Q) :
  delivered response k ->
  Stefpro.live_try now response
  = Some {| success := true;
            temperature := Py.round1 (k - 273.15);
            source := "NOAA Satellite (Live)";
            timestamp := (Py.strftime now ++ " UTC")%string |}.
Proof.
  intro D. destruct D as [data k Hd]. simpl. unfold cell in Hd.
  destruct (Py.getitem_key data "table") as [table | ]; [ | discriminate ].
  destruct (Py.getitem_key table "rows") as [rows | ]; [ | discriminate ].
  destruct (Py.getitem_idx rows 0) as [row | ]; [ | discriminate ].
  rewrite Hd. reflexivity.
Qed.

Lemma clamp_eq (t : R) : Py.max 10 (Py.min 36 t) = clamp t 10 36.
Proof.
  unfold Py.max, Py.min, clamp.
  destruct (Rlt_dec t 36), (Rlt_dec t 10), (Rlt_dec 36 t);
    try lra;
    match goal with
    | |- context [Rlt_dec ?a ?b] => destruct (Rlt_dec a b)
    end; lra.
Qed.

Lemma clamp_range (t : R) : (10 <= clamp t 10 36 <= 36)%R.
Proof.
  unfold clamp. destruct (Rlt_dec t 10); [ lra | ].
  destruct (Rlt_dec 36 t); lra.
Qed.

End Resolve.

(** ** The population forecast *)

Section Forecast.

Lemma any_where0 (mask : list bool) :
  Py.any mask = true ->
  (Py.where0 mask < length mask)%nat /\
  nth (Py.where0 mask) mask false = true /\
  forall j : nat, (j < Py.where0 mask)%nat -> nth j mask false = false.
Proof.
  induction mask as [ | b rest IH ]; simpl.
  - discriminate.
  - destruct b; simpl.
    + intros _. split; [ lia | ]. split; [ reflexivity | ]. intros j Hj. lia.
    + intro H. destruct (IH H) as (H1 & H2 & H3).
      split; [ lia | ]. split; [ exact H2 | ].
      intros [ | j] Hj; [ reflexivity | ]. apply H3. lia.
Qed.

Lemma any_false (mask : list bool) :
  Py.any mask = false -> forall j : nat, nth j mask false = false.
Proof.
  induction mask as [ | b rest IH ]; simpl; intros H j.
  - destruct j; reflexivity.
  - destruct b; [ discriminate | ]. destruct j; [ reflexivity | ].
    apply IH. exact H.
Qed.

Lemma years_length : length Stefpro.years = 25%nat.
Proof. reflexivity. Qed.

Lemma years_nth (k : nat) :
  (k < 25)%nat -> nth k Stefpro.years 0%Z = (2026 + Z.of_nat k)%Z.
Proof.
  intro H. unfold Stefpro.years.
  set (f := fun k : nat => (2026 + Z.of_nat k)%Z).
  rewrite (nth_indep _ 0%Z (f 0%nat))
    by (rewrite length_map, length_seq; exact H).
  rewrite map_nth, seq_nth by exact H. reflexivity.
Qed.

Lemma years_In (y : Z) :
  In y Stefpro.years <-> (2026 <= y <= 2050)%Z.
Proof.
  unfold Stefpro.years. rewrite in_map_iff. split.
  - intros (k & <- & Hk). apply in_seq in Hk. lia.
  - intro H. exists (Z.to_nat (y - 2026)). split; [ lia | ].
    apply in_seq. lia.
Qed.

Lemma population_eq (risk : Z) :
  Stefpro.population risk = map (population_pct risk) Stefpro.years.
Proof. reflexivity. Qed.

Lemma population_length (risk : Z) :
  length (Stefpro.population risk) = 25%nat.
Proof. rewrite population_eq, length_map. apply years_length. Qed.

Lemma population_nth (risk : Z) (k : nat) :
  (k < 25)%nat ->
  nth k (Stefpro.population risk) 0%R
  = population_pct risk (2026 + Z.of_nat k).
Proof.
  intro H. rewrite population_eq.
  rewrite (nth_indep _ 0%R (population_pct risk 0%Z))
    by (rewrite length_map, years_length; exact H).
  rewrite map_nth, years_nth by exact H. reflexivity.
Qed.

Lemma lt50_true (p : R) : lt50 p = true <-> (p < 50)%R.
Proof. unfold lt50. destruct (Rlt_dec p 50); split; intro; auto; discriminate. Qed.

Lemma mask_nth (risk : Z) (k : nat) :
  (k < 25)%nat ->
  nth k (map lt50 (Stefpro.population risk)) false
  = lt50 (population_pct risk (2026 + Z.of_nat k)).
Proof.
  intro H.
  rewrite (nth_indep _ false (lt50 0%R))
    by (rewrite length_map, population_length; exact H).
  rewrite map_nth, population_nth by exact H. reflexivity.
Qed.

Lemma mask_length (risk : Z) :
  length (map lt50 (Stefpro.population risk)) = 25%nat.
Proof. rewrite length_map. apply population_length. Qed.

Lemma collapse_year_unfold (risk : Z) :
  Stefpro.collapse_year risk
  = if Py.any (map lt50 (Stefpro.population risk))
    then Some (nth (Py.where0 (map lt50 (Stefpro.population risk)))
                 Stefpro.years 0%Z)
    else None.
Proof. reflexivity. Qed.

(** The collapse year is the first year of the series below 50. *)
Lemma collapse_year_some (risk : Z) (y : Z) :
  Stefpro.collapse_year risk = Some y <->
  (2026 <= y <= 2050)%Z /\ (population_pct risk y < 50)%R /\
  forall y' : Z, (2026 <= y' < y)%Z -> ~ (population_pct risk y' < 50)%R.
Proof.
  rewrite collapse_year_unfold.
  set (mask := map lt50 (Stefpro.population risk)).
  destruct (Py.any mask) eqn:A.
  - destruct (any_where0 mask A) as (Hlen & Hat & Hbefore).
    unfold mask in Hlen. rewrite mask_length in Hlen. fold mask in Hlen.
    set (k := Py.where0 mask) in *.
    rewrite years_nth by exact Hlen.
    unfold mask in Hat. rewrite mask_nth in Hat by exact Hlen.
    apply lt50_true in Hat.
    assert (Hfirst : forall y' : Z, (2026 <= y' < 2026 + Z.of_nat k)%Z ->
                       ~ (population_pct risk y' < 50)%R).
    { intros y' Hy' Hlt.
      assert (Hj : (Z.to_nat (y' - 2026) < k)%nat) by lia.
      pose proof (Hbefore _ Hj) as Hf. unfold mask in Hf.
      rewrite mask_nth in Hf by lia.
      replace (2026 + Z.of_nat (Z.to_nat (y' - 2026)))%Z with y' in Hf by lia.
      apply lt50_true in Hlt. congruence. }
    split.
    + intro E.
      assert (Ey : (2026 + Z.of_nat k)%Z = y) by congruence.
      rewrite <- Ey. split; [ lia | ]. split; assumption.
    + intros (Hy & Hlt & Hmin). f_equal.
      destruct (Z.lt_trichotomy (2026 + Z.of_nat k) y) as [C | [C | C]].
      * exfalso. apply (Hmin (2026 + Z.of_nat k)%Z); [ lia | exact Hat ].
      * exact C.
      * exfalso. apply (Hfirst y); [ lia | exact Hlt ].
  - split; [ discriminate | ].
    intros (Hy & Hlt & _). exfalso.
    pose proof (any_false mask A (Z.to_nat (y - 2026))) as Hf.
    unfold mask in Hf. rewrite mask_nth in Hf by lia.
    replace (2026 + Z.of_nat (Z.to_nat (y - 2026)))%Z with y in Hf by lia.
    apply lt50_true in Hlt. congruence.
Qed.

Lemma collapse_year_none (risk : Z) :
  Stefpro.collapse_year risk = None <->
  forall y : Z, (2026 <= y <= 2050)%Z -> ~ (population_pct risk y < 50)%R.
Proof.
  split.
  - intros E y Hy Hlt.
    rewrite collapse_year_unfold in E.
    destruct (Py.any (map lt50 (Stefpro.population risk))) eqn:A;
      [ discriminate | ].
    pose proof (any_false _ A (Z.to_nat (y - 2026))) as Hf.
    rewrite mask_nth in Hf by lia.
    replace (2026 + Z.of_nat (Z.to_nat (y - 2026)))%Z with y in Hf by lia.
    apply lt50_true in Hlt. congruence.
  - intro H. destruct (Stefpro.collapse_year risk) as [y | ] eqn:E;
      [ | reflexivity ].
    apply collapse_year_some in E. destruct E as (Hy & Hlt & _).
    exfalso. exact (H y Hy Hlt).
Qed.

End Forecast.

(** ** Bounds on the exponential *)

Section ExpBounds.

Local Open Scope R_scope.

Lemma sq_lower (a b x y : R) :
  y = 2 * x -> 0 < a -> a < exp x -> b <= a * a -> b < exp y.
Proof.
  intros -> Ha Hx Hb.
  replace (2 * x) with (x + x) by lra. rewrite exp_plus.
  apply Rle_lt_trans with (a * a); [ exact Hb | ].
  apply Rmult_gt_0_lt_compat; lra.
Qed.

(** [e^0.7 > 2], by six squarings of [e^(0.7/64) > 1 + 0.7/64]. *)
Lemma exp_07 : 2 < exp (7 / 10).
Proof.
  assert (H0 : 647 / 640 < exp (7 / 640)).
  { pose proof (exp_ineq1 (7 / 640)) as H.
    assert (E : 7 / 640 <> 0) by lra. specialize (H E). lra. }
  assert (H1 : 1.02199 < exp (7 / 320))
    by (apply (sq_lower (647 / 640) _ (7 / 640)); [ lra | lra | exact H0 | lra ]).
  assert (H2 : 1.04446 < exp (7 / 160))
    by (apply (sq_lower 1.02199 _ (7 / 320)); [ lra | lra | exact H1 | lra ]).
  assert (H3 : 1.09089 < exp (7 / 80))
    by (apply (sq_lower 1.04446 _ (7 / 160)); [ lra | lra | exact H2 | lra ]).
  assert (H4 : 1.19004 < exp (7 / 40))
    by (apply (sq_lower 1.09089 _ (7 / 80)); [ lra | lra | exact H3 | lra ]).
  assert (H5 : 1.41619 < exp (7 / 20))
    by (apply (sq_lower 1.19004 _ (7 / 40)); [ lra | lra | exact H4 | lra ]).
  apply (sq_lower 1.41619 _ (7 / 20)); [ lra | lra | exact H5 | lra ].
Qed.

(** [e^-0.65 > 1/2], by three squarings of [e^(-0.65/8) > 1 - 0.65/8]. *)
Lemma exp_065 : 1 / 2 < exp (- (65 / 100)).
Proof.
  assert (H0 : 735 / 800 < exp (- (65 / 800))).
  { pose proof (exp_ineq1 (- (65 / 800))) as H.
    assert (E : - (65 / 800) <> 0) by lra. specialize (H E). lra. }
  assert (H1 : 0.8441 < exp (- (65 / 400)))
    by (apply (sq_lower (735 / 800) _ (- (65 / 800)));
        [ lra | lra | exact H0 | lra ]).
  assert (H2 : 0.7125 < exp (- (65 / 200)))
    by (apply (sq_lower 0.8441 _ (- (65 / 400)));
        [ lra | lra | exact H1 | lra ]).
  apply (sq_lower 0.7125 _ (- (65 / 200))); [ lra | lra | exact H2 | lra ].
Qed.

Lemma exp_m07 : exp (- (7 / 10)) < 1 / 2.
Proof.
  pose proof exp_07 as H. rewrite exp_Ropp.
  apply Rinv_lt_contravar in H; [ | pose proof (exp_pos (7 / 10)); lra ].
  lra.
Qed.

Lemma exp_le (x y : R) : x <= y -> exp x <= exp y.
Proof.
  intros [H | ->]; [ left; apply exp_increasing; exact H | right; reflexivity ].
Qed.

End ExpBounds.

Section ForecastBounds.

Local Open Scope R_scope.

Lemma pct_2040 (risk : Z) : (0 <= risk)%Z -> population_pct risk 2040 < 50.
Proof.
  intro H. unfold population_pct.
  assert (Hr : 0 <= IZR risk) by (apply IZR_le; exact H).
  replace (IZR (2040 - 2026)) with 14 by (simpl; lra).
  assert (Hle : exp (- (0.05 + IZR risk / 500) * 14) <= exp (- (7 / 10)))
    by (apply exp_le; lra).
  pose proof exp_m07. lra.
Qed.

Lemma pct_2026 (risk : Z) : population_pct risk 2026 = 100.
Proof.
  unfold population_pct. replace (IZR (2026 - 2026)) with 0 by (simpl; lra).
  rewrite Rmult_0_r, exp_0. lra.
Qed.

Lemma pct_before_2040 (y : Z) :
  (2026 <= y < 2040)%Z -> ~ population_pct 0 y < 50.
Proof.
  intros Hy Hlt. unfold population_pct in Hlt.
  assert (Hd : IZR (y - 2026) <= 13) by (apply IZR_le; lia).
  assert (Hle : exp (- (65 / 100)) <= exp (- (0.05 + 0 / 500) * IZR (y - 2026)))
    by (apply exp_le; lra).
  pose proof exp_065. lra.
Qed.

Lemma pct_decreasing (risk : Z) (y : Z) :
  (0 <= risk)%Z -> population_pct risk (y + 1) < population_pct risk y.
Proof.
  intro H. unfold population_pct.
  assert (Hr : 0 <= IZR risk) by (apply IZR_le; exact H).
  replace (y + 1 - 2026)%Z with (y - 2026 + 1)%Z by lia. rewrite plus_IZR.
  apply Rmult_lt_compat_l; [ lra | ]. apply exp_increasing.
  assert (0 <= IZR risk / 500) by lra. nra.
Qed.

End ForecastBounds.

(** ** The binary64 reading *)

Section Binary64Score.

Import PrimFloat SpecFloat FloatOps.

Lemma int_trunc (x : float) : B64.int x = Score.trunc x.
Proof.
  unfold B64.int, Score.trunc, B64.to_Q.
  destruct (Prim2SF x) as [ s | s | | s m e ]; try reflexivity.
  simpl. f_equal. unfold Py.int.
  destruct (Z.leb_spec 0 e) as [He | He].
  - simpl. apply eq_sym, Z.quot_1_r.
  - simpl Qnum. simpl Qden.
    rewrite Pos2Z.inj_pow, Z2Pos.id by lia.
    rewrite Z.shiftr_div_pow2 by lia.
    rewrite <- Z.quot_div_nonneg by (try apply Z.pow_pos_nonneg; lia).
    destruct s; simpl; [ | reflexivity ].
    change (Z.neg m) with (- Z.pos m)%Z.
    rewrite Z.quot_opp_l; [ reflexivity | ].
    apply Z.pow_nonzero; lia.
Qed.

Lemma risk_block_branch64 (T ni : float) :
  Score.branch T ni (Stefpro_binary64.risk_block T ni).
Proof.
  unfold Stefpro_binary64.risk_block.
  change (Stefpro_binary64.T_critical ni) with (Score.lethal_threshold ni).
  destruct (Score.lethal_threshold ni <=? T)%float eqn:E1;
    [ apply Score.lethal, E1 | ].
  destruct (Score.lethal_threshold ni - 2 <=? T)%float eqn:E2.
  { rewrite int_trunc. apply (Score.critical T ni E1 E2). }
  destruct (25 <=? T)%float eqn:E3.
  - pose proof (Score.high T ni E1 E2 E3) as B.
    unfold Score.high_value in B. unfold B64.div.
    destruct (is_zero (Score.lethal_threshold ni - 2 - 25)); [ exact B | ].
    rewrite int_trunc. exact B.
  - rewrite int_trunc. apply (Score.stable T ni E1 E2 E3).
Qed.

End Binary64Score.

Section Binary64Finite.
Import PrimFloat SpecFloat FloatOps FloatAxioms.

Lemma SFcompare_refl_finite (s : bool) (m : positive) (e : Z) :
  SFcompare (S754_finite s m e) (S754_finite s m e) = Some Eq.
Proof.
  simpl. destruct s; rewrite Z.compare_refl.
  - rewrite Pos.compare_cont_refl. reflexivity.
  - rewrite Pos.compare_cont_refl. reflexivity.
Qed.

Lemma to_Q_none (x : float) :
  B64.to_Q x = None <-> is_finite x = false.
Proof.
  unfold B64.to_Q, is_finite, is_nan, is_infinity.
  rewrite !eqb_spec, abs_spec.
  change (Prim2SF infinity) with (S754_infinity false).
  destruct (Prim2SF x) as [ s | s | | s m e ].
  - destruct s; simpl; split; discriminate.
  - destruct s; simpl; split; reflexivity.
  - simpl; split; reflexivity.
  - unfold SFeqb. rewrite SFcompare_refl_finite. simpl.
    split; discriminate.
Qed.

Lemma trunc_none (x : float) :
  Score.trunc x = None <-> is_finite x = false.
Proof.
  rewrite <- to_Q_none. unfold Score.trunc.
  destruct (B64.to_Q x); simpl; split; congruence.
Qed.
End Binary64Finite.

Section Binary64Reading.

Import PrimFloat.

Lemma live_try_cell64 (now : Py.datetime) (data : B64.value) :
  Stefpro_binary64.live_try now (B64.Response 200 (Some data))
  = (c <- Query.cell data ;;
     x <- B64.to_float c ;;
     Some {| B64.success := true;
             B64.temperature := B64.round1 (x - 273.15)%float;
             B64.source := "NOAA Satellite (Live)";
             B64.timestamp := (Py.strftime now ++ " UTC")%string |}).
Proof.
  simpl. unfold Query.cell.
  destruct (B64.getitem_key data "table") as [table | ]; [ | reflexivity ].
  destruct (B64.getitem_key table "rows") as [rows | ]; [ | reflexivity ].
  destruct (B64.getitem_idx rows 0) as [row | ]; [ | reflexivity ].
  destruct (B64.getitem_idx row 3) as [c | ]; [ | reflexivity ].
  unfold B64.sub_float. destruct (B64.to_float c); reflexivity.
Qed.

Lemma live_try_failed64 (now : Py.datetime) (response : B64.http_result) :
  Query.failed response -> Stefpro_binary64.live_try now response = None.
Proof.
  intro F. destruct F as [ | code body Hc | | data Hd | data c Hd Hn ].
  - reflexivity.
  - simpl. apply Z.eqb_neq in Hc. rewrite Hc. reflexivity.
  - reflexivity.
  - rewrite live_try_cell64, Hd. reflexivity.
  - rewrite live_try_cell64, Hd, Hn. reflexivity.
Qed.

Lemma live_try_delivered64 (now : Py.datetime) (response : B64.http_result)
    (x : float) :
  Query.delivered response x ->
  Stefpro_binary64.live_try now response
  = Some {| B64.success := true;
            B64.temperature := B64.round1 (x - 273.15)%float;
            B64.source := "NOAA Satellite (Live)";
            B64.timestamp := (Py.strftime now ++ " UTC")%string |}.
Proof.
  intro D. destruct D as [data c x Hd Hx].
  rewrite live_try_cell64, Hd, Hx. reflexivity.
Qed.

Lemma failed_or_delivered (response : B64.http_result) :
  Query.failed response \/ exists x : float, Query.delivered response x.
Proof.
  destruct response as [ | code body ]; [ left; apply Query.raised | ].
  destruct (Z.eq_dec code 200) as [-> | Hn];
    [ | left; apply Query.status, Hn ].
  destruct body as [data | ]; [ | left; apply Query.undecoded ].
  destruct (Query.cell data) as [c | ] eqn:Ec;
    [ | left; apply Query.no_cell, Ec ].
  destruct (B64.to_float c) as [x | ] eqn:Ex.
  - right. exists x. apply (Query.kelvin data c x Ec Ex).
  - left. apply (Query.no_float data c Ec Ex).
Qed.

Lemma live_try_files (now : Py.datetime) (response : B64.http_result) :
  Stefpro69_binary64.live_try now response
  = Stefpro_binary64.live_try now response.
Proof. reflexivity. Qed.

Lemma cell_shape (data c : B64.value) :
  Query.cell data = Some c /\ B64.to_float c <> None <->
  exists (d t : list (string * B64.value)) (row rest : list B64.value),
    data = B64.VDict d /\
    B64.assoc "table" d = Some (B64.VDict t) /\
    B64.assoc "rows" t = Some (B64.VList (B64.VList row :: rest)) /\
    nth_error row 3 = Some c /\
    B64.to_float c <> None.
Proof.
  split.
  - unfold Query.cell. intros [Hc Hx].
    destruct data as [ | | | | | | d ]; simpl in Hc; try discriminate.
    destruct (B64.assoc "table" d) as [table | ] eqn:Et; [ | discriminate ].
    destruct table as [ | | | | | | t ]; simpl in Hc; try discriminate.
    destruct (B64.assoc "rows" t) as [rows | ] eqn:Er; [ | discriminate ].
    destruct rows as [ | | | | s | l | ]; simpl in Hc; try discriminate.
    + (* a str: its first character is a str, which has no fourth one *)
      destruct s as [ | a s ]; simpl in Hc; discriminate.
    + destruct l as [ | row rest ]; simpl in Hc; [ discriminate | ].
      destruct row as [ | | | | s | row | ]; simpl in Hc; try discriminate.
      * (* a str row: its fourth character is a str, not a number *)
        destruct (String.get 3 s); [ | discriminate ].
        injection Hc as <-. elim Hx. reflexivity.
      * exists d, t, row, rest. auto.
  - intros (d & t & row & rest & -> & Et & Er & Hn & Hx).
    split; [ | exact Hx ].
    unfold Query.cell. simpl. rewrite Et. simpl. rewrite Er. exact Hn.
Qed.

Lemma live_shape (now : Py.datetime) (response : B64.http_result) :
  Stefpro_binary64.live_try now response <> None <->
  exists (d t : list (string * B64.value)) (row rest : list B64.value)
         (c : B64.value),
    response = B64.Response 200 (Some (B64.VDict d)) /\
    B64.assoc "table" d = Some (B64.VDict t) /\
    B64.assoc "rows" t = Some (B64.VList (B64.VList row :: rest)) /\
    nth_error row 3 = Some c /\
    B64.to_float c <> None.
Proof.
  split.
  - intro H.
    destruct (failed_or_delivered response) as [F | [x D]];
      [ elim H; apply live_try_failed64, F | ].
    destruct D as [data c x Hc Hx].
    assert (Hx' : B64.to_float c <> None) by (rewrite Hx; discriminate).
    destruct (proj1 (cell_shape data c) (conj Hc Hx'))
      as (d & t & row & rest & -> & Et & Er & Hn & _).
    exists d, t, row, rest, c. auto.
  - intros (d & t & row & rest & c & -> & Et & Er & Hn & Hx).
    destruct (proj2 (cell_shape (B64.VDict d) c)) as [Hc _];
      [ exists d, t, row, rest; auto | ].
    rewrite live_try_cell64, Hc.
    destruct (B64.to_float c); [ discriminate | elim Hx; reflexivity ].
Qed.

Lemma to_float_cases (c : B64.value) :
  B64.to_float c <> None <->
  (exists x : float, c = B64.VFloat x) \/
  (exists n : Z, c = B64.VInt n /\ B64.of_Z n <> None) \/
  (exists b : bool, c = B64.VBool b).
Proof.
  split.
  - destruct c as [ | b | n | x | s | l | d ]; simpl; intro H;
      try (elim H; reflexivity).
    + right. right. exists b. reflexivity.
    + right. left. exists n. split; [ reflexivity | exact H ].
    + left. exists x. reflexivity.
  - intros [ [x ->] | [ (n & -> & H) | [b ->] ] ]; simpl;
      [ discriminate | exact H | discriminate ].
Qed.

Lemma live_success64 (now : Py.datetime) (lat lon : Q)
    (response : B64.http_result) :
  B64.success (Stefpro_binary64.get_sea_temperature_live now lat lon response)
  = true
  <-> Stefpro_binary64.live_try now response <> None.
Proof.
  unfold Stefpro_binary64.get_sea_temperature_live.
  destruct (failed_or_delivered response) as [F | [x D]].
  - rewrite (live_try_failed64 now response F). simpl.
    split; [ discriminate | intro H; elim H; reflexivity ].
  - rewrite (live_try_delivered64 now response x D). simpl.
    split; [ discriminate | reflexivity ].
Qed.

End Binary64Reading.

(** Runs of the binary64 reading, beside the exact one. *)

Section Binary64Runs.
Import PrimFloat.
Local Open Scope float_scope.

Example score_14_5 :
  Stefpro_binary64.risk_block 14.5 1 = Some (28%Z, "STABLE"%string) /\
  Stefpro.risk_block 14.5 1 = Some (29%Z, "STABLE"%string).
Proof. split; vm_compute; reflexivity. Qed.

Example score_ssp5 :
  Stefpro_binary64.effective_T 25.4
    (Stefpro_binary64.temp_shift "SSP5-8.5 (+3.2°C by 2050)")
  = 28.599999999999998 /\
  Stefpro_binary64.risk_block 28.599999999999998 1
  = Some (69%Z, "HIGH RISK"%string).
Proof. split; vm_compute; reflexivity. Qed.

Example score_29_9 :
  Stefpro_binary64.risk_block 29.9 1 = Some (79%Z, "CRITICAL"%string).
Proof. vm_compute; reflexivity. Qed.

Example score_overflow :
  is_finite (-1e308) = true /\
  Stefpro_binary64.risk_block (-1e308) 1 = None.
Proof. split; vm_compute; reflexivity. Qed.

Example live_300_2 :
  Stefpro_binary64.get_sea_temperature_live noon 36.8 34.6
    (B64.Response 200 (Some (Query.payload (B64.VFloat 300.2))))
  = {| B64.success := true; B64.temperature := 27.1;
       B64.source := "NOAA Satellite (Live)";
       B64.timestamp := "2026-07-15 12:00 UTC" |}.
Proof. vm_compute; reflexivity. Qed.

Example live_int :
  B64.temperature
    (Stefpro_binary64.get_sea_temperature_live noon 36.8 34.6
       (B64.Response 200 (Some (Query.payload (B64.VInt 300)))))
  = 26.9.
Proof. vm_compute; reflexivity. Qed.

Example big_int_fails :
  Query.failed (B64.Response 200 (Some (Query.payload (B64.VInt (2 ^ 1024))))).
Proof. eapply Query.no_float; vm_compute; reflexivity. Qed.

End Binary64Runs.

(** ** Claims on the threshold and the score *)

Section ScoreClaim.

Import PrimFloat.

(** C1, as amended: for every float [T] and every float [ni] the block of
    either file takes the first branch whose condition holds, in the order
    LETHAL ([T >= T_critical], score 100), CRITICAL ([T >= T_critical - 2]),
    HIGH RISK ([T >= 25]), STABLE, under the labels "LETHAL", "CRITICAL",
    "HIGH RISK", "STABLE".  The formula of a computed branch is evaluated in
    binary64 and its score is the truncation toward zero ([int]) of the
    float so obtained, not its rounding; the block raises exactly when that
    float is an infinity or a nan, or when the divisor of the HIGH RISK
    branch is zero.  Both files compute the same result. *)
Theorem risk_block_first_match (T ni : PrimFloat.float) :
  Score.branch T ni (Stefpro_binary64.risk_block T ni) /\
  Score.branch T ni (Stefpro69_binary64.risk_block T ni) /\
  Stefpro69_binary64.risk_block T ni = Stefpro_binary64.risk_block T ni /\
  (forall x : PrimFloat.float,
     Score.trunc x = None <-> PrimFloat.is_finite x = false).
Proof.
  change (Stefpro69_binary64.risk_block T ni)
    with (Stefpro_binary64.risk_block T ni).
  pose proof (risk_block_branch64 T ni) as B.
  split; [ exact B | ]. split; [ exact B | ]. split; [ reflexivity | ].
  exact trunc_none.
Qed.

(** C1 as stated fails: at [T = 12.4], [ni = 1] the STABLE formula is worth
    24.8 (24.800000000000001 in binary64), which [round] takes to 25 and
    the code's [int] to 24. *)
Lemma risk_block_not_rounded :
  0 <= 1 <= 1 /\
  Stefpro.risk 12.4 1 = Some 24%Z /\
  Stefpro69.risk 12.4 1 = Some 24%Z /\
  Stefpro_binary64.risk 12.4%float 1%float = Some 24%Z /\
  Stefpro69_binary64.risk 12.4%float 1%float = Some 24%Z /\
  Spec.evaluate 12.4 1 = (25%Z, Spec.STABLE) /\
  Stefpro.risk 12.4 1 <> Some (fst (Spec.evaluate 12.4 1)) /\
  Stefpro_binary64.risk 12.4%float 1%float
  <> Some (fst (Spec.evaluate 12.4 1)).
Proof.
  split; [ unfold Qle; simpl; lia | ].
  repeat split; try reflexivity; vm_compute; discriminate.
Qed.

End ScoreClaim.

(** C2, as amended: for every temperature [T] and every [ni] in [0,1] the
    score is at most 100, and it is at least 0 exactly when [T > -0.5] (so
    for every [T >= 0] it lies in [0,100]); the code has no clamp. *)
Theorem risk_range (T ni : Q) :
  0 <= ni <= 1 ->
  exists r : Z,
    Stefpro.risk T ni = Some r /\ Stefpro69.risk T ni = Some r /\
    (r <= 100)%Z /\ ((0 <= r)%Z <-> - (1 # 2) < T).
Proof.
  intro Hni.
  destruct (branch_score ni Hni T _ (risk_block_branch ni Hni T))
    as (r & s & E & Hle & Hsign).
  exists r. unfold Stefpro69.risk, Stefpro.risk.
  change (Stefpro69.risk_block T ni) with (Stefpro.risk_block T ni).
  rewrite E. simpl. auto.
Qed.

Lemma risk_range_witness :
  0 <= 0.5 <= 1 /\
  exists r : Z,
    Stefpro.risk 26 0.5 = Some r /\ Stefpro69.risk 26 0.5 = Some r /\
    (r <= 100)%Z /\ ((0 <= r)%Z <-> - (1 # 2) < 26).
Proof.
  assert (H : 0 <= 0.5 <= 1) by (unfold Qle; simpl; lia).
  split; [ exact H | apply (risk_range 26 0.5 H) ].
Defined.

(** C2 as stated fails: at [T = -2], [ni = 1] the score is -4. *)
Lemma risk_below_zero :
  0 <= 1 <= 1 /\
  Stefpro.risk (-2) 1 = Some (-4)%Z /\
  Stefpro69.risk (-2) 1 = Some (-4)%Z /\
  ~ (0 <= -4 <= 100)%Z.
Proof.
  split; [ unfold Qle; simpl; lia | ].
  repeat split; try reflexivity. lia.
Qed.

(** C3: for every [ni] in [0,1] the divisor of the HIGH RISK branch,
    [T_critical - 2 - 25 = 31.5 - 1.07 (1 - ni) - 27], is at least 3.43, so
    [T_critical - 2 <= 25] never holds, the division yields a value, and
    the block of either file raises for no temperature. *)
Theorem denominator_positive (ni : Q) :
  0 <= ni <= 1 ->
  Stefpro.T_critical ni - 2 - 25 == 31.5 - 1.07 * (1 - ni) - 27 /\
  Stefpro69.T_critical ni - 2 - 25 == 31.5 - 1.07 * (1 - ni) - 27 /\
  3.43 <= Stefpro.T_critical ni - 2 - 25 /\
  ~ Stefpro.T_critical ni - 2 <= 25 /\
  forall T : Q,
    Py.div (T - 25) (Stefpro.T_critical ni - 2 - 25)
    = Some ((T - 25) / (Stefpro.T_critical ni - 2 - 25)) /\
    Stefpro.risk_block T ni <> None /\ Stefpro69.risk_block T ni <> None.
Proof.
  intro Hni.
  change (Stefpro69.T_critical ni) with (Spec.lethal_threshold ni).
  change (Stefpro.T_critical ni) with (Spec.lethal_threshold ni).
  pose proof (denominator_range ni Hni) as Hd.
  split; [ apply denominator_unfold | ].
  split; [ apply denominator_unfold | ].
  split; [ exact Hd | ].
  split; [ intro H; lra | ].
  intro T. split; [ apply div_some; intro H; lra | ].
  change (Stefpro69.risk_block T ni) with (Stefpro.risk_block T ni).
  destruct (risk_block_some ni Hni T) as (r & s & E).
  rewrite E. split; discriminate.
Qed.

Lemma denominator_positive_witness :
  0 <= 0 <= 1 /\ 3.43 <= Stefpro.T_critical 0 - 2 - 25.
Proof.
  assert (H : 0 <= 0 <= 1) by (unfold Qle; simpl; lia).
  split; [ exact H | apply (denominator_positive 0 H) ].
Defined.

(** C4: the threshold is [31.5 - 1.07 (1 - ni)]; for [ni] in [0,1] it lies
    in [30.43, 31.5]; a smaller [ni] never gives a larger threshold; and
    the threshold an analysis reports is the same whatever the temperature
    dict and the scenario it ran on. *)
Theorem T_critical_spec (ni ni' : Q) :
  0 <= ni <= 1 -> ni' <= ni ->
  Stefpro.T_critical ni == 31.5 - 1.07 * (1 - ni) /\
  Stefpro69.T_critical ni == 31.5 - 1.07 * (1 - ni) /\
  30.43 <= Stefpro.T_critical ni <= 31.5 /\
  Stefpro.T_critical ni' <= Stefpro.T_critical ni /\
  forall (td1 td2 : reading) (sc1 sc2 : string) (r1 r2 : Report.t),
    Stefpro.analyse td1 sc1 ni = Some r1 ->
    Stefpro69.analyse td2 sc2 ni = Some r2 ->
    Report.T_critical r1 = Report.T_critical r2.
Proof.
  intros Hni Hle.
  change (Stefpro69.T_critical ni) with (Spec.lethal_threshold ni).
  change (Stefpro.T_critical ni') with (Spec.lethal_threshold ni').
  change (Stefpro.T_critical ni) with (Spec.lethal_threshold ni).
  split; [ reflexivity | ]. split; [ reflexivity | ].
  split; [ apply threshold_range; exact Hni | ].
  split; [ apply threshold_mono; exact Hle | ].
  intros td1 td2 sc1 sc2 r1 r2 H1 H2.
  change (Stefpro69.analyse td2 sc2 ni) with (Stefpro.analyse td2 sc2 ni) in H2.
  rewrite (analyse_T_critical _ _ _ _ H1), (analyse_T_critical _ _ _ _ H2).
  reflexivity.
Qed.

Lemma T_critical_spec_witness :
  0 <= 0.5 <= 1 /\ 0 <= 0.5 /\
  30.43 <= Stefpro.T_critical 0.5 <= 31.5 /\
  Stefpro.T_critical 0 <= Stefpro.T_critical 0.5.
Proof.
  assert (H : 0 <= 0.5 <= 1) by (unfold Qle; simpl; lia).
  assert (H' : 0 <= 0.5) by (unfold Qle; simpl; lia).
  split; [ exact H | ]. split; [ exact H' | ].
  destruct (T_critical_spec 0.5 0 H H') as (_ & _ & Hr & Hm & _).
  split; [ exact Hr | exact Hm ].
Defined.

(** C10: for a fixed [ni] in [0,1] the integer score never decreases when
    the temperature rises: [risk(T1, ni) <= risk(T2, ni)] for all
    [0 <= T1 <= T2], within a tier and across the tier boundaries. *)
Theorem risk_monotone (T1 T2 ni : Q) :
  0 <= ni <= 1 -> 0 <= T1 -> T1 <= T2 ->
  exists r1 r2 : Z,
    Stefpro.risk T1 ni = Some r1 /\ Stefpro.risk T2 ni = Some r2 /\
    Stefpro69.risk T1 ni = Some r1 /\ Stefpro69.risk T2 ni = Some r2 /\
    (r1 <= r2)%Z.
Proof.
  intros Hni _ H12.
  pose proof (risk_block_branch ni Hni T1) as B1.
  pose proof (risk_block_branch ni Hni T2) as B2.
  destruct (risk_block_some ni Hni T1) as (r1 & s1 & E1).
  destruct (risk_block_some ni Hni T2) as (r2 & s2 & E2).
  rewrite E1 in B1. rewrite E2 in B2.
  exists r1, r2. unfold Stefpro69.risk, Stefpro.risk.
  change (Stefpro69.risk_block T1 ni) with (Stefpro.risk_block T1 ni).
  change (Stefpro69.risk_block T2 ni) with (Stefpro.risk_block T2 ni).
  rewrite E1, E2. simpl.
  repeat (split; [ reflexivity | ]).
  exact (branch_mono ni Hni T1 T2 r1 r2 s1 s2 H12 B1 B2).
Qed.

Lemma risk_monotone_witness :
  0 <= 0.5 <= 1 /\ 0 <= 24.9 /\ 24.9 <= 25 /\
  exists r1 r2 : Z,
    Stefpro.risk 24.9 0.5 = Some r1 /\ Stefpro.risk 25 0.5 = Some r2 /\
    Stefpro69.risk 24.9 0.5 = Some r1 /\ Stefpro69.risk 25 0.5 = Some r2 /\
    (r1 <= r2)%Z.
Proof.
  assert (H : 0 <= 0.5 <= 1) by (unfold Qle; simpl; lia).
  assert (H1 : 0 <= 24.9) by (unfold Qle; simpl; lia).
  assert (H2 : 24.9 <= 25) by (unfold Qle; simpl; lia).
  split; [ exact H | ]. split; [ exact H1 | ]. split; [ exact H2 | ].
  apply (risk_monotone 24.9 25 0.5 H H1 H2).
Defined.

(** ** Claims on the temperature functions *)

Example live_reading :
  Stefpro.get_sea_temperature_live noon 36.8 34.6
    (Py.Response 200 (Some (payload (Py.VNum 300.15))))
  = {| success := true; temperature := 270 # 10;
       source := "NOAA Satellite (Live)";
       timestamp := "2026-07-15 12:00 UTC" |}.
Proof. reflexivity. Qed.

Example payload_delivers : delivered (Py.Response 200 (Some (payload (Py.VNum 300.15)))) 300.15.
Proof. apply d_kelvin. reflexivity. Qed.

Example payload_fails : failed (Py.Response 200 (Some (payload Py.VNone))).
Proof. eapply f_not_numeric; reflexivity. Qed.

(** In the exact reading a boolean cell is outside [failed] and
    [delivered] alike, and the result is live: Python subtracts from [True]
    as from 1.  The binary64 reading counts it as delivered
    ([Query.delivered]). *)
Example live_bool_cell :
  option_map (fun r => (success r, source r))
    (Stefpro.live_try noon (Py.Response 200 (Some (payload (Py.VBool true)))))
  = Some (true, "NOAA Satellite (Live)"%string).
Proof. reflexivity. Qed.

Section ReadingClaim.

Import PrimFloat.

(** C5, as amended: in either file the query either fails or delivers a
    float, and never both ways of returning raise.  It fails when it
    raised, the status is not 200, the body does not decode, the cell
    [table.rows[0][3]] is missing, or the cell is neither a number nor a
    boolean, or is an integer too large for a float; the function then
    returns the fallback reading, whose [success] is [False] and whose
    [source] is 'Geographic Model (Estimated)'.  Otherwise the status is
    200 and the cell is a float, an integer (converted to the nearest
    float) or a boolean (taken as 1 or 0, so a boolean cell gives a live
    reading too); with [x] that float, the function returns
    [success = True], [source] 'NOAA Satellite (Live)' and the temperature
    [round(x - 273.15, 1)], the subtraction being that of binary64 and the
    rounding that of the float it yields.  No exception leaves the
    function. *)
Theorem live_or_fallback (now : Py.datetime) (lat lon : Q)
    (response : B64.http_result) :
  let live := Stefpro_binary64.get_sea_temperature_live now lat lon response in
  let fallback := Stefpro_binary64.get_temperature_fallback now lat lon in
  Stefpro69_binary64.get_sea_temperature_live now lat lon response = live /\
  Stefpro69_binary64.get_temperature_fallback now lat lon = fallback /\
  B64.success fallback = false /\
  B64.source fallback = "Geographic Model (Estimated)"%string /\
  (Query.failed response \/
   exists x : PrimFloat.float, Query.delivered response x) /\
  (Query.failed response -> live = fallback) /\
  (forall x : PrimFloat.float, Query.delivered response x ->
     live = {| B64.success := true;
               B64.temperature := B64.round1 (PrimFloat.sub x 273.15%float);
               B64.source := "NOAA Satellite (Live)";
               B64.timestamp := (Py.strftime now ++ " UTC")%string |}) /\
  (forall (data : B64.value) (b : bool),
     Query.cell data = Some (B64.VBool b) ->
     Query.delivered (B64.Response 200 (Some data))
       (if b then 1%float else 0%float)) /\
  (forall (data : B64.value) (n : Z),
     Query.cell data = Some (B64.VInt n) ->
     match B64.of_Z n with
     | Some x => Query.delivered (B64.Response 200 (Some data)) x
     | None => Query.failed (B64.Response 200 (Some data))
     end).
Proof.
  intros live fallback.
  split; [ reflexivity | ]. split; [ reflexivity | ].
  split; [ reflexivity | ]. split; [ reflexivity | ].
  split; [ apply failed_or_delivered | ].
  split; [ | split; [ | split ] ].
  - intro F. unfold live, Stefpro_binary64.get_sea_temperature_live.
    rewrite (live_try_failed64 now response F). reflexivity.
  - intros x D. unfold live, Stefpro_binary64.get_sea_temperature_live.
    rewrite (live_try_delivered64 now response x D). reflexivity.
  - intros data b Hc. apply (Query.kelvin data _ _ Hc). reflexivity.
  - intros data n Hc. destruct (B64.of_Z n) as [x | ] eqn:Ex.
    + apply (Query.kelvin data _ _ Hc). exact Ex.
    + apply (Query.no_float data _ Hc). exact Ex.
Qed.

(** C5 as stated fails on the labels: the fallback reading is labelled
    'Geographic Model (Estimated)', not "geographic-model", and the live
    one 'NOAA Satellite (Live)', not "satellite-live". *)
Lemma source_labels_differ :
  Query.failed B64.Raised /\
  B64.source (Stefpro_binary64.get_sea_temperature_live noon 36.8 34.6
                B64.Raised)
  = "Geographic Model (Estimated)"%string /\
  B64.source (Stefpro_binary64.get_sea_temperature_live noon 36.8 34.6
                B64.Raised)
  <> "geographic-model"%string /\
  B64.source (Stefpro69_binary64.get_sea_temperature_live noon 36.8 34.6
                B64.Raised)
  <> "geographic-model"%string /\
  Query.delivered
    (B64.Response 200 (Some (Query.payload (B64.VFloat 300.15%float))))
    300.15%float /\
  B64.source (Stefpro_binary64.get_sea_temperature_live noon 36.8 34.6
                (B64.Response 200
                   (Some (Query.payload (B64.VFloat 300.15%float)))))
  = "NOAA Satellite (Live)"%string /\
  B64.source (Stefpro_binary64.get_sea_temperature_live noon 36.8 34.6
                (B64.Response 200
                   (Some (Query.payload (B64.VFloat 300.15%float)))))
  <> "satellite-live"%string /\
  B64.source (Stefpro69_binary64.get_sea_temperature_live noon 36.8 34.6
                (B64.Response 200
                   (Some (Query.payload (B64.VFloat 300.15%float)))))
  <> "satellite-live"%string.
Proof.
  split; [ apply Query.raised | ].
  split; [ reflexivity | ].
  split; [ simpl; discriminate | ].
  split; [ simpl; discriminate | ].
  split; [ eapply Query.kelvin; reflexivity | ].
  split; [ reflexivity | ].
  split; simpl; discriminate.
Qed.

End ReadingClaim.



(** ** Claims on the forecast and on the two files *)

(** C7: in either file the forecast has 25 entries, for the years 2026 to
    2050; [decay_rate = 0.05 + risk / 500]; the percentage of a year is
    [100 e^(-decay_rate (year - 2026))]; [collapse_year] is the first year
    of the series whose percentage is below 50, and [None] exactly when no
    year is; and the forecast an analysis reports is the forecast of its
    score, whatever else the analysis ran on. *)
Theorem forecast_spec (risk : Z) :
  length Stefpro.years = 25%nat /\
  (forall y : Z, In y Stefpro.years <-> (2026 <= y <= 2050)%Z) /\
  Stefpro.decay_rate risk = (0.05 + IZR risk / 500)%R /\
  length (Stefpro.population risk) = 25%nat /\
  (forall k : nat, (k < 25)%nat ->
     nth k Stefpro.years 0%Z = (2026 + Z.of_nat k)%Z /\
     nth k (Stefpro.population risk) 0%R
     = (100 * exp (- Stefpro.decay_rate risk
                     * IZR (nth k Stefpro.years 0%Z - 2026)))%R) /\
  (forall y : Z,
     Stefpro.collapse_year risk = Some y <->
     In y Stefpro.years /\ (population_pct risk y < 50)%R /\
     forall y' : Z, In y' Stefpro.years -> (y' < y)%Z ->
                    ~ (population_pct risk y' < 50)%R) /\
  (Stefpro.collapse_year risk = None <->
   forall y : Z, In y Stefpro.years -> ~ (population_pct risk y < 50)%R) /\
  Stefpro69.years = Stefpro.years /\
  Stefpro69.decay_rate risk = Stefpro.decay_rate risk /\
  Stefpro69.population risk = Stefpro.population risk /\
  Stefpro69.collapse_year risk = Stefpro.collapse_year risk /\
  (forall (td : reading) (sc : string) (ni : Q) (r : Report.t),
     Stefpro.analyse td sc ni = Some r ->
     Report.decay_rate r = Stefpro.decay_rate (Report.risk r) /\
     Report.population r = Stefpro.population (Report.risk r) /\
     Report.collapse_year r = Stefpro.collapse_year (Report.risk r)).
Proof.
  split; [ apply years_length | ].
  split; [ apply years_In | ].
  split; [ reflexivity | ].
  split; [ apply population_length | ].
  split.
  { intros k Hk. split; [ apply years_nth; exact Hk | ].
    rewrite population_nth, years_nth by exact Hk. reflexivity. }
  split.
  { intro y. rewrite collapse_year_some, years_In. split.
    - intros (Hy & Hlt & Hmin). split; [ exact Hy | ]. split; [ exact Hlt | ].
      intros y' Hy' Hlt'. apply years_In in Hy'. apply Hmin. lia.
    - intros (Hy & Hlt & Hmin). split; [ exact Hy | ]. split; [ exact Hlt | ].
      intros y' Hy'. apply Hmin; [ apply years_In; lia | lia ]. }
  split.
  { rewrite collapse_year_none. split.
    - intros H y Hy. apply H. apply years_In. exact Hy.
    - intros H y Hy. apply H. apply years_In. exact Hy. }
  split; [ reflexivity | ]. split; [ reflexivity | ].
  split; [ reflexivity | ]. split; [ reflexivity | ].
  intros td sc ni r. unfold Stefpro.analyse.
  destruct (Stefpro.risk_block _ ni) as [[k s] | ]; [ | discriminate ].
  intro H. injection H as <-. simpl. auto.
Qed.

(** C8: for every score in [0,100] the series falls below 50 within the
    horizon, so [collapse_year] is a year (after 2026 and no later than
    2040) and never [None]; for the score 0, [decay_rate] is 0.05, the
    series is strictly decreasing, and [collapse_year] is 2040. *)
Theorem collapse_within_horizon (risk : Z) :
  (0 <= risk <= 100)%Z ->
  (exists y : Z,
     Stefpro.collapse_year risk = Some y /\
     Stefpro69.collapse_year risk = Some y /\ (2026 < y <= 2040)%Z) /\
  Stefpro.decay_rate 0 = 0.05%R /\
  (forall k : nat, (k + 1 < 25)%nat ->
     (nth (k + 1) (Stefpro.population 0) 0 < nth k (Stefpro.population 0) 0)%R) /\
  Stefpro.collapse_year 0 = Some 2040%Z /\
  Stefpro69.collapse_year 0 = Some 2040%Z.
Proof.
  intros [Hr _]. split.
  { change (Stefpro69.collapse_year risk) with (Stefpro.collapse_year risk).
    destruct (Stefpro.collapse_year risk) as [y | ] eqn:E.
    - exists y. split; [ reflexivity | ]. split; [ reflexivity | ].
      apply collapse_year_some in E. destruct E as (Hy & Hlt & Hmin).
      assert (y <> 2026%Z).
      { intros ->. rewrite pct_2026 in Hlt. lra. }
      assert (~ (2040 < y)%Z).
      { intro H40. apply (Hmin 2040%Z); [ lia | apply pct_2040; exact Hr ]. }
      lia.
    - exfalso. pose proof (proj1 (collapse_year_none risk) E 2040%Z) as H.
      apply H; [ lia | apply pct_2040; exact Hr ]. }
  split.
  { unfold Stefpro.decay_rate. lra. }
  split.
  { intros k Hk. rewrite !population_nth by lia.
    replace (2026 + Z.of_nat (k + 1))%Z with (2026 + Z.of_nat k + 1)%Z by lia.
    apply pct_decreasing. lia. }
  assert (E : Stefpro.collapse_year 0 = Some 2040%Z).
  { apply collapse_year_some. split; [ lia | ].
    split; [ apply pct_2040; lia | ]. intros y' Hy'.
    apply pct_before_2040. exact Hy'. }
  split; exact E.
Qed.

Lemma collapse_within_horizon_witness :
  (0 <= 0 <= 100)%Z /\ Stefpro.collapse_year 0 = Some 2040%Z.
Proof.
  assert (H : (0 <= 0 <= 100)%Z) by lia.
  split; [ exact H | apply (collapse_within_horizon 0 H) ].
Defined.

(** C9: on the same temperature, scenario shift and [ni], the two files
    compute the same effective temperature, threshold, score and tier,
    [SMR = 72.4 e^(0.0567 T)], [Q10], margin, decay rate, population series
    and collapse year: the computations are equal as functions, and so are
    the whole analysis and both temperature functions. *)
Theorem files_agree (temp shift ni : Q) (risk : Z) :
  Stefpro69.effective_T temp shift = Stefpro.effective_T temp shift /\
  Stefpro.effective_T temp shift = temp + shift /\
  Stefpro69.T_critical ni = Stefpro.T_critical ni /\
  (forall T : Q,
     Stefpro69.risk_block T ni = Stefpro.risk_block T ni /\
     Stefpro69.risk T ni = Stefpro.risk T ni /\
     Stefpro69.status T ni = Stefpro.status T ni /\
     Stefpro69.SMR T = Stefpro.SMR T /\
     Stefpro.SMR T = (72.4 * exp (0.0567 * Q2R T))%R /\
     Stefpro69.Q10 T = Stefpro.Q10 T /\
     Stefpro69.margin T ni = Stefpro.margin T ni) /\
  Stefpro69.decay_rate risk = Stefpro.decay_rate risk /\
  Stefpro69.years = Stefpro.years /\
  Stefpro69.population risk = Stefpro.population risk /\
  Stefpro69.collapse_year risk = Stefpro.collapse_year risk /\
  (forall scenario : string,
     Stefpro69.temp_shift scenario = Stefpro.temp_shift scenario) /\
  (forall (td : reading) (scenario : string),
     Stefpro69.analyse td scenario ni = Stefpro.analyse td scenario ni) /\
  (forall (now : Py.datetime) (lat lon : Q) (response : Py.http_result),
     Stefpro69.get_temperature_fallback now lat lon
     = Stefpro.get_temperature_fallback now lat lon /\
     Stefpro69.get_sea_temperature_live now lat lon response
     = Stefpro.get_sea_temperature_live now lat lon response).
Proof.
  repeat split; reflexivity.
Qed.

(** ** Further properties: tiers, alerts and recommendations *)

Lemma lt_true (x y : Q) : Py.lt x y = true <-> x < y.
Proof.
  unfold Py.lt. rewrite negb_true_iff. split.
  - apply Qle_bool_false.
  - intro H. destruct (Qle_bool y x) eqn:E; [ | reflexivity ].
    apply Qle_bool_iff in E. lra.
Qed.

Lemma lt_false (x y : Q) : Py.lt x y = false <-> y <= x.
Proof.
  unfold Py.lt. rewrite negb_false_iff. apply Qle_bool_iff.
Qed.

Lemma ratio_antitone (a d1 d2 : Q) :
  0 <= a -> 0 < d1 -> d1 <= d2 -> a / d2 <= a / d1.
Proof.
  intros Ha Hd1 Hd2. apply Qle_shift_div_l; [ exact Hd1 | ].
  assert (H2 : 0 < d2) by lra.
  assert (Hq : 0 <= a / d2) by (apply Qle_shift_div_l; [ exact H2 | lra ]).
  assert (E : a == a / d2 * d2) by (field; lra).
  rewrite E at 2. rewrite (Qmult_comm (a / d2) d1), (Qmult_comm (a / d2) d2).
  apply Qmult_le_compat_r; assumption.
Qed.

Section Tiers.

Import Spec.

Variable ni : Q.
Hypothesis Hni : 0 <= ni <= 1.

(** The four results of the block, with the tier's range of temperatures
    and of scores. *)
Lemma risk_cases (T : Q) :
  (lethal_threshold ni <= T /\
   Stefpro.risk_block T ni = Some (100%Z, "LETHAL"%string)) \/
  (lethal_threshold ni - 2 <= T < lethal_threshold ni /\
   exists r : Z, (75 <= r <= 99)%Z /\ r = Py.int (critical_value T ni) /\
     Stefpro.risk_block T ni = Some (r, "CRITICAL"%string)) \/
  (25 <= T < lethal_threshold ni - 2 /\
   exists r : Z, (50 <= r <= 74)%Z /\ r = Py.int (high_value T ni) /\
     Stefpro.risk_block T ni = Some (r, "HIGH RISK"%string)) \/
  (T < 25 /\
   exists r : Z, (r <= 49)%Z /\ r = Py.int (stable_value T) /\
     Stefpro.risk_block T ni = Some (r, "STABLE"%string)).
Proof.
  pose proof (risk_block_branch ni Hni T) as B.
  inversion B as [H1 E | H1 H2 E | H1 H2 E | H1 H2 E].
  - left. split; [ exact H1 | reflexivity ].
  - right; left. split; [ split; assumption | ].
    eexists. split; [ apply (critical_score ni T H1 H2) | ].
    split; reflexivity.
  - right; right; left. split; [ split; assumption | ].
    eexists. split; [ apply (high_score ni Hni T H1 H2) | ].
    split; reflexivity.
  - right; right; right. split; [ exact H2 | ].
    eexists. split; [ apply (stable_score T H2) | ]. split; reflexivity.
Qed.

End Tiers.

Lemma recommendation_level (r : Z) :
  St.level_of (Stefpro.recommendation r)
  = (if (85 <=? r)%Z then St.Error
     else if (70 <=? r)%Z then St.Warning
     else if (50 <=? r)%Z then St.Info else St.Success)
  /\ St.level_of (Stefpro69.recommendation r)
     = St.level_of (Stefpro.recommendation r).
Proof.
  unfold Stefpro.recommendation, Stefpro69.recommendation.
  destruct (85 <=? r)%Z; [ split; reflexivity | ].
  destruct (70 <=? r)%Z; [ split; reflexivity | ].
  destruct (50 <=? r)%Z; split; reflexivity.
Qed.

Lemma margin_alert_level (m : Q) :
  option_map St.level_of (Stefpro.margin_alert m)
  = (if Py.lt m 0 then Some St.Error
     else if Py.lt m 1 then Some St.Warning
     else if Py.lt m 3 then Some St.Info else None)
  /\ option_map St.level_of (Stefpro69.margin_alert m)
     = option_map St.level_of (Stefpro.margin_alert m).
Proof.
  unfold Stefpro.margin_alert, Stefpro69.margin_alert.
  destruct (Py.lt m 0); [ split; reflexivity | ].
  destruct (Py.lt m 1); [ split; reflexivity | ].
  destruct (Py.lt m 3); split; reflexivity.
Qed.

(** The cases of the alert, by the margin. *)
Lemma margin_alert_cases (m : Q) :
  (m < 0 /\ option_map St.level_of (Stefpro.margin_alert m) = Some St.Error) \/
  (0 <= m < 1 /\
   option_map St.level_of (Stefpro.margin_alert m) = Some St.Warning) \/
  (1 <= m < 3 /\
   option_map St.level_of (Stefpro.margin_alert m) = Some St.Info) \/
  (3 <= m /\ option_map St.level_of (Stefpro.margin_alert m) = None).
Proof.
  rewrite (proj1 (margin_alert_level m)).
  destruct (Py.lt m 0) eqn:E0.
  { apply lt_true in E0. left. split; [ exact E0 | reflexivity ]. }
  apply lt_false in E0.
  destruct (Py.lt m 1) eqn:E1.
  { apply lt_true in E1. right; left. split; [ split; assumption | reflexivity ]. }
  apply lt_false in E1.
  destruct (Py.lt m 3) eqn:E3.
  { apply lt_true in E3. right; right; left.
    split; [ split; assumption | reflexivity ]. }
  apply lt_false in E3. right; right; right. split; [ exact E3 | reflexivity ].
Qed.

Lemma margin_unfold (T ni : Q) :
  Stefpro.margin T ni == Spec.lethal_threshold ni - T.
Proof. reflexivity. Qed.

(** X1: for [ni] in [0,1] the tier is a function of the score: the status
    is LETHAL exactly at 100, CRITICAL exactly from 75 to 99, HIGH RISK
    exactly from 50 to 74, and STABLE exactly up to 49. *)
Theorem tier_bands (T ni : Q) :
  0 <= ni <= 1 ->
  exists (r : Z) (s : string),
    Stefpro.risk_block T ni = Some (r, s) /\
    Stefpro69.risk_block T ni = Some (r, s) /\
    (s = "LETHAL"%string <-> r = 100%Z) /\
    (s = "CRITICAL"%string <-> (75 <= r <= 99)%Z) /\
    (s = "HIGH RISK"%string <-> (50 <= r <= 74)%Z) /\
    (s = "STABLE"%string <-> (r <= 49)%Z).
Proof.
  intro Hni.
  change (Stefpro69.risk_block T ni) with (Stefpro.risk_block T ni).
  destruct (risk_cases ni Hni T)
    as [[_ E] | [[_ (r & Hr & _ & E)] | [[_ (r & Hr & _ & E)] | [_ (r & Hr & _ & E)]]]];
    rewrite E; eexists; eexists; (split; [ reflexivity | ]);
    (split; [ reflexivity | ]);
    repeat apply conj; intro; try reflexivity; try lia; try discriminate.
Qed.

Lemma tier_bands_witness :
  0 <= 0.5 <= 1 /\
  exists (r : Z) (s : string),
    Stefpro.risk_block 29.5 0.5 = Some (r, s) /\
    Stefpro69.risk_block 29.5 0.5 = Some (r, s) /\
    (s = "LETHAL"%string <-> r = 100%Z) /\
    (s = "CRITICAL"%string <-> (75 <= r <= 99)%Z) /\
    (s = "HIGH RISK"%string <-> (50 <= r <= 74)%Z) /\
    (s = "STABLE"%string <-> (r <= 49)%Z).
Proof.
  assert (H : 0 <= 0.5 <= 1) by (unfold Qle; simpl; lia).
  split; [ exact H | apply (tier_bands 29.5 0.5 H) ].
Defined.

(** X2: for [ni] in [0,1] the recommendation follows the tier: it is the
    NORMAL one ([st.success]) exactly when the status is STABLE; a HIGH RISK
    status gives ELEVATED RISK or HIGH ALERT, a CRITICAL one HIGH ALERT or
    EMERGENCY, a LETHAL one EMERGENCY; both files show the same level. *)
Theorem recommendation_by_tier (T ni : Q) :
  0 <= ni <= 1 ->
  exists (r : Z) (s : string),
    Stefpro.risk_block T ni = Some (r, s) /\
    (s = "STABLE"%string <->
     St.level_of (Stefpro.recommendation r) = St.Success) /\
    (s = "HIGH RISK"%string ->
     St.level_of (Stefpro.recommendation r) = St.Info \/
     St.level_of (Stefpro.recommendation r) = St.Warning) /\
    (s = "CRITICAL"%string ->
     St.level_of (Stefpro.recommendation r) = St.Warning \/
     St.level_of (Stefpro.recommendation r) = St.Error) /\
    (s = "LETHAL"%string ->
     St.level_of (Stefpro.recommendation r) = St.Error) /\
    St.level_of (Stefpro69.recommendation r)
    = St.level_of (Stefpro.recommendation r).
Proof.
  intro Hni.
  destruct (risk_cases ni Hni T)
    as [[_ E] | [[_ (r & Hr & _ & E)] | [[_ (r & Hr & _ & E)] | [_ (r & Hr & _ & E)]]]];
    rewrite E; eexists; eexists; (split; [ reflexivity | ]);
    match goal with
    | |- context [Stefpro.recommendation ?k] =>
        destruct (recommendation_level k) as [L L69]; rewrite L69, L
    end;
    repeat match goal with
    | |- context [(?a <=? ?b)%Z] =>
        let C := fresh "C" in destruct (Z.leb_spec a b) as [C | C]
    end;
    try lia;
    repeat split; intro; try reflexivity; try discriminate; auto.
Qed.

Lemma recommendation_by_tier_witness :
  0 <= 1 <= 1 /\
  exists (r : Z) (s : string),
    Stefpro.risk_block 24 1 = Some (r, s) /\
    (s = "STABLE"%string <->
     St.level_of (Stefpro.recommendation r) = St.Success).
Proof.
  assert (H : 0 <= 1 <= 1) by (unfold Qle; simpl; lia).
  split; [ exact H | ].
  destruct (recommendation_by_tier 24 1 H) as (r & s & E & Hs & _).
  exists r, s. split; [ exact E | exact Hs ].
Defined.

(** X3: for [ni] in [0,1] the coefficient [Q10] is 2.07 exactly when the
    status is STABLE, and 2.45 in the three other tiers. *)
Theorem Q10_by_tier (T ni : Q) :
  0 <= ni <= 1 ->
  (Stefpro.status T ni = Some "STABLE"%string /\ Stefpro.Q10 T = 2.07 /\
   Stefpro69.Q10 T = 2.07) \/
  (Stefpro.status T ni <> Some "STABLE"%string /\ Stefpro.Q10 T = 2.45 /\
   Stefpro69.Q10 T = 2.45).
Proof.
  intro Hni. unfold Stefpro.status, Stefpro69.Q10, Stefpro.Q10.
  destruct (risk_cases ni Hni T)
    as [[H E] | [[H (r & Hr & _ & E)] | [[H (r & Hr & _ & E)] | [H (r & Hr & _ & E)]]]];
    rewrite E; simpl;
    pose proof (threshold_range ni Hni) as [Hlo Hhi];
    destruct (Qle_bool 25 T) eqn:E25;
    try (apply Qle_bool_iff in E25); try (apply Qle_bool_false in E25);
    try (exfalso; lra);
    try (right; split; [ discriminate | split; reflexivity ]).
  left. split; [ reflexivity | split; reflexivity ].
Qed.

Lemma Q10_by_tier_witness :
  0 <= 1 <= 1 /\
  ((Stefpro.status 25 1 = Some "STABLE"%string /\ Stefpro.Q10 25 = 2.07 /\
    Stefpro69.Q10 25 = 2.07) \/
   (Stefpro.status 25 1 <> Some "STABLE"%string /\ Stefpro.Q10 25 = 2.45 /\
    Stefpro69.Q10 25 = 2.45)).
Proof.
  assert (H : 0 <= 1 <= 1) by (unfold Qle; simpl; lia).
  split; [ exact H | apply (Q10_by_tier 25 1 H) ].
Defined.

(** X4: the alert under the safety margin against the status.  A LETHAL
    ZONE alert means a LETHAL status; a LETHAL status shows the LETHAL ZONE
    alert except at [T = T_critical] exactly, where the margin is 0, the
    status is LETHAL with score 100, and the alert is the CRITICAL warning. *)
Theorem margin_alert_vs_status (T ni : Q) :
  0 <= ni <= 1 ->
  let alert := Stefpro.margin_alert (Stefpro.margin T ni) in
  (option_map St.level_of alert = Some St.Error ->
   Stefpro.status T ni = Some "LETHAL"%string) /\
  (Stefpro.status T ni = Some "LETHAL"%string ->
   option_map St.level_of alert = Some St.Error \/
   (T == Stefpro.T_critical ni /\
    option_map St.level_of alert = Some St.Warning)) /\
  (T == Stefpro.T_critical ni ->
   Stefpro.risk_block T ni = Some (100%Z, "LETHAL"%string) /\
   option_map St.level_of alert = Some St.Warning) /\
  option_map St.level_of (Stefpro69.margin_alert (Stefpro69.margin T ni))
  = option_map St.level_of alert.
Proof.
  intros Hni alert. unfold alert.
  pose proof (margin_unfold T ni) as Em.
  change (Stefpro69.margin T ni) with (Stefpro.margin T ni).
  change (Stefpro.T_critical ni) with (Spec.lethal_threshold ni).
  split; [ | split; [ | split; [ | apply margin_alert_level ] ] ].
  - intro A.
    destruct (margin_alert_cases (Stefpro.margin T ni))
      as [[Hm L] | [[Hm L] | [[Hm L] | [Hm L]]]];
      rewrite L in A; try discriminate.
    unfold Stefpro.status.
    destruct (risk_cases ni Hni T)
      as [[H E] | [[H _] | [[H _] | [H _]]]];
      [ rewrite E; reflexivity | exfalso .. ];
      pose proof (threshold_range ni Hni); lra.
  - unfold Stefpro.status. intro S.
    destruct (risk_cases ni Hni T)
      as [[H E] | [[H (r & _ & _ & E)] | [[H (r & _ & _ & E)] | [H (r & _ & _ & E)]]]];
      rewrite E in S; try discriminate.
    destruct (margin_alert_cases (Stefpro.margin T ni))
      as [[Hm L] | [[Hm L] | [[Hm L] | [Hm L]]]]; try (exfalso; lra).
    + left. exact L.
    + right. split; [ lra | exact L ].
  - intro ET. split.
    + destruct (risk_cases ni Hni T)
        as [[H E] | [[H _] | [[H _] | [H _]]]];
        [ exact E | exfalso .. ];
        pose proof (threshold_range ni Hni); lra.
    + destruct (margin_alert_cases (Stefpro.margin T ni))
        as [[Hm L] | [[Hm L] | [[Hm L] | [Hm L]]]];
        try (exfalso; lra). exact L.
Qed.

Lemma margin_alert_vs_status_witness :
  0 <= 1 <= 1 /\
  Stefpro.risk_block 31.5 1 = Some (100%Z, "LETHAL"%string) /\
  option_map St.level_of (Stefpro.margin_alert (Stefpro.margin 31.5 1))
  = Some St.Warning.
Proof.
  assert (H : 0 <= 1 <= 1) by (unfold Qle; simpl; lia).
  split; [ exact H | ].
  destruct (margin_alert_vs_status 31.5 1 H) as (_ & _ & Hb & _).
  apply Hb. reflexivity.
Defined.

(** X5: the alert under the safety margin against the score.  With the
    LETHAL ZONE or the CRITICAL alert (margin below 1) the score is at
    least 87, so the recommendation is the EMERGENCY one; with the CAUTION
    alert (margin from 1 to 3) the score lies from 67 to 87; with no alert
    (margin 3 or more) the score is at most 74 and the recommendation is
    never the EMERGENCY one. *)
Theorem margin_alert_vs_score (T ni : Q) :
  0 <= ni <= 1 ->
  let level :=
    option_map St.level_of (Stefpro.margin_alert (Stefpro.margin T ni)) in
  exists r : Z,
    Stefpro.risk T ni = Some r /\
    (level = Some St.Error \/ level = Some St.Warning ->
     (87 <= r)%Z /\ St.level_of (Stefpro.recommendation r) = St.Error) /\
    (level = Some St.Info -> (67 <= r <= 87)%Z) /\
    (level = None ->
     (r <= 74)%Z /\ St.level_of (Stefpro.recommendation r) <> St.Error).
Proof.
  intros Hni level. unfold level, Stefpro.risk.
  pose proof (margin_unfold T ni) as Em.
  pose proof (threshold_range ni Hni) as [Hlo Hhi].
  pose proof (critical_value_linear ni T) as Ec. cbv zeta in Ec.
  assert (Hrec : forall r : Z, (85 <= r)%Z ->
                   St.level_of (Stefpro.recommendation r) = St.Error).
  { intros r Hr. rewrite (proj1 (recommendation_level r)).
    destruct (Z.leb_spec 85 r); [ reflexivity | lia ]. }
  assert (Hnot : forall r : Z, (r <= 74)%Z ->
                   St.level_of (Stefpro.recommendation r) <> St.Error).
  { intros r Hr. rewrite (proj1 (recommendation_level r)).
    destruct (Z.leb_spec 85 r); [ lia | ].
    destruct (70 <=? r)%Z; [ discriminate | ].
    destruct (50 <=? r)%Z; discriminate. }
  destruct (margin_alert_cases (Stefpro.margin T ni))
    as [[Hm L] | [[Hm L] | [[Hm L] | [Hm L]]]]; rewrite L;
  destruct (risk_cases ni Hni T)
    as [[H E] | [[H (r & Hr & Er & E)] | [[H (r & Hr & Er & E)] | [H (r & Hr & Er & E)]]]];
    try (exfalso; lra); rewrite E; simpl; eexists; (split; [ reflexivity | ]).
  - (* margin < 0, LETHAL *)
    split; [ intros _; split; [ lia | apply Hrec; lia ] | ].
    split; discriminate.
  - (* 0 <= margin < 1, LETHAL at the boundary *)
    split; [ intros _; split; [ lia | apply Hrec; lia ] | ].
    split; discriminate.
  - (* 0 <= margin < 1, CRITICAL *)
    assert (87 <= r)%Z.
    { rewrite Er. apply int_ge. rewrite Ec. unfold inject_Z. lra. }
    split; [ intros _; split; [ lia | apply Hrec; lia ] | ].
    split; discriminate.
  - (* 1 <= margin < 3, CRITICAL *)
    assert (r < 88)%Z.
    { rewrite Er. apply int_lt; [ lia | ]. rewrite Ec. unfold inject_Z. lra. }
    split; [ intros [A | A]; discriminate | ].
    split; [ intros _; lia | discriminate ].
  - (* 1 <= margin < 3, HIGH RISK *)
    assert (67 <= r)%Z.
    { rewrite Er. apply int_ge. unfold high_value.
      assert (Hd : 3.43 <= Spec.lethal_threshold ni - 2 - 25)
        by (apply denominator_range; exact Hni).
      assert (Hq : 0.68 <= (T - 25) / (Spec.lethal_threshold ni - 2 - 25))
        by (apply Qle_shift_div_l; lra).
      unfold inject_Z. lra. }
    split; [ intros [A | A]; discriminate | ].
    split; [ intros _; lia | discriminate ].
  - (* 3 <= margin, HIGH RISK *)
    split; [ intros [A | A]; discriminate | ].
    split; [ discriminate | intros _; split; [ lia | apply Hnot; lia ] ].
  - (* 3 <= margin, STABLE *)
    split; [ intros [A | A]; discriminate | ].
    split; [ discriminate | intros _; split; [ lia | apply Hnot; lia ] ].
Qed.

Lemma margin_alert_vs_score_witness :
  0 <= 1 <= 1 /\
  exists r : Z, Stefpro.risk 31 1 = Some r /\ (87 <= r)%Z.
Proof.
  assert (H : 0 <= 1 <= 1) by (unfold Qle; simpl; lia).
  split; [ exact H | ].
  destruct (margin_alert_vs_score 31 1 H) as (r & E & Hw & _).
  exists r. split; [ exact E | ]. apply Hw. right. reflexivity.
Defined.

(** X6: the colour of the margin bar against the alert under it.  A green
    bar never has an alert, and the LETHAL ZONE and CRITICAL alerts always
    have a red bar; the two disagree only at the ends of the amber band: at
    a margin of exactly 3 the bar is amber with no alert, and at a margin of
    exactly 1 the bar is red with the CAUTION alert. *)
Theorem margin_color_vs_alert (m : Q) :
  let level := option_map St.level_of (Stefpro.margin_alert m) in
  let color := Stefpro.margin_color m in
  Stefpro69.margin_color m = color /\
  (color = "#22c55e"%string <-> 3 < m) /\
  (color = "#fbbf24"%string <-> 1 < m <= 3) /\
  (color = "#ef4444"%string <-> m <= 1) /\
  (color = "#22c55e"%string -> level = None) /\
  (level = Some St.Error \/ level = Some St.Warning ->
   color = "#ef4444"%string) /\
  (level = None /\ color <> "#22c55e"%string <-> m == 3) /\
  (level = Some St.Info /\ color = "#ef4444"%string <-> m == 1).
Proof.
  intros level color. unfold level, color, Stefpro.margin_color.
  split; [ reflexivity | ].
  destruct (margin_alert_cases m) as [[Hm L] | [[Hm L] | [[Hm L] | [Hm L]]]];
    rewrite L;
    destruct (Py.lt 3 m) eqn:E3;
    try (apply lt_true in E3); try (apply lt_false in E3);
    try (exfalso; lra);
    destruct (Py.lt 1 m) eqn:E1;
    try (apply lt_true in E1); try (apply lt_false in E1);
    try (exfalso; lra);
    repeat apply conj; intros;
    repeat match goal with H : _ /\ _ |- _ => destruct H end;
    repeat match goal with H : _ \/ _ |- _ => destruct H end;
    try reflexivity; try discriminate; try congruence; try lra;
    split; first [ reflexivity | discriminate ].
Qed.

Section Starvation.

Import Spec.

Variables ni1 ni2 : Q.
Hypothesis H1 : 0 <= ni1 <= 1.
Hypothesis H2 : 0 <= ni2 <= 1.
Hypothesis H12 : ni1 <= ni2.

(** A lower nutritional index gives no lower score, tier by tier. *)
Lemma risk_block_antitone (T : Q) (r1 r2 : Z) (s1 s2 : string) :
  Stefpro.risk_block T ni1 = Some (r1, s1) ->
  Stefpro.risk_block T ni2 = Some (r2, s2) ->
  (r2 <= r1)%Z.
Proof.
  pose proof (threshold_mono ni1 ni2 H12) as Hm.
  pose proof (threshold_range ni1 H1) as [Hlo1 Hhi1].
  pose proof (threshold_range ni2 H2) as [Hlo2 Hhi2].
  pose proof (critical_value_linear ni1 T) as Ec1.
  pose proof (critical_value_linear ni2 T) as Ec2. cbv zeta in Ec1, Ec2.
  destruct (risk_cases ni1 H1 T)
    as [[A E] | [[A (q1 & Hq1 & Eq1 & E)] | [[A (q1 & Hq1 & Eq1 & E)] | [A (q1 & Hq1 & Eq1 & E)]]]];
    rewrite E; intro I1; injection I1 as <- <-;
  destruct (risk_cases ni2 H2 T)
    as [[B F] | [[B (q2 & Hq2 & Eq2 & F)] | [[B (q2 & Hq2 & Eq2 & F)] | [B (q2 & Hq2 & Eq2 & F)]]]];
    rewrite F; intro I2; injection I2 as <- <-;
    try lia; try (exfalso; lra).
  - (* CRITICAL at both *)
    rewrite Eq1, Eq2. apply int_mono. rewrite Ec1, Ec2. lra.
  - (* HIGH RISK at both *)
    rewrite Eq1, Eq2. apply int_mono. unfold high_value.
    apply Qplus_le_r. apply Qmult_le_compat_r; [ | lra ].
    apply ratio_antitone; lra.
Qed.

End Starvation.

(** X7: starvation never lowers the score: for the same temperature and
    [0 <= ni1 <= ni2 <= 1], the score at [ni1] is at least the score at
    [ni2], in either file. *)
Theorem risk_antitone_ni (T ni1 ni2 : Q) :
  0 <= ni1 -> ni1 <= ni2 -> ni2 <= 1 ->
  exists r1 r2 : Z,
    Stefpro.risk T ni1 = Some r1 /\ Stefpro.risk T ni2 = Some r2 /\
    Stefpro69.risk T ni1 = Some r1 /\ Stefpro69.risk T ni2 = Some r2 /\
    (r2 <= r1)%Z.
Proof.
  intros Ha Hb Hc.
  assert (H1 : 0 <= ni1 <= 1) by (split; lra).
  assert (H2 : 0 <= ni2 <= 1) by (split; lra).
  destruct (risk_block_some ni1 H1 T) as (r1 & s1 & E1).
  destruct (risk_block_some ni2 H2 T) as (r2 & s2 & E2).
  exists r1, r2. unfold Stefpro69.risk, Stefpro.risk.
  change (Stefpro69.risk_block T ni1) with (Stefpro.risk_block T ni1).
  change (Stefpro69.risk_block T ni2) with (Stefpro.risk_block T ni2).
  rewrite E1, E2. simpl. repeat (split; [ reflexivity | ]).
  exact (risk_block_antitone ni1 ni2 H1 H2 Hb T r1 r2 s1 s2 E1 E2).
Qed.

Lemma risk_antitone_ni_witness :
  0 <= 0 /\ 0 <= 1 /\ 1 <= 1 /\
  exists r1 r2 : Z,
    Stefpro.risk 30 0 = Some r1 /\ Stefpro.risk 30 1 = Some r2 /\
    Stefpro69.risk 30 0 = Some r1 /\ Stefpro69.risk 30 1 = Some r2 /\
    (r2 <= r1)%Z.
Proof.
  assert (Ha : 0 <= 0) by (unfold Qle; simpl; lia).
  assert (Hb : 0 <= 1) by (unfold Qle; simpl; lia).
  assert (Hc : 1 <= 1) by (unfold Qle; simpl; lia).
  split; [ exact Ha | ]. split; [ exact Hb | ]. split; [ exact Hc | ].
  apply (risk_antitone_ni 30 0 1 Ha Hb Hc).
Defined.

(** ** Further properties: the forecast *)

Section ForecastOrder.

Local Open Scope R_scope.

(** [e^-0.672 > 1/2], by four squarings of [e^(-0.672/16) > 1 - 0.672/16]. *)
Lemma exp_0672 : 1 / 2 < exp (- (672 / 1000)).
Proof.
  assert (H0 : 958 / 1000 < exp (- (42 / 1000))).
  { pose proof (exp_ineq1 (- (42 / 1000))) as H.
    assert (E : - (42 / 1000) <> 0) by lra. specialize (H E). lra. }
  assert (H1 : 0.91776 < exp (- (84 / 1000)))
    by (apply (sq_lower (958 / 1000) _ (- (42 / 1000)));
        [ lra | lra | exact H0 | lra ]).
  assert (H2 : 0.84228 < exp (- (168 / 1000)))
    by (apply (sq_lower 0.91776 _ (- (84 / 1000)));
        [ lra | lra | exact H1 | lra ]).
  assert (H3 : 0.70943 < exp (- (336 / 1000)))
    by (apply (sq_lower 0.84228 _ (- (168 / 1000)));
        [ lra | lra | exact H2 | lra ]).
  apply (sq_lower 0.70943 _ (- (336 / 1000))); [ lra | lra | exact H3 | lra ].
Qed.

Lemma exp_m05 : 1 / 2 < exp (- (1 / 2)).
Proof.
  pose proof (exp_ineq1 (- (1 / 2))) as H.
  assert (E : - (1 / 2) <> 0) by lra. specialize (H E). lra.
Qed.

Lemma year_offset (y : Z) :
  (2026 <= y <= 2050)%Z -> 0 <= IZR (y - 2026) <= 24.
Proof.
  intro H. split.
  - apply (IZR_le 0). lia.
  - apply (IZR_le _ 24). lia.
Qed.

(** A higher score gives no higher percentage, year by year. *)
Lemma pct_antitone (risk1 risk2 y : Z) :
  (risk1 <= risk2)%Z -> (2026 <= y)%Z ->
  population_pct risk2 y <= population_pct risk1 y.
Proof.
  intros Hr Hy. unfold population_pct.
  apply Rmult_le_compat_l; [ lra | ]. apply exp_le.
  assert (H1 : IZR risk1 <= IZR risk2) by (apply IZR_le; exact Hr).
  assert (H2 : 0 <= IZR (y - 2026)) by (apply (IZR_le 0); lia).
  nra.
Qed.

Lemma collapse_year_antitone (risk1 risk2 y1 : Z) :
  (risk1 <= risk2)%Z ->
  Stefpro.collapse_year risk1 = Some y1 ->
  exists y2 : Z, Stefpro.collapse_year risk2 = Some y2 /\ (y2 <= y1)%Z.
Proof.
  intros Hr E1. apply collapse_year_some in E1.
  destruct E1 as (Hy1 & Hlt1 & _).
  assert (Hlt2 : population_pct risk2 y1 < 50).
  { assert (Hge : (2026 <= y1)%Z) by lia.
    pose proof (pct_antitone risk1 risk2 y1 Hr Hge). lra. }
  destruct (Stefpro.collapse_year risk2) as [y2 | ] eqn:E2.
  - exists y2. split; [ reflexivity | ].
    apply collapse_year_some in E2. destruct E2 as (Hy2 & _ & Hmin).
    apply Z.le_ngt. intro Hgt. apply (Hmin y1); [ lia | exact Hlt2 ].
  - exfalso. exact (proj1 (collapse_year_none risk2) E2 y1 Hy1 Hlt2).
Qed.

Lemma pct_2050_low (risk : Z) :
  (-10 <= risk)%Z -> population_pct risk 2050 < 50.
Proof.
  intro H. unfold population_pct.
  assert (Hr : -10 <= IZR risk) by (apply (IZR_le (-10)); exact H).
  replace (IZR (2050 - 2026)) with 24 by (simpl; lra).
  assert (Hle : exp (- (0.05 + IZR risk / 500) * 24) <= exp (- (7 / 10)))
    by (apply exp_le; lra).
  pose proof exp_m07. lra.
Qed.

Lemma pct_high (risk y : Z) :
  (risk <= -11)%Z -> (2026 <= y <= 2050)%Z -> ~ population_pct risk y < 50.
Proof.
  intros H Hy Hlt. unfold population_pct in Hlt.
  assert (Hr : IZR risk <= -11) by (apply (IZR_le _ (-11)); exact H).
  pose proof (year_offset y Hy) as [Hd0 Hd1].
  assert (Hle : exp (- (672 / 1000))
                <= exp (- (0.05 + IZR risk / 500) * IZR (y - 2026))).
  { apply exp_le.
    destruct (Rle_dec 0 (0.05 + IZR risk / 500)) as [Hp | Hn]; nra. }
  pose proof exp_0672. lra.
Qed.

Lemma pct_early (risk y : Z) :
  (risk <= 100)%Z -> (2026 <= y <= 2028)%Z -> ~ population_pct risk y < 50.
Proof.
  intros H Hy Hlt. unfold population_pct in Hlt.
  assert (Hr : IZR risk <= 100) by (apply (IZR_le _ 100); exact H).
  assert (Hd0 : 0 <= IZR (y - 2026)) by (apply (IZR_le 0); lia).
  assert (Hd1 : IZR (y - 2026) <= 2) by (apply (IZR_le _ 2); lia).
  assert (Hle : exp (- (1 / 2))
                <= exp (- (0.05 + IZR risk / 500) * IZR (y - 2026))).
  { apply exp_le.
    destruct (Rle_dec 0 (0.05 + IZR risk / 500)) as [Hp | Hn]; nra. }
  pose proof exp_m05. lra.
Qed.

Lemma pct_2029 : population_pct 100 2029 < 50.
Proof.
  unfold population_pct.
  replace (IZR (2029 - 2026)) with 3 by (simpl; lra).
  assert (Hle : exp (- (0.05 + 100 / 500) * 3) <= exp (- (7 / 10)))
    by (apply exp_le; lra).
  pose proof exp_m07. lra.
Qed.

Lemma pct_2034 (risk : Z) : (20 <= risk)%Z -> population_pct risk 2034 < 50.
Proof.
  intro H. unfold population_pct.
  assert (Hr : 20 <= IZR risk) by (apply (IZR_le 20); exact H).
  replace (IZR (2034 - 2026)) with 8 by (simpl; lra).
  assert (Hle : exp (- (0.05 + IZR risk / 500) * 8) <= exp (- (7 / 10)))
    by (apply exp_le; lra).
  pose proof exp_m07. lra.
Qed.

End ForecastOrder.

(** Truncation against a negative bound. *)
Lemma int_le_neg (n : Z) (x : Q) :
  (n < 0)%Z -> ((Py.int x <= n)%Z <-> x <= inject_Z n).
Proof.
  intro Hn. split; [ | apply int_le ].
  intro H. apply Qnot_lt_le. intro Hlt.
  destruct (Qlt_le_dec x 0) as [Hx | Hx].
  - rewrite (int_nonpos x) in H by (apply Qlt_le_weak; exact Hx).
    pose proof (Qle_ceiling x) as Hc.
    assert (Hz : inject_Z n < inject_Z (Qceiling x))
      by (eapply Qlt_le_trans; eassumption).
    rewrite <- Zlt_Qlt in Hz. lia.
  - pose proof (floor_nonneg x Hx). rewrite (int_nonneg x Hx) in H. lia.
Qed.

Lemma collapse_year_0 : Stefpro.collapse_year 0 = Some 2040%Z.
Proof.
  apply collapse_year_some. split; [ lia | ].
  split; [ apply pct_2040; lia | ]. intros y' Hy'.
  apply pct_before_2040. exact Hy'.
Qed.

Lemma collapse_year_100 : Stefpro.collapse_year 100 = Some 2029%Z.
Proof.
  apply collapse_year_some. split; [ lia | ].
  split; [ apply pct_2029 | ]. intros y' Hy'.
  apply pct_early; lia.
Qed.

(** X8: a higher score never postpones the collapse: when the forecast of
    [risk1] has a collapse year and [risk1 <= risk2], the forecast of
    [risk2] has one too, and it is no later. *)
Theorem collapse_no_later (risk1 risk2 y1 : Z) :
  (risk1 <= risk2)%Z ->
  Stefpro.collapse_year risk1 = Some y1 ->
  exists y2 : Z,
    Stefpro.collapse_year risk2 = Some y2 /\
    Stefpro69.collapse_year risk2 = Some y2 /\ (y2 <= y1)%Z.
Proof.
  intros Hr E1.
  destruct (collapse_year_antitone risk1 risk2 y1 Hr E1) as (y2 & E2 & Hy).
  exists y2. split; [ exact E2 | ]. split; [ exact E2 | exact Hy ].
Qed.

Lemma collapse_no_later_witness :
  (0 <= 100)%Z /\ Stefpro.collapse_year 0 = Some 2040%Z /\
  exists y2 : Z,
    Stefpro.collapse_year 100 = Some y2 /\
    Stefpro69.collapse_year 100 = Some y2 /\ (y2 <= 2040)%Z.
Proof.
  assert (H : (0 <= 100)%Z) by lia.
  split; [ exact H | ]. split; [ exact collapse_year_0 | ].
  apply (collapse_no_later 0 100 2040 H collapse_year_0).
Defined.

(** X9: the [None] of [collapse_year] is reached by negative scores only:
    in either file [collapse_year] is [None] exactly when the score is -11
    or less (the decay rate is then at most 0.028 and the series stays at
    50 or above until 2050). *)
Theorem collapse_none_iff (risk : Z) :
  (Stefpro.collapse_year risk = None <-> (risk <= -11)%Z) /\
  (Stefpro69.collapse_year risk = None <-> (risk <= -11)%Z).
Proof.
  assert (H : Stefpro.collapse_year risk = None <-> (risk <= -11)%Z).
  { rewrite collapse_year_none. split.
    - intro Hall. apply Z.le_ngt. intro Hgt.
      apply (Hall 2050%Z); [ lia | apply pct_2050_low; lia ].
    - intros Hr y Hy. apply pct_high; assumption. }
  split; exact H.
Qed.

(** X10: for [ni] in [0,1] the forecast of an analysis has no collapse year
    exactly when the effective temperature is -5.5 degrees or less. *)
Theorem collapse_none_temperature (T ni : Q) :
  0 <= ni <= 1 ->
  exists r : Z,
    Stefpro.risk T ni = Some r /\
    (Stefpro.collapse_year r = None <-> T <= - (11 # 2)).
Proof.
  intro Hni. unfold Stefpro.risk.
  pose proof (threshold_range ni Hni) as [Hlo Hhi].
  destruct (risk_cases ni Hni T)
    as [[H E] | [[H (r & Hr & Er & E)] | [[H (r & Hr & Er & E)] | [H (r & Hr & Er & E)]]]];
    rewrite E; simpl; eexists; (split; [ reflexivity | ]);
    rewrite (proj1 (collapse_none_iff _)).
  - split; [ lia | intro; exfalso; lra ].
  - split; [ lia | intro; exfalso; lra ].
  - split; [ lia | intro; exfalso; lra ].
  - rewrite Er, (int_le_neg (-11)) by lia.
    pose proof (stable_value_eq T) as Es. unfold inject_Z. split; intro; lra.
Qed.

Lemma collapse_none_temperature_witness :
  0 <= 1 <= 1 /\
  exists r : Z,
    Stefpro.risk (-6) 1 = Some r /\
    (Stefpro.collapse_year r = None <-> -6 <= - (11 # 2)).
Proof.
  assert (H : 0 <= 1 <= 1) by (unfold Qle; simpl; lia).
  split; [ exact H | apply (collapse_none_temperature (-6) 1 H) ].
Defined.

(** X11: for a score in [0,100] the collapse year lies from 2029 to 2040,
    and both ends are reached: the score 100 collapses in 2029 and (C8) the
    score 0 in 2040. *)
Theorem collapse_window (risk : Z) :
  (0 <= risk <= 100)%Z ->
  (exists y : Z,
     Stefpro.collapse_year risk = Some y /\
     Stefpro69.collapse_year risk = Some y /\ (2029 <= y <= 2040)%Z) /\
  Stefpro.collapse_year 100 = Some 2029%Z /\
  Stefpro69.collapse_year 100 = Some 2029%Z.
Proof.
  intros [Hlo Hhi]. split; [ | split; exact collapse_year_100 ].
  destruct (collapse_year_antitone 0 risk 2040 Hlo collapse_year_0)
    as (y & E & Hy).
  exists y. split; [ exact E | ]. split; [ exact E | ].
  split; [ | exact Hy ].
  apply collapse_year_some in E. destruct E as (Hr & Hlt & _).
  apply Z.le_ngt. intro Hearly.
  apply (pct_early risk y Hhi); [ lia | exact Hlt ].
Qed.

Lemma collapse_window_witness :
  (0 <= 50 <= 100)%Z /\
  exists y : Z,
    Stefpro.collapse_year 50 = Some y /\
    Stefpro69.collapse_year 50 = Some y /\ (2029 <= y <= 2040)%Z.
Proof.
  assert (H : (0 <= 50 <= 100)%Z) by lia.
  split; [ exact H | apply (collapse_window 50 H) ].
Defined.

(** X12: the series starts at 100 for every score; for a score of -25 or
    more (a decay rate that is not negative) every entry lies in (0, 100]
    and the series never rises; for a score below -25 every later entry
    exceeds 100. *)
Theorem population_bounds (risk : Z) (k : nat) :
  (k < 25)%nat ->
  nth 0 (Stefpro.population risk) 0%R = 100%R /\
  ((-25 <= risk)%Z ->
   (0 < nth k (Stefpro.population risk) 0 <= 100)%R /\
   ((k + 1 < 25)%nat ->
    (nth (k + 1) (Stefpro.population risk) 0
     <= nth k (Stefpro.population risk) 0)%R)) /\
  ((risk < -25)%Z -> (0 < k)%nat ->
   (100 < nth k (Stefpro.population risk) 0)%R) /\
  nth k (Stefpro69.population risk) 0%R = nth k (Stefpro.population risk) 0%R.
Proof.
  intro Hk.
  split; [ rewrite population_nth by lia; apply pct_2026 | ].
  assert (Hd : (0 <= IZR (Z.of_nat k))%R) by (apply (IZR_le 0); lia).
  split; [ | split; [ | reflexivity ] ].
  - intro Hr.
    assert (Hq : (-25 <= IZR risk)%R) by (apply (IZR_le (-25)); exact Hr).
    split.
    + rewrite population_nth by exact Hk. unfold population_pct.
      replace (2026 + Z.of_nat k - 2026)%Z with (Z.of_nat k) by lia.
      pose proof (exp_pos (- (0.05 + IZR risk / 500) * IZR (Z.of_nat k))).
      assert (exp (- (0.05 + IZR risk / 500) * IZR (Z.of_nat k)) <= exp 0)%R
        by (apply exp_le; nra).
      rewrite exp_0 in *. split; lra.
    + intro Hk1. rewrite !population_nth by lia. unfold population_pct.
      replace (2026 + Z.of_nat (k + 1) - 2026)%Z with (Z.of_nat k + 1)%Z by lia.
      replace (2026 + Z.of_nat k - 2026)%Z with (Z.of_nat k) by lia.
      rewrite plus_IZR.
      apply Rmult_le_compat_l; [ lra | ]. apply exp_le. nra.
  - intros Hr Hpos.
    assert (Hq : (IZR risk <= -26)%R) by (apply (IZR_le _ (-26)); lia).
    assert (Hd1 : (1 <= IZR (Z.of_nat k))%R) by (apply (IZR_le 1); lia).
    rewrite population_nth by exact Hk. unfold population_pct.
    replace (2026 + Z.of_nat k - 2026)%Z with (Z.of_nat k) by lia.
    assert (exp 0 < exp (- (0.05 + IZR risk / 500) * IZR (Z.of_nat k)))%R
      by (apply exp_increasing; nra).
    rewrite exp_0 in *. lra.
Qed.

Lemma population_bounds_witness :
  (5 < 25)%nat /\ nth 0 (Stefpro.population 40) 0%R = 100%R.
Proof.
  assert (H : (5 < 25)%nat) by lia.
  split; [ exact H | apply (population_bounds 40 5 H) ].
Defined.

(** X13: the warning under the forecast appears exactly when the forecast
    has a collapse year, and it names that year; the truth test of the
    script, which would hide a year 0, never hides a year of the series. *)
Theorem collapse_warning_shown (risk : Z) :
  (forall y : Z,
     Stefpro.collapse_year risk = Some y ->
     Stefpro.collapse_warning (Stefpro.collapse_year risk)
     = Some (St.warning ("⚠️ **Projected 50% population decline by "
                         ++ Py.str y ++ "**")) /\
     Stefpro69.collapse_warning (Stefpro69.collapse_year risk)
     = Some (St.warning ("⚠️ **Projected 50% decline by "
                         ++ Py.str y ++ "**"))) /\
  (Stefpro.collapse_year risk = None ->
   Stefpro.collapse_warning (Stefpro.collapse_year risk) = None /\
   Stefpro69.collapse_warning (Stefpro69.collapse_year risk) = None) /\
  Stefpro.collapse_warning (Some 0%Z) = None.
Proof.
  split; [ | split; [ | reflexivity ] ].
  - intros y E.
    change (Stefpro69.collapse_year risk) with (Stefpro.collapse_year risk).
    rewrite E. pose proof (proj1 (collapse_year_some risk y) E) as (Hy & _).
    unfold Stefpro.collapse_warning, Stefpro69.collapse_warning.
    destruct (Z.eqb_spec y 0) as [-> | Hn]; [ lia | ]. split; reflexivity.
  - intro E.
    change (Stefpro69.collapse_year risk) with (Stefpro.collapse_year risk).
    rewrite E. split; reflexivity.
Qed.

(** ** Further properties: scenarios and the metabolic rate *)

Lemma temp_shift_cases (scenario : string) :
  Stefpro.temp_shift scenario = 0.0 \/
  Stefpro.temp_shift scenario = 1.5 \/
  Stefpro.temp_shift scenario = 3.2.
Proof.
  unfold Stefpro.temp_shift.
  destruct (Py.contains "1.5" scenario); [ right; left; reflexivity | ].
  destruct (Py.contains "3.2" scenario); [ right; right | left ]; reflexivity.
Qed.

Lemma SMR_pos (T : Q) : (0 < Stefpro.SMR T)%R.
Proof.
  unfold Stefpro.SMR. pose proof (exp_pos (0.0567 * Q2R T)). lra.
Qed.

Lemma SMR_lt (T1 T2 : Q) : T1 < T2 -> (Stefpro.SMR T1 < Stefpro.SMR T2)%R.
Proof.
  intro H. apply Qlt_Rlt in H. unfold Stefpro.SMR.
  apply Rmult_lt_compat_l; [ lra | ]. apply exp_increasing. lra.
Qed.

Lemma SMR_le (T1 T2 : Q) : T1 <= T2 -> (Stefpro.SMR T1 <= Stefpro.SMR T2)%R.
Proof.
  intro H. apply Qle_Rle in H. unfold Stefpro.SMR.
  apply Rmult_le_compat_l; [ lra | ]. apply exp_le. lra.
Qed.

(** What a successful analysis holds. *)
Lemma analyse_some (td : reading) (scenario : string) (ni : Q) :
  0 <= ni <= 1 ->
  exists rep : Report.t,
    Stefpro.analyse td scenario ni = Some rep /\
    Report.T rep = temperature td + Stefpro.temp_shift scenario /\
    Stefpro.risk_block (Report.T rep) ni
    = Some (Report.risk rep, Report.status rep) /\
    Report.SMR rep = Stefpro.SMR (Report.T rep) /\
    Report.margin rep = Stefpro.margin (Report.T rep) ni /\
    Report.collapse_year rep = Stefpro.collapse_year (Report.risk rep).
Proof.
  intro Hni. unfold Stefpro.analyse.
  destruct (risk_block_some ni Hni
              (Stefpro.effective_T (temperature td)
                 (Stefpro.temp_shift scenario))) as (r & s & E).
  rewrite E. eexists. split; [ reflexivity | ]. simpl.
  split; [ reflexivity | ]. split; [ exact E | ]. auto.
Qed.

(** X14: the metabolic rate is positive and strictly increasing in the
    temperature, and ten degrees more multiply it by the same factor
    [e^0.567] at every temperature, a factor below 2 and so below both
    values of the coefficient [Q10] the dashboard shows. *)
Theorem SMR_increasing (T1 T2 : Q) :
  T1 < T2 ->
  (0 < Stefpro.SMR T1 < Stefpro.SMR T2)%R /\
  Stefpro69.SMR T1 = Stefpro.SMR T1 /\
  Stefpro.SMR (T1 + 10) = (exp 0.567 * Stefpro.SMR T1)%R /\
  (Stefpro.SMR (T1 + 10) < 2 * Stefpro.SMR T1)%R /\
  (Stefpro.SMR (T1 + 10) < Q2R (Stefpro.Q10 T1) * Stefpro.SMR T1)%R.
Proof.
  intro H.
  assert (E10 : Stefpro.SMR (T1 + 10) = (exp 0.567 * Stefpro.SMR T1)%R).
  { unfold Stefpro.SMR. rewrite Q2R_plus.
    replace (Q2R 10) with 10%R by (unfold Q2R; simpl; lra).
    replace (0.0567 * (Q2R T1 + 10))%R with (0.567 + 0.0567 * Q2R T1)%R by lra.
    rewrite exp_plus. lra. }
  assert (Hexp : (exp 0.567 < 2)%R).
  { assert (A : (exp 0.567 <= exp (65 / 100))%R) by (apply exp_le; lra).
    pose proof exp_065 as B. rewrite exp_Ropp in B.
    pose proof (exp_pos (65 / 100)) as P.
    assert (C : (exp (65 / 100) < 2)%R).
    { assert (I : (exp (65 / 100) * / exp (65 / 100) = 1)%R)
        by (apply Rinv_r; lra).
      nra. }
    lra. }
  pose proof (SMR_pos T1) as Hp.
  split; [ split; [ exact Hp | apply SMR_lt; exact H ] | ].
  split; [ reflexivity | ]. split; [ exact E10 | ].
  split; [ rewrite E10; nra | ].
  rewrite E10. unfold Stefpro.Q10.
  destruct (Qle_bool 25 T1).
  - replace (Q2R 2.45) with 2.45%R by (unfold Q2R; simpl; lra). nra.
  - replace (Q2R 2.07) with 2.07%R by (unfold Q2R; simpl; lra). nra.
Qed.

Lemma SMR_increasing_witness :
  20 < 25 /\ (0 < Stefpro.SMR 20 < Stefpro.SMR 25)%R.
Proof.
  assert (H : 20 < 25) by (unfold Qlt; simpl; lia).
  split; [ exact H | apply (SMR_increasing 20 25 H) ].
Defined.

(** X15: a warmer scenario never lowers what the analysis reports.  The
    offset is 0, 1.5 or 3.2 whatever the label; and for the same reading
    and [ni] in [0,1], a scenario with no smaller offset gives no lower
    effective temperature, score and metabolic rate, no larger safety
    margin, and no later collapse year. *)
Theorem scenario_order (td : reading) (s1 s2 : string) (ni : Q) :
  0 <= ni <= 1 ->
  Stefpro.temp_shift s1 <= Stefpro.temp_shift s2 ->
  (Stefpro.temp_shift s1 = 0.0 \/ Stefpro.temp_shift s1 = 1.5 \/
   Stefpro.temp_shift s1 = 3.2) /\
  Stefpro69.temp_shift s1 = Stefpro.temp_shift s1 /\
  exists r1 r2 : Report.t,
    Stefpro.analyse td s1 ni = Some r1 /\
    Stefpro.analyse td s2 ni = Some r2 /\
    Stefpro69.analyse td s1 ni = Some r1 /\
    Stefpro69.analyse td s2 ni = Some r2 /\
    Report.T r1 <= Report.T r2 /\
    (Report.risk r1 <= Report.risk r2)%Z /\
    (Report.SMR r1 <= Report.SMR r2)%R /\
    Report.margin r2 <= Report.margin r1 /\
    forall y1 : Z,
      Report.collapse_year r1 = Some y1 ->
      exists y2 : Z, Report.collapse_year r2 = Some y2 /\ (y2 <= y1)%Z.
Proof.
  intros Hni Hs.
  split; [ apply temp_shift_cases | ]. split; [ reflexivity | ].
  destruct (analyse_some td s1 ni Hni) as (r1 & A1 & T1 & B1 & S1 & M1 & C1).
  destruct (analyse_some td s2 ni Hni) as (r2 & A2 & T2 & B2 & S2 & M2 & C2).
  exists r1, r2.
  change (Stefpro69.analyse td s1 ni) with (Stefpro.analyse td s1 ni).
  change (Stefpro69.analyse td s2 ni) with (Stefpro.analyse td s2 ni).
  repeat (split; [ assumption | ]).
  assert (HT : Report.T r1 <= Report.T r2) by (rewrite T1, T2; lra).
  assert (HR : (Report.risk r1 <= Report.risk r2)%Z).
  { pose proof (risk_block_branch ni Hni (Report.T r1)) as Br1.
    pose proof (risk_block_branch ni Hni (Report.T r2)) as Br2.
    rewrite B1 in Br1. rewrite B2 in Br2.
    exact (branch_mono ni Hni _ _ _ _ _ _ HT Br1 Br2). }
  split; [ exact HT | ]. split; [ exact HR | ].
  split; [ rewrite S1, S2; apply SMR_le; exact HT | ].
  split.
  { rewrite M1, M2. unfold Stefpro.margin. lra. }
  intros y1 E1. rewrite C1 in E1. rewrite C2.
  exact (collapse_year_antitone _ _ y1 HR E1).
Qed.

Lemma scenario_order_witness :
  0 <= 1 <= 1 /\
  Stefpro.temp_shift "SSP1-2.6 (+1.5°C by 2050)"
  <= Stefpro.temp_shift "SSP5-8.5 (+3.2°C by 2050)" /\
  exists r1 r2 : Report.t,
    Stefpro.analyse (mk_reading false 24 "" "") "SSP1-2.6 (+1.5°C by 2050)" 1
    = Some r1 /\
    Stefpro.analyse (mk_reading false 24 "" "") "SSP5-8.5 (+3.2°C by 2050)" 1
    = Some r2 /\
    (Report.risk r1 <= Report.risk r2)%Z.
Proof.
  assert (H : 0 <= 1 <= 1) by (unfold Qle; simpl; lia).
  assert (Hs : Stefpro.temp_shift "SSP1-2.6 (+1.5°C by 2050)"
               <= Stefpro.temp_shift "SSP5-8.5 (+3.2°C by 2050)")
    by (vm_compute; discriminate).
  split; [ exact H | ]. split; [ exact Hs | ].
  destruct (scenario_order (mk_reading false 24 "" "") _ _ 1 H Hs)
    as (_ & _ & r1 & r2 & A1 & A2 & _ & _ & _ & HR & _).
  exists r1, r2. split; [ exact A1 | ]. split; [ exact A2 | exact HR ].
Defined.

(** ** Further properties: the geographic model *)

Section Model.

Lemma Int_part_mono (x y : R) : (x <= y)%R -> (Int_part x <= Int_part y)%Z.
Proof.
  intro H. pose proof (Int_part_bounds x) as [Hx _].
  pose proof (Int_part_bounds y) as [_ Hy].
  apply Z.lt_succ_r. apply lt_IZR. rewrite succ_IZR. lra.
Qed.

(** Rounding to the nearest integer, ties to even, is monotone. *)
Lemma round_half_even_R_mono (x y : R) :
  (x <= y)%R -> (Py.round_half_even_R x <= Py.round_half_even_R y)%Z.
Proof.
  intro H. pose proof (Int_part_mono x y H) as Hf.
  unfold Py.round_half_even_R, Py.Rcmp.
  pose proof (Int_part_bounds x) as [Hx0 Hx1].
  pose proof (Int_part_bounds y) as [Hy0 Hy1].
  destruct (Z.eq_dec (Int_part x) (Int_part y)) as [E | N].
  - rewrite <- E in *. set (f := Int_part x) in *.
    destruct (total_order_T (x - IZR f) (1 / 2)) as [[A | A] | A];
    destruct (total_order_T (y - IZR f) (1 / 2)) as [[B | B] | B];
      unfold Py.half_even; try lia; try (exfalso; lra);
      destruct (Z.even f); lia.
  - assert (Hlt : (Int_part x + 1 <= Int_part y)%Z) by lia.
    destruct (half_even_cases (Int_part x)
                (match total_order_T (x - IZR (Int_part x)) (1 / 2) with
                 | inleft (left _) => Lt
                 | inleft (right _) => Eq
                 | inright _ => Gt
                 end)) as [-> | ->];
    destruct (half_even_cases (Int_part y)
                (match total_order_T (y - IZR (Int_part y)) (1 / 2) with
                 | inleft (left _) => Lt
                 | inleft (right _) => Eq
                 | inright _ => Gt
                 end)) as [-> | ->]; lia.
Qed.

Lemma round1_R_mono (x y : R) :
  (x <= y)%R -> Py.round1_R x <= Py.round1_R y.
Proof.
  intro H. unfold Py.round1_R, Qle. simpl.
  assert (Hm : (Py.round_half_even_R (x * 10)
                <= Py.round_half_even_R (y * 10))%Z)
    by (apply round_half_even_R_mono; lra).
  lia.
Qed.

Lemma clamp_mono (x y : R) : (x <= y)%R -> (clamp x 10 36 <= clamp y 10 36)%R.
Proof.
  intro H. unfold clamp.
  destruct (Rlt_dec x 10), (Rlt_dec y 10); try lra;
    destruct (Rlt_dec 36 x); try lra;
    destruct (Rlt_dec 36 y); lra.
Qed.

Lemma fallback_unfold (now : Py.datetime) (lat lon : Q) :
  temperature (Stefpro.get_temperature_fallback now lat lon)
  = Py.round1_R (clamp (model_temp (Py.month now) lat) 10 36).
Proof.
  unfold Stefpro.get_temperature_fallback. simpl. rewrite clamp_eq.
  reflexivity.
Qed.

Lemma fallback_mono (now1 now2 : Py.datetime) (lat1 lat2 lon1 lon2 : Q) :
  (model_temp (Py.month now1) lat1 <= model_temp (Py.month now2) lat2)%R ->
  temperature (Stefpro.get_temperature_fallback now1 lat1 lon1)
  <= temperature (Stefpro.get_temperature_fallback now2 lat2 lon2).
Proof.
  intro H. rewrite !fallback_unfold. apply round1_R_mono, clamp_mono, H.
Qed.

Lemma round1_R_10 : Py.round1_R 10 = 100 # 10.
Proof.
  unfold Py.round1_R. f_equal.
  assert (H : (100 <= Py.round_half_even_R (10 * 10) <= 100)%Z)
    by (apply round_half_even_R_between; simpl; lra).
  lia.
Qed.

Lemma Q2R_abs_nonneg (q : Q) : (0 <= Q2R (Qabs q))%R.
Proof.
  replace 0%R with (Q2R 0) by (unfold Q2R; simpl; lra).
  apply Qle_Rle. apply Qabs_nonneg.
Qed.

End Model.

(** X16: the modelled temperature depends on the latitude through its
    absolute value only (north and south agree), it never rises when the
    point moves away from the equator (up to 180 degrees), and at a
    latitude of 90 degrees it is 10.0 in every month. *)
Theorem fallback_latitude (now : Py.datetime) (lat1 lat2 lon : Q) :
  Qabs lat1 <= Qabs lat2 -> Qabs lat2 <= 180 ->
  temperature (Stefpro.get_temperature_fallback now (- lat1) lon)
  = temperature (Stefpro.get_temperature_fallback now lat1 lon) /\
  temperature (Stefpro.get_temperature_fallback now lat2 lon)
  <= temperature (Stefpro.get_temperature_fallback now lat1 lon) /\
  (Qabs lat2 == 90 ->
   temperature (Stefpro.get_temperature_fallback now lat2 lon) = 100 # 10) /\
  temperature (Stefpro69.get_temperature_fallback now lat2 lon)
  = temperature (Stefpro.get_temperature_fallback now lat2 lon).
Proof.
  intros H12 H180.
  split; [ | split; [ | split; [ | reflexivity ] ] ].
  - rewrite !fallback_unfold. unfold model_temp.
    rewrite (Qeq_eqR _ _ (Qabs_opp lat1)). reflexivity.
  - apply fallback_mono. unfold model_temp.
    pose proof (Q2R_abs_nonneg lat1) as H0.
    pose proof (Qle_Rle _ _ H12) as Hle.
    pose proof (Qle_Rle _ _ H180) as Hup.
    replace (Q2R 180) with 180%R in Hup by (unfold Q2R; simpl; lra).
    pose proof PI_RGT_0 as Hpi.
    assert (Hc : (cos (Q2R (Qabs lat2) * (PI / 180))
                  <= cos (Q2R (Qabs lat1) * (PI / 180)))%R).
    { apply cos_decr_1; nra. }
    lra.
  - intro H90. rewrite fallback_unfold. unfold model_temp.
    rewrite (Qeq_eqR _ _ H90).
    replace (Q2R 90 * (PI / 180))%R with (PI / 2)%R
      by (unfold Q2R; simpl; lra).
    rewrite cos_PI2.
    pose proof (SIN_bound (IZR (Py.month now - 3) * PI / 6)) as [_ Hs].
    unfold clamp.
    destruct (Rlt_dec (28 * 0 + 5 + 3 * sin (IZR (Py.month now - 3) * PI / 6)) 10)
      as [_ | Hn]; [ apply round1_R_10 | exfalso; lra ].
Qed.

Lemma fallback_latitude_witness :
  Qabs 36.8 <= Qabs 90 /\ Qabs 90 <= 180 /\
  temperature (Stefpro.get_temperature_fallback noon 90 0) = 100 # 10 /\
  temperature (Stefpro.get_temperature_fallback noon 90 0)
  <= temperature (Stefpro.get_temperature_fallback noon 36.8 0).
Proof.
  assert (H1 : Qabs 36.8 <= Qabs 90) by (unfold Qle; simpl; lia).
  assert (H2 : Qabs 90 <= 180) by (unfold Qle; simpl; lia).
  split; [ exact H1 | ]. split; [ exact H2 | ].
  destruct (fallback_latitude noon 36.8 90 0 H1 H2) as (_ & Hm & Hp & _).
  split; [ apply Hp; reflexivity | exact Hm ].
Defined.

(** X17: at a given place the modelled temperature is highest in June and
    lowest in December: no clock gives more than a June one, nor less than
    a December one. *)
Theorem fallback_season (now june december : Py.datetime) (lat lon : Q) :
  Py.month june = 6%Z -> Py.month december = 12%Z ->
  temperature (Stefpro.get_temperature_fallback december lat lon)
  <= temperature (Stefpro.get_temperature_fallback now lat lon) /\
  temperature (Stefpro.get_temperature_fallback now lat lon)
  <= temperature (Stefpro.get_temperature_fallback june lat lon) /\
  temperature (Stefpro69.get_temperature_fallback now lat lon)
  = temperature (Stefpro.get_temperature_fallback now lat lon).
Proof.
  intros H6 H12.
  pose proof (SIN_bound (IZR (Py.month now - 3) * PI / 6)) as [Hlo Hhi].
  split; [ | split; [ | reflexivity ] ]; apply fallback_mono;
    unfold model_temp.
  - rewrite H12.
    replace (IZR (12 - 3) * PI / 6)%R with (3 * (PI / 2))%R
      by (simpl; lra).
    rewrite sin_3PI2. lra.
  - rewrite H6.
    replace (IZR (6 - 3) * PI / 6)%R with (PI / 2)%R by (simpl; lra).
    rewrite sin_PI2. lra.
Qed.

Lemma fallback_season_witness :
  Py.month (Py.mk_datetime 2026 6 1 0 0) = 6%Z /\
  Py.month (Py.mk_datetime 2026 12 1 0 0) = 12%Z /\
  temperature (Stefpro.get_temperature_fallback noon 36.8 34.6)
  <= temperature
       (Stefpro.get_temperature_fallback (Py.mk_datetime 2026 6 1 0 0)
          36.8 34.6).
Proof.
  assert (H6 : Py.month (Py.mk_datetime 2026 6 1 0 0) = 6%Z) by reflexivity.
  assert (H12 : Py.month (Py.mk_datetime 2026 12 1 0 0) = 12%Z)
    by reflexivity.
  split; [ exact H6 | ]. split; [ exact H12 | ].
  apply (fallback_season noon _ _ 36.8 34.6 H6 H12).
Defined.

(** X18: in model mode (the live-data box unticked) a click never fails and
    never needs the network: for every clock, place, scenario, outcome of a
    query and [ni] in [0,1] the analysis returns, with an effective
    temperature from 10 to 39.2, a score from 20 to 100, and a collapse
    year from 2029 to 2034. *)
Theorem model_mode_range (now : Py.datetime) (lat lon : Q)
    (response : Py.http_result) (scenario : string) (ni : Q) :
  0 <= ni <= 1 ->
  exists rep : Report.t,
    Stefpro.on_click now lat lon false response scenario ni = Some rep /\
    Stefpro69.on_click now lat lon false response scenario ni = Some rep /\
    Stefpro.on_click now lat lon false Py.Raised scenario ni = Some rep /\
    10 <= Report.T rep <= 39.2 /\
    (20 <= Report.risk rep <= 100)%Z /\
    exists y : Z,
      Report.collapse_year rep = Some y /\ (2029 <= y <= 2034)%Z.
Proof.
  intro Hni. unfold Stefpro.on_click, Stefpro69.on_click.
  change (Stefpro69.get_temperature_fallback now lat lon)
    with (Stefpro.get_temperature_fallback now lat lon).
  set (td := Stefpro.get_temperature_fallback now lat lon).
  change (Stefpro69.analyse td scenario ni)
    with (Stefpro.analyse td scenario ni).
  destruct (analyse_some td scenario ni Hni)
    as (rep & A & ET & B & _ & _ & C).
  exists rep. repeat (split; [ exact A | ]).
  assert (Htd : 10 <= temperature td <= 36).
  { unfold td. rewrite fallback_unfold.
    apply (round1_R_between 10 36). apply clamp_range. }
  assert (HT : 10 <= Report.T rep <= 39.2).
  { rewrite ET.
    destruct (temp_shift_cases scenario) as [-> | [-> | ->]]; split; lra. }
  split; [ exact HT | ].
  pose proof (threshold_range ni Hni) as [Hlo Hhi].
  assert (HR : (20 <= Report.risk rep <= 100)%Z).
  { destruct (risk_cases ni Hni (Report.T rep))
      as [[H E] | [[H (r & Hr & Er & E)] | [[H (r & Hr & Er & E)] | [H (r & Hr & Er & E)]]]];
      rewrite E in B; injection B as <- _; try lia.
    assert (20 <= Py.int (stable_value (Report.T rep)))%Z.
    { apply int_ge. pose proof (stable_value_eq (Report.T rep)).
      unfold inject_Z. lra. }
    lia. }
  split; [ exact HR | ]. rewrite C.
  assert (H0 : (0 <= Report.risk rep)%Z) by lia.
  destruct (collapse_year_antitone 0 _ 2040 H0 collapse_year_0)
    as (y & E & Hy).
  exists y. split; [ exact E | ].
  apply collapse_year_some in E. destruct E as (Hrange & Hlt & Hmin).
  split.
  - apply Z.le_ngt. intro Hearly.
    apply (pct_early (Report.risk rep) y); [ lia | lia | exact Hlt ].
  - apply Z.le_ngt. intro Hlate.
    apply (Hmin 2034%Z); [ lia | apply pct_2034; lia ].
Qed.

Lemma model_mode_range_witness :
  0 <= 1 <= 1 /\
  exists rep : Report.t,
    Stefpro.on_click noon 36.8 34.6 false Py.Raised "Present Day (Baseline)" 1
    = Some rep /\
    (20 <= Report.risk rep <= 100)%Z.
Proof.
  assert (H : 0 <= 1 <= 1) by (unfold Qle; simpl; lia).
  split; [ exact H | ].
  destruct (model_mode_range noon 36.8 34.6 Py.Raised
              "Present Day (Baseline)" 1 H)
    as (rep & A & _ & _ & _ & HR & _).
  exists rep. split; [ exact A | exact HR ].
Defined.

(** ** Further properties: the live reading *)





Section BooleanCell.

Import PrimFloat.

(** X20: a boolean cell is not rejected.  When the status is 200 and the
    cell [table.rows[0][3]] is JSON [true] or [false], both files return a
    live reading ([success = True], source 'NOAA Satellite (Live)') whose
    temperature is [round(1 - 273.15, 1) = -272.1] or
    [round(0 - 273.15, 1) = -273.1], and not the fallback. *)
Theorem boolean_cell_is_live (now : Py.datetime) (lat lon : Q)
    (data : B64.value) (b : bool) :
  Query.cell data = Some (B64.VBool b) ->
  let r := Stefpro_binary64.get_sea_temperature_live now lat lon
             (B64.Response 200 (Some data)) in
  Stefpro69_binary64.get_sea_temperature_live now lat lon
    (B64.Response 200 (Some data)) = r /\
  B64.success r = true /\
  B64.source r = "NOAA Satellite (Live)"%string /\
  B64.temperature r = (if b then -272.1 else -273.1)%float /\
  r <> Stefpro_binary64.get_temperature_fallback now lat lon.
Proof.
  intros Hc r.
  split; [ reflexivity | ].
  unfold r, Stefpro_binary64.get_sea_temperature_live.
  rewrite live_try_cell64, Hc. simpl.
  split; [ reflexivity | ]. split; [ reflexivity | ].
  split; [ destruct b; vm_compute; reflexivity | ].
  intro E. apply (f_equal B64.success) in E. discriminate E.
Qed.

Lemma boolean_cell_is_live_witness :
  Query.cell (Query.payload (B64.VBool true)) = Some (B64.VBool true) /\
  B64.temperature
    (Stefpro_binary64.get_sea_temperature_live noon 36.8 34.6
       (B64.Response 200 (Some (Query.payload (B64.VBool true)))))
  = (-272.1)%float.
Proof.
  assert (H : Query.cell (Query.payload (B64.VBool true))
              = Some (B64.VBool true)) by reflexivity.
  split; [ exact H | ].
  apply (boolean_cell_is_live noon 36.8 34.6 _ true H).
Defined.

End BooleanCell.

(** ** Further properties: the charts and the banner *)

Section Charts.

Local Open Scope R_scope.

(** [e^-1.925 > 1/7], by seven squarings of [e^(-1.925/128) > 1 - 1.925/128]. *)
Lemma exp_m1925 : 1 / 7 < exp (- (77 / 40)).
Proof.
  assert (H0 : 5043 / 5120 < exp (- (77 / 5120))).
  { pose proof (exp_ineq1 (- (77 / 5120))) as H.
    assert (E : - (77 / 5120) <> 0) by lra. specialize (H E). lra. }
  assert (H1 : 0.97014804 < exp (- (77 / 2560)))
    by (apply (sq_lower (5043 / 5120) _ (- (77 / 5120)));
        [ lra | lra | exact H0 | lra ]).
  assert (H2 : 0.94118721 < exp (- (77 / 1280)))
    by (apply (sq_lower 0.97014804 _ (- (77 / 2560)));
        [ lra | lra | exact H1 | lra ]).
  assert (H3 : 0.88583336 < exp (- (77 / 640)))
    by (apply (sq_lower 0.94118721 _ (- (77 / 1280)));
        [ lra | lra | exact H2 | lra ]).
  assert (H4 : 0.78470074 < exp (- (77 / 320)))
    by (apply (sq_lower 0.88583336 _ (- (77 / 640)));
        [ lra | lra | exact H3 | lra ]).
  assert (H5 : 0.61575525 < exp (- (77 / 160)))
    by (apply (sq_lower 0.78470074 _ (- (77 / 320)));
        [ lra | lra | exact H4 | lra ]).
  assert (H6 : 0.37915452 < exp (- (77 / 80)))
    by (apply (sq_lower 0.61575525 _ (- (77 / 160)));
        [ lra | lra | exact H5 | lra ]).
  assert (H7 : 0.14375815 < exp (- (77 / 40)))
    by (apply (sq_lower 0.37915452 _ (- (77 / 80)));
        [ lra | lra | exact H6 | lra ]).
  lra.
Qed.

(** [e^1.98 > 7], by six squarings of [e^(1.98/64) > 1 + 1.98/64]. *)
Lemma exp_198 : 7 < exp (99 / 50).
Proof.
  assert (H0 : 3299 / 3200 < exp (99 / 3200)).
  { pose proof (exp_ineq1 (99 / 3200)) as H.
    assert (E : 99 / 3200 <> 0) by lra. specialize (H E). lra. }
  assert (H1 : 1.06283212 < exp (99 / 1600))
    by (apply (sq_lower (3299 / 3200) _ (99 / 3200));
        [ lra | lra | exact H0 | lra ]).
  assert (H2 : 1.12961211 < exp (99 / 800))
    by (apply (sq_lower 1.06283212 _ (99 / 1600));
        [ lra | lra | exact H1 | lra ]).
  assert (H3 : 1.27602351 < exp (99 / 400))
    by (apply (sq_lower 1.12961211 _ (99 / 800));
        [ lra | lra | exact H2 | lra ]).
  assert (H4 : 1.62823599 < exp (99 / 200))
    by (apply (sq_lower 1.27602351 _ (99 / 400));
        [ lra | lra | exact H3 | lra ]).
  assert (H5 : 2.65115243 < exp (99 / 100))
    by (apply (sq_lower 1.62823599 _ (99 / 200));
        [ lra | lra | exact H4 | lra ]).
  assert (H6 : 7.0286092 < exp (99 / 50))
    by (apply (sq_lower 2.65115243 _ (99 / 100));
        [ lra | lra | exact H5 | lra ]).
  lra.
Qed.

(** Supply exceeds demand exactly while [e^(0.11 x) < 7]. *)
Lemma surplus_iff (x : R) :
  Stefpro.demand x < Stefpro.supply x <-> exp (0.11 * x) < 7.
Proof.
  unfold Stefpro.demand, Stefpro.supply.
  replace (0.09 * x) with (0.11 * x + - 0.02 * x) by lra.
  rewrite exp_plus.
  pose proof (exp_pos (- 0.02 * x)) as P.
  pose proof (exp_pos (0.11 * x)) as P'.
  split; intro H; nra.
Qed.

Lemma surplus_true (x : R) : Stefpro.surplus x = true <-> exp (0.11 * x) < 7.
Proof.
  rewrite <- surplus_iff. unfold Stefpro.surplus.
  destruct (Rlt_dec (Stefpro.demand x) (Stefpro.supply x));
    split; intro; auto; discriminate.
Qed.

Lemma deficit_true (x : R) : Stefpro.deficit x = true <-> 7 <= exp (0.11 * x).
Proof.
  pose proof (surplus_iff x) as S. unfold Stefpro.deficit.
  destruct (Rle_dec (Stefpro.supply x) (Stefpro.demand x)) as [H | H];
    split; intro A; try reflexivity; try discriminate.
  - apply Rnot_lt_le. intro B. apply S in B. lra.
  - exfalso. apply H. apply Rnot_lt_le. intro B. apply S in B. lra.
Qed.

Lemma linspace_nth (i : nat) :
  (i < 200)%nat ->
  nth i Stefpro.linspace 0 = 10 + INR i * (26 / 199).
Proof.
  intro H. unfold Stefpro.linspace.
  set (f := fun i : nat => 10 + INR i * ((36 - 10) / 199)).
  rewrite (nth_indep _ 0 (f 0%nat))
    by (rewrite length_map, length_seq; exact H).
  rewrite map_nth, seq_nth by exact H. unfold f. simpl. lra.
Qed.

Lemma seasonal_nth (T : Q) (k : nat) :
  (k < 12)%nat ->
  nth k (Stefpro.seasonal T) 0
  = Q2R T + 5 * sin (IZR (Z.of_nat k - 4) * PI / 6).
Proof.
  intro H. unfold Stefpro.seasonal, Stefpro.months.
  set (g := fun k : nat => (1 + Z.of_nat k)%Z).
  set (f := fun m : Z => Q2R T + 5 * sin (IZR (m - 5) * PI / 6)).
  rewrite (nth_indep _ 0 (f (g 0%nat)))
    by (rewrite !length_map, length_seq; exact H).
  rewrite !map_nth, seq_nth by exact H. unfold f, g. simpl (0 + k)%nat.
  replace (1 + Z.of_nat k - 5)%Z with (Z.of_nat k - 4)%Z by lia.
  reflexivity.
Qed.

End Charts.

(** X21: the oxygen budget of tab 2 turns once.  At every temperature
    exactly one of the two masks (surplus, deficit) holds; once the budget
    is in deficit it stays in deficit at every higher temperature; it is in
    surplus up to 17.5 degrees and in deficit from 18 degrees on; and the
    200 abscissas of the chart run from 10 to 36. *)
Theorem oxygen_budget (x y : R) :
  (x <= y)%R ->
  Stefpro.surplus x = negb (Stefpro.deficit x) /\
  (Stefpro.deficit x = true -> Stefpro.deficit y = true) /\
  (Stefpro.surplus y = true -> Stefpro.surplus x = true) /\
  ((y <= 17.5)%R -> Stefpro.surplus x = true) /\
  ((18 <= x)%R -> Stefpro.deficit y = true) /\
  length Stefpro.linspace = 200%nat /\
  nth 0 Stefpro.linspace 0%R = 10%R /\
  nth 199 Stefpro.linspace 0%R = 36%R /\
  Stefpro69.surplus x = Stefpro.surplus x /\
  Stefpro69.deficit x = Stefpro.deficit x /\
  Stefpro69.linspace = Stefpro.linspace.
Proof.
  intro Hxy.
  assert (Hm : (exp (0.11 * x) <= exp (0.11 * y))%R) by (apply exp_le; lra).
  split.
  { destruct (Stefpro.deficit x) eqn:D; simpl.
    - apply deficit_true in D.
      destruct (Stefpro.surplus x) eqn:S; [ | reflexivity ].
      apply surplus_true in S. lra.
    - destruct (Stefpro.surplus x) eqn:S; [ reflexivity | ].
      exfalso.
      destruct (Rlt_le_dec (exp (0.11 * x)) 7) as [A | A].
      + apply surplus_true in A. congruence.
      + apply deficit_true in A. congruence. }
  split; [ intro D; apply deficit_true in D; apply deficit_true; lra | ].
  split; [ intro S; apply surplus_true in S; apply surplus_true; lra | ].
  split.
  { intro H. apply surplus_true.
    assert (A : (exp (0.11 * x) <= exp (77 / 40))%R) by (apply exp_le; lra).
    pose proof exp_m1925 as B. rewrite exp_Ropp in B.
    pose proof (exp_pos (77 / 40)) as P.
    assert (I : (exp (77 / 40) * / exp (77 / 40) = 1)%R)
      by (apply Rinv_r; lra).
    assert (C : (exp (77 / 40) < 7)%R) by nra.
    lra. }
  split.
  { intro H. apply deficit_true.
    assert (A : (exp (99 / 50) <= exp (0.11 * y))%R) by (apply exp_le; lra).
    pose proof exp_198. lra. }
  split; [ reflexivity | ].
  split; [ rewrite linspace_nth by lia; simpl; lra | ].
  split; [ rewrite linspace_nth by lia | repeat split; reflexivity ].
  replace (INR 199) with 199%R by (rewrite INR_IZR_INZ; reflexivity).
  lra.
Qed.

Lemma oxygen_budget_witness :
  (15 <= 17)%R /\ Stefpro.surplus 15 = true.
Proof.
  assert (H : (15 <= 17)%R) by lra.
  split; [ exact H | ].
  destruct (oxygen_budget 15 17 H) as (_ & _ & _ & Hs & _).
  apply Hs. lra.
Defined.

(** X22: the annual cycle of tab 4 has twelve values, all within 5 degrees
    of the effective temperature; it peaks in August at [T + 5], is lowest
    in February at [T - 5], and passes through [T] in May and November. *)
Theorem annual_cycle (T : Q) (k : nat) :
  (k < 12)%nat ->
  length (Stefpro.seasonal T) = 12%nat /\
  nth k Stefpro.months 0%Z = (1 + Z.of_nat k)%Z /\
  (Q2R T - 5 <= nth k (Stefpro.seasonal T) 0 <= Q2R T + 5)%R /\
  nth 7 (Stefpro.seasonal T) 0%R = (Q2R T + 5)%R /\
  nth 1 (Stefpro.seasonal T) 0%R = (Q2R T - 5)%R /\
  nth 4 (Stefpro.seasonal T) 0%R = Q2R T /\
  nth 10 (Stefpro.seasonal T) 0%R = Q2R T /\
  Stefpro69.seasonal T = Stefpro.seasonal T.
Proof.
  intro Hk.
  split; [ reflexivity | ].
  split.
  { unfold Stefpro.months.
    set (g := fun k : nat => (1 + Z.of_nat k)%Z).
    rewrite (nth_indep _ 0%Z (g 0%nat))
      by (rewrite length_map, length_seq; exact Hk).
    rewrite map_nth, seq_nth by exact Hk. reflexivity. }
  split.
  { rewrite seasonal_nth by exact Hk.
    pose proof (SIN_bound (IZR (Z.of_nat k - 4) * PI / 6)) as [Hlo Hhi].
    split; lra. }
  split.
  { rewrite seasonal_nth by lia.
    replace (IZR (Z.of_nat 7 - 4) * PI / 6)%R with (PI / 2)%R
      by (simpl; lra).
    rewrite sin_PI2. lra. }
  split.
  { rewrite seasonal_nth by lia.
    replace (IZR (Z.of_nat 1 - 4) * PI / 6)%R with (- (PI / 2))%R
      by (simpl; lra).
    rewrite sin_neg, sin_PI2. lra. }
  split.
  { rewrite seasonal_nth by lia.
    replace (IZR (Z.of_nat 4 - 4) * PI / 6)%R with 0%R by (simpl; lra).
    rewrite sin_0. lra. }
  split; [ | reflexivity ].
  rewrite seasonal_nth by lia.
  replace (IZR (Z.of_nat 10 - 4) * PI / 6)%R with PI by (simpl; lra).
  rewrite sin_PI. lra.
Qed.

Lemma annual_cycle_witness :
  (7 < 12)%nat /\ nth 7 Stefpro.months 0%Z = 8%Z /\
  nth 7 (Stefpro.seasonal 24) 0%R = (Q2R 24 + 5)%R.
Proof.
  assert (H : (7 < 12)%nat) by lia.
  split; [ exact H | ].
  destruct (annual_cycle 24 7 H) as (_ & Hm & _ & Ha & _).
  split; [ exact Hm | exact Ha ].
Defined.

(** X23: the banner under the controls against the penalty it announces.
    For [ni] in [0,1] the STARVATION error shows exactly when [ni < 0.4];
    the penalty on the threshold is then above 0.642 degrees and at most
    1.07, the figure of the banner, which it reaches at [ni = 0] only.
    With no banner ([ni >= 0.7]) the penalty is still up to 0.321 degrees,
    and it is zero at [ni = 1] only. *)
Theorem ni_banner_penalty (ni : Q) :
  0 <= ni <= 1 ->
  let level := option_map St.level_of (Stefpro.ni_banner ni) in
  (level = Some St.Error <-> ni < 0.4) /\
  (level = Some St.Warning <-> 0.4 <= ni < 0.7) /\
  (level = None <-> 0.7 <= ni) /\
  (level = Some St.Error ->
   0.642 < Stefpro.starvation_penalty ni <= 1.07 /\
   (Stefpro.starvation_penalty ni == 1.07 <-> ni == 0)) /\
  (level = None ->
   0 <= Stefpro.starvation_penalty ni <= 0.321 /\
   (Stefpro.starvation_penalty ni == 0 <-> ni == 1)) /\
  option_map St.level_of (Stefpro69.ni_banner ni) = level.
Proof.
  intros [H0 H1] level. unfold level, Stefpro.ni_banner, Stefpro69.ni_banner.
  assert (Ep : Stefpro.starvation_penalty ni == 1.07 * (1 - ni))
    by reflexivity.
  destruct (Py.lt ni 0.4) eqn:E4;
    [ apply lt_true in E4 | apply lt_false in E4;
      destruct (Py.lt ni 0.7) eqn:E7;
      [ apply lt_true in E7 | apply lt_false in E7 ] ];
    simpl; repeat apply conj; intros;
    try reflexivity; try discriminate; try lra.
Qed.

Lemma ni_banner_penalty_witness :
  0 <= 0.2 <= 1 /\
  (option_map St.level_of (Stefpro.ni_banner 0.2) = Some St.Error
   <-> 0.2 < 0.4).
Proof.
  assert (H : 0 <= 0.2 <= 1) by (unfold Qle; simpl; lia).
  split; [ exact H | apply (ni_banner_penalty 0.2 H) ].
Defined.

(** ** Further properties: the payload and the live mode *)

Section LiveShape.

Import PrimFloat.

(** X24: the reading of either file is live ([success = True]) exactly
    when the response has the shape the code indexes and a cell it can
    subtract from: the status is 200 and the body is a dict whose ['table']
    is a dict whose ['rows'] is a list whose first element is a list whose
    fourth element is a float, an integer that fits a float, or a boolean.
    A str, a dict or a short list at any of these places, or an integer of
    more than 1024 bits, gives the fallback reading. *)
Theorem live_iff_shape (now : Py.datetime) (lat lon : Q)
    (response : B64.http_result) :
  (B64.success
     (Stefpro_binary64.get_sea_temperature_live now lat lon response) = true
   <->
   exists (d t : list (string * B64.value)) (row rest : list B64.value)
          (c : B64.value),
     response = B64.Response 200 (Some (B64.VDict d)) /\
     B64.assoc "table" d = Some (B64.VDict t) /\
     B64.assoc "rows" t = Some (B64.VList (B64.VList row :: rest)) /\
     nth_error row 3 = Some c /\
     ((exists x : PrimFloat.float, c = B64.VFloat x) \/
      (exists n : Z, c = B64.VInt n /\ B64.of_Z n <> None) \/
      (exists b : bool, c = B64.VBool b))) /\
  B64.success
    (Stefpro69_binary64.get_sea_temperature_live now lat lon response)
  = B64.success
      (Stefpro_binary64.get_sea_temperature_live now lat lon response) /\
  B64.of_Z (2 ^ 1024 - 2 ^ 970 - 1) <> None /\
  B64.of_Z (2 ^ 1024 - 2 ^ 970) = None /\
  B64.of_Z (- (2 ^ 1024 - 2 ^ 970)) = None.
Proof.
  split; [ | split; [ reflexivity | ] ].
  - rewrite live_success64, live_shape.
    split.
    + intros (d & t & row & rest & c & E & Et & Er & Hn & Hx).
      exists d, t, row, rest, c. rewrite <- to_float_cases. auto.
    + intros (d & t & row & rest & c & E & Et & Er & Hn & Hx).
      exists d, t, row, rest, c. rewrite to_float_cases. auto.
  - split; [ vm_compute; discriminate | ].
    split; vm_compute; reflexivity.
Qed.

End LiveShape.

(** X25: a failed live query gives the model-mode analysis.  With the
    live-data box ticked and a failed query, a click returns exactly what it
    returns with the box unticked, in either file. *)
Theorem failed_live_is_model_mode (now : Py.datetime) (lat lon : Q)
    (response : Py.http_result) (scenario : string) (ni : Q) :
  failed response ->
  Stefpro.on_click now lat lon true response scenario ni
  = Stefpro.on_click now lat lon false response scenario ni /\
  Stefpro69.on_click now lat lon true response scenario ni
  = Stefpro.on_click now lat lon false response scenario ni.
Proof.
  intro F. unfold Stefpro69.on_click, Stefpro.on_click.
  change (Stefpro69.get_sea_temperature_live now lat lon response)
    with (Stefpro.get_sea_temperature_live now lat lon response).
  unfold Stefpro.get_sea_temperature_live.
  rewrite (live_try_failed now response F). split; reflexivity.
Qed.

Lemma failed_live_is_model_mode_witness :
  failed (Py.Response 503 None) /\
  Stefpro.on_click noon 36.8 34.6 true (Py.Response 503 None)
    "Present Day (Baseline)" 1
  = Stefpro.on_click noon 36.8 34.6 false (Py.Response 503 None)
      "Present Day (Baseline)" 1.
Proof.
  assert (F : failed (Py.Response 503 None))
    by (apply f_status; discriminate).
  split; [ exact F | ].
  apply (failed_live_is_model_mode noon 36.8 34.6 _
           "Present Day (Baseline)" 1 F).
Defined.
